(** * Investment advisor notebook: run driver, tool dispatch and price lookup

    A shallow embedding of the code cells of
    [scenarios/Agents/samples/investment_advisor/agent-investment_advisor.ipynb]:
    [fetch_stock_price], the function registry [available_functions], the
    manual [requires_action] cell and [process_message].

    Python values are modelled as follows.
    - [str] is [string]; f-strings are concatenations with [+:+].
    - An exception is [type(e).__name__], its class with the classes it
      inherits from, and [str(e)]; only instances of [Exception] are
      modelled.
    - A call that may raise returns a [result]; a call on the remote agent
      service or on the console runs in the monad [M] of a [Session], which
      threads the state of the service, the local files and the log of
      everything the driver did, in the order it did it.
    - [while True] is unrolled with fuel; running out of fuel is the
      distinct completion [Polling], never confused with a return. *)

From stdpp Require Import base strings list gmap.
From Stdlib Require Import Ascii.

(** ** Python strings *)

Module PyStr.

(** The line feed written as a backslash-n escape in the source. *)
Definition nl : string := String (ascii_of_nat 10) EmptyString.

Definition is_lower (c : ascii) : bool :=
  (97 <=? nat_of_ascii c)%nat && (nat_of_ascii c <=? 122)%nat.

Definition is_upper (c : ascii) : bool :=
  (65 <=? nat_of_ascii c)%nat && (nat_of_ascii c <=? 90)%nat.

Definition upper_ascii (c : ascii) : ascii :=
  if is_lower c then ascii_of_nat (nat_of_ascii c - 32) else c.

Definition lower_ascii (c : ascii) : ascii :=
  if is_upper c then ascii_of_nat (nat_of_ascii c + 32) else c.

Fixpoint lower (s : string) : string :=
  match s with
  | EmptyString => EmptyString
  | String c s' => String (lower_ascii c) (lower s')
  end.

(** [str.capitalize()]: first character upper case, the rest lower case. *)
Definition capitalize (s : string) : string :=
  match s with
  | EmptyString => EmptyString
  | String c s' => String (upper_ascii c) (lower s')
  end.

(** [sub in s] on strings. *)
Fixpoint contains (sub s : string) : bool :=
  String.prefix sub s
  || match s with
     | EmptyString => false
     | String _ s' => contains sub s'
     end.

(** [str(x)] of an optional string: [None] prints as the word None. *)
Definition str_option (content : option string) : string :=
  match content with
  | Some v => v
  | None => "None"
  end.

End PyStr.

(** ** Exceptions and fallible calls *)

Record exn := mk_exn {
  exn_type : string;        (* type(e).__name__ *)
  exn_mro : list string;    (* the class and the classes it inherits from, by
                               qualified name, up to Exception *)
  exn_msg : string          (* str(e) *)
}.

#[global] Instance exn_eq_dec : EqDecision exn.
Proof. solve_decision. Defined.

Definition Exception (msg : string) : exn := mk_exn "Exception" ["builtins.Exception"] msg.
Definition ValueError (msg : string) : exn :=
  mk_exn "ValueError" ["builtins.ValueError"; "builtins.Exception"] msg.
Definition KeyError (key : string) : exn :=
  mk_exn "KeyError" ["builtins.KeyError"; "builtins.LookupError"; "builtins.Exception"]
    ("'" +:+ key +:+ "'").
Definition IndexError (msg : string) : exn :=
  mk_exn "IndexError" ["builtins.IndexError"; "builtins.LookupError"; "builtins.Exception"]
    msg.
Definition TypeError (msg : string) : exn :=
  mk_exn "TypeError" ["builtins.TypeError"; "builtins.Exception"] msg.
Definition AttributeError (msg : string) : exn :=
  mk_exn "AttributeError" ["builtins.AttributeError"; "builtins.Exception"] msg.
Definition JSONDecodeError (msg : string) : exn :=
  mk_exn "JSONDecodeError"
    ["json.decoder.JSONDecodeError"; "builtins.ValueError"; "builtins.Exception"] msg.
Definition HttpResponseError (msg : string) : exn :=
  mk_exn "HttpResponseError"
    ["azure.core.exceptions.HttpResponseError"; "azure.core.exceptions.AzureError";
     "builtins.Exception"] msg.
Definition UnboundLocalError (name : string) : exn :=
  mk_exn "UnboundLocalError"
    ["builtins.UnboundLocalError"; "builtins.NameError"; "builtins.Exception"]
    ("cannot access local variable '" +:+ name
       +:+ "' where it is not associated with a value").
Definition FileNotFoundError (msg : string) : exn :=
  mk_exn "FileNotFoundError"
    ["builtins.FileNotFoundError"; "builtins.OSError"; "builtins.Exception"] msg.

(** The exception of opening a file that is not there. *)
Definition no_such_file (path : string) : exn :=
  FileNotFoundError ("[Errno 2] No such file or directory: '" +:+ path +:+ "'").

(** [isinstance(e, cls)]: [cls] is the class of [e] or one it inherits from. *)
Definition isinstance (e : exn) (cls : string) : bool := bool_decide (cls ∈ exn_mro e).

(** [except KeyError]: the handler is selected by the exception's class, not
    by its name, so it also takes the subclasses of [KeyError]. *)
Definition is_KeyError (e : exn) : bool := isinstance e "builtins.KeyError".

Inductive result (A : Type) : Type :=
| Ok (a : A)
| Raise (e : exn).
Arguments Ok {A} a.
Arguments Raise {A} e.

#[global] Instance result_ret : MRet result := fun A a => Ok a.
#[global] Instance result_bind : MBind result :=
  fun A B f m => match m with Ok a => f a | Raise e => Raise e end.

(** ** The price lookup adapter: [fetch_stock_price]

    The market-data provider ([yfinance]) and the float routines [round] and
    [str] are outside the notebook and are taken as parameters. *)

Section PriceLookup.

Context {float : Type}.

(** What the notebook reads of a pandas [DataFrame]: its row index and its
    named columns. *)
Record DataFrame := {
  df_index : list string;
  df_columns : list (string * list float)
}.

(** [DataFrame.empty]: true when either axis has length 0. *)
Definition empty (df : DataFrame) : bool :=
  match df_index df, df_columns df with
  | [], _ => true
  | _, [] => true
  | _, _ => false
  end.

Fixpoint column (key : string) (cols : list (string * list float)) : option (list float) :=
  match cols with
  | [] => None
  | (k, series) :: rest => if bool_decide (k = key) then Some series else column key rest
  end.

(** [df[key]] *)
Definition getitem (df : DataFrame) (key : string) : result (list float) :=
  match column key (df_columns df) with
  | Some series => Ok series
  | None => Raise (KeyError key)
  end.

(** [series.iloc[-1]] *)
Definition iloc_last (series : list float) : result float :=
  match last series with
  | Some x => Ok x
  | None => Raise (IndexError "single positional indexer is out-of-bounds")
  end.

Variable round : float -> nat -> float.
Variable str : float -> string.
(** [yf.Ticker(ticker_symbol).history(period="1d")] *)
Variable history : string -> result DataFrame.

(** The body of the [try] block. *)
Definition fetch_stock_price_try (ticker_symbol : string) : result string :=
  stock_data ← history ticker_symbol;
  if empty stock_data then
    Ok ("Error: No data found for ticker symbol: " +:+ ticker_symbol)
  else
    close ← getitem stock_data "Close";
    latest_close_price ← iloc_last close;
    Ok (str (round latest_close_price 3)).

Definition fetch_stock_price (ticker_symbol : string) : string :=
  match fetch_stock_price_try ticker_symbol with
  | Ok s => s
  | Raise e =>
      if is_KeyError e then
        "Error: Data missing for key: " +:+ exn_msg e +:+ ". Verify the ticker symbol."
      else
        "Error: Unexpected issue occurred - " +:+ exn_type e +:+ ": " +:+ exn_msg e
  end.

End PriceLookup.

(** ** Data model of the agent service *)

(** [call.function]: the requested name and the JSON text of the arguments. *)
Record FunctionDetails := {
  name : string;
  arguments : string
}.

(** A pending tool call.  Only calls of type function carry [function]; reading
    the attribute of another call raises [AttributeError]. *)
Record RequiredToolCall := {
  call_id : string;
  call_type : string;
  call_function : option FunctionDetails
}.

(** [run.required_action]; [tool_calls] stands for
    [submit_tool_outputs.tool_calls], which may be [None]. *)
Record RequiredAction := {
  action_type : string;
  tool_calls : option (list RequiredToolCall)
}.

Record ThreadRun := {
  run_id : string;
  status : string;
  required_action : option RequiredAction
}.

(** One content part of a message, by the attribute the notebook tests for:
    [text.value], [image_file.file_id], or neither (then [str(part)]). *)
Inductive MessageContent :=
| MessageTextContent (value : string)
| MessageImageFileContent (file_id : string)
| MessageContentOther (repr : string).

Record ThreadMessage := {
  message_id : string;
  role : string;
  content : list MessageContent
}.

Record Attachment := {
  attachment_file_id : string;
  attachment_tools : list string
}.

(** One entry of [tool_responses]. *)
Record ToolOutput := {
  tool_call_id : string;
  output : string
}.

#[global] Instance FunctionDetails_eq_dec : EqDecision FunctionDetails.
Proof. solve_decision. Defined.
#[global] Instance RequiredToolCall_eq_dec : EqDecision RequiredToolCall.
Proof. solve_decision. Defined.
#[global] Instance MessageContent_eq_dec : EqDecision MessageContent.
Proof. solve_decision. Defined.
#[global] Instance ThreadMessage_eq_dec : EqDecision ThreadMessage.
Proof. solve_decision. Defined.
#[global] Instance Attachment_eq_dec : EqDecision Attachment.
Proof. solve_decision. Defined.
#[global] Instance ToolOutput_eq_dec : EqDecision ToolOutput.
Proof. solve_decision. Defined.

(** Keyword arguments after [json.loads] and [**]: the tool schema declares
    every parameter a string. *)
Abbreviation kwargs := (list (string * string)).

(** An entry of the registry: a Python callable applied to keyword arguments.
    Binding the keywords to the parameters can raise [TypeError]. *)
Abbreviation Callable := (kwargs -> result string).

(** ** What the driver does: the log *)

Inductive api_call :=
| CreateMessage (thread_id role content : string) (attachments : option (list Attachment))
| CreateRun (thread_id agent_id instructions : string)
| GetRun (thread_id run_id : string)
| ListMessages (thread_id : string) (order : option string)
| SubmitToolOutputs (thread_id run_id : string) (tool_outputs : list ToolOutput)
| GetFileContent (file_id : string).

Inductive event :=
| Sleep (seconds : nat)                      (* time.sleep *)
| Print (text : string)                      (* print *)
| Request (call : api_call)                  (* a method of agents_client *)
| Invoke (name : string) (keywords : kwargs) (* a registry function called *)
| Unlink (path : string)                     (* Path.unlink *)
| WriteFile (path : string) (chunks : list string)
| Render (path : string).                    (* Image.open, plt.imshow, plt.show *)

#[global] Instance api_call_eq_dec : EqDecision api_call.
Proof. solve_decision. Defined.
#[global] Instance event_eq_dec : EqDecision event.
Proof. solve_decision. Defined.

Definition is_poll (e : event) : bool :=
  match e with Request (GetRun _ _) => true | _ => false end.

Definition is_sleep (e : event) : bool :=
  match e with Sleep _ => true | _ => false end.

Definition is_submit (e : event) : bool :=
  match e with Request (SubmitToolOutputs _ _ _) => true | _ => false end.

Definition is_invoke (e : event) : bool :=
  match e with Invoke _ _ => true | _ => false end.

(** Calls that change what the service stores: a new message, a new run, or
    tool outputs. *)
Definition is_mutation (e : event) : bool :=
  match e with
  | Request (CreateMessage _ _ _ _) => true
  | Request (CreateRun _ _ _) => true
  | Request (SubmitToolOutputs _ _ _) => true
  | _ => false
  end.

Definition is_request (e : event) : bool :=
  match e with Request _ => true | _ => false end.

(** The iterator of byte chunks that [get_file_content] returns: the chunks it
    yields and, when the download breaks off, the exception raised in place of
    the next chunk. *)
Record ByteStream := {
  yielded : list string;
  interrupted : option exn
}.

(** ** The remote agent service, as the notebook's [agents_client] sees it

    Every method takes the state of the service and gives back the answer, or
    the exception the SDK raises, and the next state. *)

Class AgentsClient (Remote : Type) := {
  create_message :
    string -> string -> string -> option (list Attachment) ->
    Remote -> result ThreadMessage * Remote;
  create_run : string -> string -> string -> Remote -> result ThreadRun * Remote;
  get_run : string -> string -> Remote -> result ThreadRun * Remote;
  list_messages : string -> option string -> Remote -> result (list ThreadMessage) * Remote;
  submit_tool_outputs_to_run :
    string -> string -> list ToolOutput -> Remote -> result ThreadRun * Remote;
  get_file_content : string -> Remote -> result ByteStream * Remote
}.

(** ** Sessions and the driver monad *)

Record Session (Remote : Type) := {
  remote : Remote;
  directories : list string;           (* the local folders *)
  files : gmap string (list string);   (* the local files *)
  log : list event
}.
Arguments remote {Remote} _.
Arguments directories {Remote} _.
Arguments files {Remote} _.
Arguments log {Remote} _.

(** How many times the session has fetched the run. *)
Definition polls {Remote : Type} (s : Session Remote) : nat :=
  length (filter (fun e => is_poll e = true) (log s)).

Definition M (Remote A : Type) : Type := Session Remote -> result A * Session Remote.

#[global] Instance M_ret {Remote} : MRet (M Remote) := fun A a s => (Ok a, s).
#[global] Instance M_bind {Remote} : MBind (M Remote) :=
  fun A B f m s =>
    match m s with
    | (Ok a, s') => f a s'
    | (Raise e, s') => (Raise e, s')
    end.

(** [str(Path(path))]: [pathlib] drops the leading dot segments of a relative
    path, and this is the name that an error of [Path.open] carries. *)
Fixpoint path_str (path : string) : string :=
  match path with
  | String "." (String "/" rest) => path_str rest
  | _ => path
  end.

Section Effects.

Context {Remote : Type}.

(** The session after the driver did [evs], in that order. *)
Definition logged (evs : list event) (s : Session Remote) : Session Remote :=
  {| remote := remote s; directories := directories s; files := files s;
     log := log s ++ evs |}.

(** The session after the service moved to [remote']. *)
Definition answered (remote' : Remote) (s : Session Remote) : Session Remote :=
  {| remote := remote'; directories := directories s; files := files s; log := log s |}.

Definition emit (e : event) : M Remote unit := fun s => (Ok tt, logged [e] s).

Definition raise {A} (e : exn) : M Remote A := fun s => (Raise e, s).

Definition lift {A} (r : result A) : M Remote A := fun s => (r, s).

Definition sleep (seconds : nat) : M Remote unit := emit (Sleep seconds).

Definition print (text : string) : M Remote unit := emit (Print text).

(** A method of [agents_client]: logged, then answered by the service. *)
Definition request {A} (c : api_call) (f : Remote -> result A * Remote) : M Remote A :=
  fun s =>
    let '(r, remote') := f (remote s) in
    (r, logged [Request c] (answered remote' s)).

(** [try: body except Exception as e: handler] *)
Definition try_except {A} (body : M Remote A) (handler : exn -> M Remote A) : M Remote A :=
  fun s =>
    match body s with
    | (Ok a, s') => (Ok a, s')
    | (Raise e, s') => handler e s'
    end.

Definition path_exists (path : string) : M Remote bool :=
  fun s => (Ok (bool_decide (is_Some (files s !! path))), s).

Definition unlink (path : string) : M Remote unit :=
  fun s =>
    (Ok tt, {| remote := remote s; directories := directories s;
               files := delete path (files s); log := log s ++ [Unlink path] |}).

(** [with path.open("wb") as f: for chunk in file_content: f.write(chunk)],
    for a [path] in [folder].  Opening raises when the folder is not there;
    otherwise the file is created or emptied and takes the chunks the iterator
    yields, and an iterator that breaks off leaves them in the file and raises
    out of the block. *)
Definition write_file (folder path : string) (file_content : ByteStream) : M Remote unit :=
  fun s =>
    if bool_decide (folder ∈ directories s) then
      let s' := {| remote := remote s; directories := directories s;
                   files := <[path := yielded file_content]> (files s);
                   log := log s ++ [WriteFile path (yielded file_content)] |} in
      match interrupted file_content with
      | None => (Ok tt, s')
      | Some e => (Raise e, s')
      end
    else (Raise (no_such_file (path_str path)), s).

(** [img = Image.open(path); plt.imshow(img); plt.axis("off"); plt.show()],
    where [show_image] is what Pillow and Matplotlib do with the bytes of the
    file: they raise when the bytes are no image. *)
Definition render (show_image : list string -> result unit) (path : string) : M Remote unit :=
  fun s =>
    match files s !! path with
    | Some data =>
        match show_image data with
        | Ok _ => (Ok tt, logged [Render path] s)
        | Raise e => (Raise e, s)
        end
    | None => (Raise (no_such_file path), s)
    end.

(** [for x in xs: body x] *)
Fixpoint for_each {A} (xs : list A) (body : A -> M Remote unit) : M Remote unit :=
  match xs with
  | [] => mret tt
  | x :: rest => body x ;; for_each rest body
  end.

(** Reading a local variable that may not have been assigned. *)
Definition local {A} (name : string) (v : option A) : M Remote A :=
  match v with
  | Some a => mret a
  | None => raise (UnboundLocalError name)
  end.

(** Reading an attribute that the object may not have. *)
Definition getattr {A} (owner attr : string) (v : option A) : M Remote A :=
  match v with
  | Some a => mret a
  | None =>
      raise (AttributeError ("'" +:+ owner +:+ "' object has no attribute '" +:+ attr +:+ "'"))
  end.

End Effects.

(** ** The notebook's driver *)

(** The fixed local path of the downloaded chart, and its folder. *)
Definition chart_path : string := "./data/sample_chart.png".
Definition chart_folder : string := "./data".

(** How one turn of [while True] ends. *)
Inductive flow :=
| Continue (run : ThreadRun)   (* the loop goes round again with this [run] *)
| Break.

(** What a Python call can hand back to its caller. *)
Inductive pyvalue :=
| PyNone
| PyStr (s : string)
| PyMessages (data : list ThreadMessage).

(** How a call of [process_message] ends.  [Polling] is the model running out
    of fuel with the loop still going round. *)
Inductive completion :=
| Returned (v : pyvalue)
| Raised (e : exn)
| Polling.

(** *** What the message loop shows

    The pure part of the content loop of [process_message]: the value left in
    the variable [content] after the parts of one message, and the line printed
    for the message. *)

Definition is_image (part : MessageContent) : bool :=
  match part with MessageImageFileContent _ => true | _ => false end.

Definition has_image (message : ThreadMessage) : bool := existsb is_image (content message).

Definition shown_part (shown : option string) (part : MessageContent) : option string :=
  match part with
  | MessageTextContent value => Some value
  | MessageImageFileContent _ => shown
  | MessageContentOther repr => Some repr
  end.

Definition shown_text (parts : list MessageContent) (shown : option string) : option string :=
  foldl shown_part shown parts.

Definition printed_line (message : ThreadMessage) : list event :=
  match content message with
  | [] => []
  | parts =>
      [Print (PyStr.capitalize (role message) +:+ ": "
                +:+ PyStr.str_option (shown_text parts None))]
  end.

(** What an image part leaves in the log when it is downloaded, saved and
    shown: the request, the removal of an older chart when one [existed], the
    file written with the [chunks] received, and the image rendered. *)
Definition chart_events (file_id : string) (existed : bool) (chunks : list string)
  : list event :=
  [Request (GetFileContent file_id)]
  ++ (if existed then [Unlink chart_path; Print ("Deleted existing file: " +:+ chart_path)]
      else [])
  ++ [WriteFile chart_path chunks;
      Print "Image File downloaded to './data' successfully.";
      Render chart_path].

(** The events of the image branch of the content loop. *)
Definition is_chart_event (e : event) : bool :=
  match e with
  | Request (GetFileContent _) => true
  | Unlink _ => true
  | WriteFile _ _ => true
  | Render _ => true
  | Print text =>
      bool_decide (text = "Deleted existing file: " +:+ chart_path)
      || bool_decide (text = "Image File downloaded to './data' successfully.")
  | _ => false
  end.

(** [parts_shown parts evs]: the content loop went through [parts] without
    raising and left [evs]: nothing for a part that is no image, and for each
    image part, in order, the events of its download. *)
Inductive parts_shown : list MessageContent -> list event -> Prop :=
| no_part : parts_shown [] []
| text_part value parts evs :
    parts_shown parts evs -> parts_shown (MessageTextContent value :: parts) evs
| other_part repr parts evs :
    parts_shown parts evs -> parts_shown (MessageContentOther repr :: parts) evs
| image_part file_id existed chunks parts evs :
    parts_shown parts evs ->
    parts_shown (MessageImageFileContent file_id :: parts)
                (chart_events file_id existed chunks ++ evs).

(** [messages_printed messages evs]: the message loop went through
    [messages] without raising and left [evs]: for each message, in order,
    the events of its image parts and then its line. *)
Inductive messages_printed : list ThreadMessage -> list event -> Prop :=
| no_message : messages_printed [] []
| next_message message messages charts evs :
    parts_shown (content message) charts ->
    messages_printed messages evs ->
    messages_printed (message :: messages) (charts ++ printed_line message ++ evs).

(** The texts of the text parts of a message, in order. *)
Definition text_values (message : ThreadMessage) : list string :=
  omap (fun part => match part with MessageTextContent value => Some value | _ => None end)
       (content message).

(** The events that leave the remote state and the schedule alone: no poll, no
    sleep, no new message, run or tool output. *)
Definition is_quiet (e : event) : bool :=
  negb (is_poll e) && negb (is_sleep e) && negb (is_mutation e).

(** The events that are no call on the service. *)
Definition is_local (e : event) : Prop := is_request e = false.

(** The run waits for the outputs of the batch [calls]. *)
Definition asks_for (run : ThreadRun) (calls : list RequiredToolCall) : Prop :=
  status run = "requires_action"
  /\ required_action run
     = Some {| action_type := "submit_tool_outputs"; tool_calls := Some calls |}.

(** The error of the manual cell for a function that is not registered. *)
Definition unknown_function_error : exn :=
  Exception "Function requested by the model does not exist".

(** The error of [process_message] for a function that is not registered. *)
Definition unavailable_function_error (function : FunctionDetails) : exn :=
  ValueError ("Requested function '" +:+ name function +:+ "' is not available.").

(** The last line of the manual cell. *)
Definition submitted_line : string :=
  "Results submitted successfully. Go back to the first cell, "
    +:+ "'Monitor Run Status' and execute again.".

(** The text that the failed branch reads from a listing,
    [messages.data[0].content[0].text.value], when the listing has it. *)
Definition latest_text (data : list ThreadMessage) : option string :=
  match data with
  | latest :: _ =>
      match content latest with
      | MessageTextContent value :: _ => Some value
      | _ => None
      end
  | [] => None
  end.

(** The text printed on every turn. *)
Definition status_line (run_status : string) : string :=
  "Run Status: " +:+ run_status +:+ PyStr.nl.

(** The text printed for a failed run. *)
Definition failure_report (prompt_message answer : string) : string :=
  "Failed User:" +:+ PyStr.nl +:+ prompt_message +:+ PyStr.nl
    +:+ "Agent:" +:+ PyStr.nl +:+ answer +:+ PyStr.nl.

Section Driver.

Context {Remote : Type} `{client : AgentsClient Remote}.

(** [Image.open] and the [pyplot] calls on the bytes of an image file; they
    are outside the notebook. *)
Variable show_image : list string -> result unit.
(** [json.loads(text)] followed by the [**] unpacking of its result. *)
Variable json_loads : string -> result kwargs.
(** The registry, a dict from function name to callable. *)
Variable available_functions : gmap string Callable.
(** The module-level handles [agent.id] and [thread.id]. *)
Variable agent_id : string.
Variable thread_id_global : string.

Local Abbreviation M := (M Remote).

(** Calling [func] on the decoded [arguments], unpacked as keywords. *)
Definition invoke (fname : string) (func : Callable) (args : string) : M string :=
  keywords ← lift (json_loads args);
  emit (Invoke fname keywords) ;;
  lift (func keywords).

(** *** The manual [requires_action] cell *)

Definition cell_dispatch_call (call : RequiredToolCall) (tool_responses : list ToolOutput)
  : M (list ToolOutput) :=
  if bool_decide (call_type call = "function") then
    function ← getattr "RequiredToolCall" "function" (call_function call);
    match available_functions !! name function with
    | None => raise unknown_function_error
    | Some function_to_call =>
        tool_response ← invoke (name function) function_to_call (arguments function);
        print ("Function '" +:+ name function +:+ "' called successfully. "
                 +:+ PyStr.nl +:+ "Output: " +:+ tool_response +:+ PyStr.nl) ;;
        mret (tool_responses ++ [{| tool_call_id := call_id call; output := tool_response |}])
    end
  else
    mret tool_responses.

Fixpoint cell_dispatch (calls : list RequiredToolCall) (tool_responses : list ToolOutput)
  : M (list ToolOutput) :=
  match calls with
  | [] => mret tool_responses
  | call :: rest =>
      tool_responses' ← cell_dispatch_call call tool_responses;
      cell_dispatch rest tool_responses'
  end.

(** The cell reads the module-level [run] and [thread] and rebinds [run]. *)
Definition requires_action_cell (run : ThreadRun) : M ThreadRun :=
  if bool_decide (status run = "requires_action") then
    print "Function Calling ..." ;;
    action ← getattr "NoneType" "type" (required_action run);
    tool_responses ←
      (if bool_decide (action_type action = "submit_tool_outputs") then
         match tool_calls action with
         | Some calls => cell_dispatch calls []
         | None => mret []
         end
       else mret []);
    run' ← request (SubmitToolOutputs thread_id_global (run_id run) tool_responses)
                   (submit_tool_outputs_to_run thread_id_global (run_id run) tool_responses);
    print submitted_line ;;
    mret run'
  else
    print ("Navigate to and execute the " +:+ status run +:+ " cell.") ;;
    mret run.

(** *** Reading a batch of tool calls

    What the two dispatch loops compute for a call that goes through: the
    decoded keywords and the string the registry function returns. *)

Definition requested (call : RequiredToolCall) : option (string * Callable * string) :=
  if bool_decide (call_type call = "function") then
    function ← call_function call;
    func ← available_functions !! name function;
    Some (name function, func, arguments function)
  else None.

(** The call names a function and the registry does not have it. *)
Definition unknown_function (call : RequiredToolCall) : bool :=
  bool_decide (call_type call = "function")
  && match call_function call with
     | Some function => bool_decide (available_functions !! name function = None)
     | None => false
     end.

(** The output of a call whose function is registered, whose arguments
    decode and whose invocation returns. *)
Definition answer (call : RequiredToolCall) : option string :=
  '(_, func, args) ← requested call;
  match json_loads args with
  | Ok keywords =>
      match func keywords with
      | Ok tool_response => Some tool_response
      | Raise _ => None
      end
  | Raise _ => None
  end.

Definition tool_output_for (call : RequiredToolCall) : option ToolOutput :=
  tool_response ← answer call;
  Some {| tool_call_id := call_id call; output := tool_response |}.

Definition tool_outputs_for (calls : list RequiredToolCall) : list ToolOutput :=
  omap tool_output_for calls.

(** The manual cell steps over a call that is not of type function. *)
Definition cell_passes (call : RequiredToolCall) : bool :=
  bool_decide (call_type call ≠ "function") || bool_decide (is_Some (answer call)).

(** *** [process_message] *)

(** The [try] block that adds the prompt and starts the run.  The handler
    prints and falls through, so [run] may stay unassigned. *)
Definition start_run (thread_id prompt_message : string)
    (attachments_list : option (list Attachment)) : M (option ThreadRun) :=
  try_except
    (request (CreateMessage thread_id "user" prompt_message attachments_list)
             (create_message thread_id "user" prompt_message attachments_list) ;;
     print "User message added..." ;;
     run ← request (CreateRun thread_id agent_id prompt_message)
                   (create_run thread_id agent_id prompt_message);
     print "Run started..." ;;
     mret (Some run))
    (fun e => print ("Error starting run: " +:+ exn_msg e) ;; mret None).

(** The body of [for message_content in thread_message.content]; [content]
    is the variable the enclosing loop prints afterwards. *)
Definition handle_content (content : option string) (message_content : MessageContent)
  : M (option string) :=
  match message_content with
  | MessageTextContent value => mret (Some value)
  | MessageImageFileContent file_id =>
      file_content ← request (GetFileContent file_id) (get_file_content file_id);
      existing ← path_exists chart_path;
      (if existing : bool then
         unlink chart_path ;;
         print ("Deleted existing file: " +:+ chart_path)
       else mret tt) ;;
      write_file chart_folder chart_path file_content ;;
      print "Image File downloaded to './data' successfully." ;;
      render show_image chart_path ;;
      mret content
  | MessageContentOther repr => mret (Some repr)
  end.

Fixpoint handle_contents (parts : list MessageContent) (content : option string)
  : M (option string) :=
  match parts with
  | [] => mret content
  | message_content :: rest =>
      content' ← handle_content content message_content;
      handle_contents rest content'
  end.

(** The body of [for thread_message in thread_messages.data]. *)
Definition print_thread_message (thread_message : ThreadMessage) : M unit :=
  match content thread_message with
  | [] => mret tt
  | parts =>
      shown ← handle_contents parts None;
      print (PyStr.capitalize (role thread_message) +:+ ": " +:+ PyStr.str_option shown)
  end.

(** The [failed] branch: [messages.data[0].content[0].text.value]. *)
Definition first_text (data : list ThreadMessage) : M string :=
  match data with
  | [] => raise (IndexError "list index out of range")
  | latest :: _ =>
      match content latest with
      | [] => raise (IndexError "list index out of range")
      | MessageTextContent value :: _ => mret value
      | _ :: _ => raise (AttributeError "object has no attribute 'text'")
      end
  end.

Definition dispatch_call (call : RequiredToolCall) (tool_responses : list ToolOutput)
  : M (list ToolOutput) :=
  registered ←
    (if bool_decide (call_type call = "function") then
       function ← getattr "RequiredToolCall" "function" (call_function call);
       mret (available_functions !! name function)
     else mret None);
  match registered with
  | Some func =>
      function ← getattr "RequiredToolCall" "function" (call_function call);
      tool_response ← invoke (name function) func (arguments function);
      print ("Executed '" +:+ name function +:+ "'. Output: " +:+ tool_response) ;;
      mret (tool_responses ++ [{| tool_call_id := call_id call; output := tool_response |}])
  | None =>
      function ← getattr "RequiredToolCall" "function" (call_function call);
      raise (unavailable_function_error function)
  end.

Fixpoint dispatch (calls : list RequiredToolCall) (tool_responses : list ToolOutput)
  : M (list ToolOutput) :=
  match calls with
  | [] => mret tool_responses
  | call :: rest =>
      tool_responses' ← dispatch_call call tool_responses;
      dispatch rest tool_responses'
  end.

(** The branch taken when the status is [completed]. *)
Definition on_completed (thread_id : string) : M flow :=
  thread_messages ← request (ListMessages thread_id (Some "asc"))
                            (list_messages thread_id (Some "asc"));
  for_each thread_messages print_thread_message ;;
  mret Break.

(** The branch taken when the status is [failed]; it reads the module-level
    [thread.id], not the parameter [thread_id]. *)
Definition on_failed (prompt_message : string) : M flow :=
  messages ← request (ListMessages thread_id_global None)
                     (list_messages thread_id_global None);
  answer ← first_text messages;
  print (failure_report prompt_message answer) ;;
  mret Break.

(** The branch taken when tool outputs are to be submitted. *)
Definition on_requires_action (thread_id : string) (run : ThreadRun) : M flow :=
  print "Function calling initiated..." ;;
  action ← getattr "NoneType" "submit_tool_outputs" (required_action run);
  calls ← match tool_calls action with
          | Some calls => mret calls
          | None => raise (TypeError "'NoneType' object is not iterable")
          end;
  tool_responses ← dispatch calls [];
  run' ← request (SubmitToolOutputs thread_id (run_id run) tool_responses)
                 (submit_tool_outputs_to_run thread_id (run_id run) tool_responses);
  print "Function call(s) completed successfully." ;;
  mret (Continue run').

(** What one turn does with the run it has just fetched. *)
Definition on_status (thread_id prompt_message : string) (run : ThreadRun) : M flow :=
  let run_status := status run in
  print (status_line run_status) ;;
  if bool_decide (run_status = "completed") then
    on_completed thread_id
  else if bool_decide (status run = "failed") then
    on_failed prompt_message
  else
    submitting ←
      (if bool_decide (status run = "requires_action") then
         action ← getattr "NoneType" "type" (required_action run);
         mret (bool_decide (action_type action = "submit_tool_outputs"))
       else mret false);
    if submitting : bool then
      on_requires_action thread_id run
    else
      sleep 5 ;;
      mret (Continue run).

(** One turn of the [while True] loop. *)
Definition poll_iteration (thread_id prompt_message : string) (run : option ThreadRun)
  : M flow :=
  sleep 5 ;;
  previous ← local "run" run;
  run ← request (GetRun thread_id (run_id previous)) (get_run thread_id (run_id previous));
  on_status thread_id prompt_message run.

Fixpoint polling_loop (fuel : nat) (thread_id prompt_message : string)
    (run : option ThreadRun) (s : Session Remote) : completion * Session Remote :=
  match fuel with
  | 0 => (Polling, s)
  | S fuel' =>
      match poll_iteration thread_id prompt_message run s with
      | (Ok (Continue run'), s') => polling_loop fuel' thread_id prompt_message (Some run') s'
      | (Ok Break, s') => (Returned PyNone, s')
      | (Raise e, s') => (Raised e, s')
      end
  end.

Definition process_message (fuel : nat) (thread_id prompt_message : string)
    (attachments_list : option (list Attachment)) (s : Session Remote)
  : completion * Session Remote :=
  match start_run thread_id prompt_message attachments_list s with
  | (Ok run, s') => polling_loop fuel thread_id prompt_message run s'
  | (Raise e, s') => (Raised e, s')
  end.

End Driver.

(** ** The notebook's registry *)

Section Registry.

Context {float : Type}.
Variable round : float -> nat -> float.
Variable str : float -> string.
Variable history : string -> result (@DataFrame float).

(** Calling [fetch_stock_price] with keyword arguments: the one parameter
    [ticker_symbol] must be given, and nothing else. *)
Definition call_fetch_stock_price : Callable :=
  fun keywords =>
    match keywords with
    | [] =>
        Raise (TypeError ("fetch_stock_price() missing 1 required positional "
                            +:+ "argument: 'ticker_symbol'"))
    | [(key, value)] =>
        if bool_decide (key = "ticker_symbol") then
          Ok (fetch_stock_price round str history value)
        else
          Raise (TypeError ("fetch_stock_price() got an unexpected keyword argument '"
                              +:+ key +:+ "'"))
    | _ :: _ :: _ =>
        Raise (TypeError "fetch_stock_price() got an unexpected keyword argument")
    end.

Definition available_functions : gmap string Callable :=
  {[ "fetch_stock_price" := call_fetch_stock_price ]}.

End Registry.

(** ** A scripted agent service

    A stand-in for the remote service: threads keep their messages in creation
    order, [get_run] answers from a script whose last entry repeats for ever,
    and either start-up call can be made to fail. *)

Module Scripted.

Record Service := {
  threads : gmap string (list ThreadMessage);
  script : list ThreadRun;
  reject_message : option exn;
  reject_run : option exn;
  uploads : gmap string ByteStream;
  submitted : list (list ToolOutput)
}.

Definition with_threads (t : gmap string (list ThreadMessage)) (r : Service) : Service :=
  {| threads := t; script := script r; reject_message := reject_message r;
     reject_run := reject_run r; uploads := uploads r; submitted := submitted r |}.

Definition with_script (sc : list ThreadRun) (r : Service) : Service :=
  {| threads := threads r; script := sc; reject_message := reject_message r;
     reject_run := reject_run r; uploads := uploads r; submitted := submitted r |}.

Definition with_submitted (o : list (list ToolOutput)) (r : Service) : Service :=
  {| threads := threads r; script := script r; reject_message := reject_message r;
     reject_run := reject_run r; uploads := uploads r; submitted := o |}.

Definition scripted_create_message (thread_id role content : string)
    (attachments : option (list Attachment)) (r : Service)
  : result ThreadMessage * Service :=
  match reject_message r with
  | Some e => (Raise e, r)
  | None =>
      let message := {| message_id := "msg_new"; role := role;
                        content := [MessageTextContent content] |} in
      (Ok message,
       with_threads (<[thread_id := default [] (threads r !! thread_id) ++ [message]]>
                       (threads r)) r)
  end.

Definition scripted_create_run (thread_id agent_id instructions : string) (r : Service)
  : result ThreadRun * Service :=
  match reject_run r with
  | Some e => (Raise e, r)
  | None => (Ok {| run_id := "run_1"; status := "queued"; required_action := None |}, r)
  end.

Definition scripted_get_run (thread_id run_id : string) (r : Service)
  : result ThreadRun * Service :=
  match script r with
  | [] => (Raise (HttpResponseError "No run found"), r)
  | [run] => (Ok run, r)
  | run :: later => (Ok run, with_script later r)
  end.

(** Ascending order is creation order; the default is most recent first. *)
Definition scripted_list_messages (thread_id : string) (order : option string) (r : Service)
  : result (list ThreadMessage) * Service :=
  match threads r !! thread_id with
  | None => (Raise (HttpResponseError "No thread found"), r)
  | Some messages =>
      (Ok (if bool_decide (order = Some "asc") then messages else reverse messages), r)
  end.

Definition scripted_submit (thread_id run_id : string) (tool_outputs : list ToolOutput)
    (r : Service) : result ThreadRun * Service :=
  (Ok {| run_id := run_id; status := "queued"; required_action := None |},
   with_submitted (submitted r ++ [tool_outputs]) r).

Definition scripted_get_file_content (file_id : string) (r : Service)
  : result ByteStream * Service :=
  match uploads r !! file_id with
  | Some file_content => (Ok file_content, r)
  | None => (Raise (HttpResponseError "No file found"), r)
  end.

#[global] Instance client : AgentsClient Service := {|
  create_message := scripted_create_message;
  create_run := scripted_create_run;
  get_run := scripted_get_run;
  list_messages := scripted_list_messages;
  submit_tool_outputs_to_run := scripted_submit;
  get_file_content := scripted_get_file_content
|}.

Definition service (t : gmap string (list ThreadMessage)) (sc : list ThreadRun) : Service :=
  {| threads := t; script := sc; reject_message := None; reject_run := None;
     uploads := ∅; submitted := [] |}.

(** A session in the sample's folder: the data folder is there, no chart has
    been downloaded. *)
Definition session (r : Service) : Session Service :=
  {| remote := r; directories := [chart_folder]; files := ∅; log := [] |}.

(** A stand-in for Pillow: the bytes are an image when they start with the
    PNG signature. *)
Definition viewer (data : list string) : result unit :=
  match data with
  | "PNG" :: _ => Ok tt
  | _ => Raise (mk_exn "UnidentifiedImageError"
                       ["PIL.UnidentifiedImageError"; "builtins.OSError";
                        "builtins.Exception"]
                       ("cannot identify image file '" +:+ chart_path +:+ "'"))
  end.

(** *** Worked inputs *)

Definition quote (s : string) : string :=
  String (ascii_of_nat 34) s +:+ String (ascii_of_nat 34) EmptyString.

(** The JSON text of a one-member object of strings. *)
Definition json_object (key value : string) : string :=
  "{" +:+ quote key +:+ ": " +:+ quote value +:+ "}".

(** A decoder for the worked inputs: the one-member objects listed in
    [known] decode to their member, every other text is rejected. *)
Definition json_loads (known : kwargs) (text : string) : result kwargs :=
  match List.find (fun kv => bool_decide (json_object kv.1 kv.2 = text)) known with
  | Some kv => Ok [kv]
  | None => Raise (JSONDecodeError "Expecting value: line 1 column 1 (char 0)")
  end.

Definition known_payloads : kwargs :=
  [("ticker_symbol", "MSFT"); ("ticker_symbol", "AMZN"); ("symbol", "MSFT")].

(** Prices are counted in thousandths, so rounding to three places changes
    nothing, and the decimal text is spelled out for the two quotes used. *)
Definition round (price : N) (ndigits : nat) : N := price.
Definition str (price : N) : string :=
  if (price =? 415320)%N then "415.32"
  else if (price =? 186400)%N then "186.4"
  else "0.0".

Definition ConnectionError (msg : string) : exn :=
  mk_exn "ConnectionError"
    ["requests.exceptions.ConnectionError"; "requests.exceptions.RequestException";
     "builtins.OSError"; "builtins.Exception"] msg.

Definition history (ticker_symbol : string) : result (@DataFrame N) :=
  if bool_decide (ticker_symbol = "MSFT") then
    Ok {| df_index := ["2024-12-02"];
          df_columns := [("Open", [414000%N]); ("Close", [415320%N])] |}
  else if bool_decide (ticker_symbol = "AMZN") then
    Ok {| df_index := ["2024-12-02"]; df_columns := [("Close", [186400%N])] |}
  else if bool_decide (ticker_symbol = "NOCLOSE") then
    Raise (KeyError "Close")
  else if bool_decide (ticker_symbol = "OFFLINE") then
    Raise (ConnectionError "Max retries exceeded")
  else
    Ok {| df_index := []; df_columns := [] |}.

Definition registry : gmap string Callable := available_functions round str history.

Definition function_call (id fname args : string) : RequiredToolCall :=
  {| call_id := id; call_type := "function";
     call_function := Some {| name := fname; arguments := args |} |}.

Definition run_with (st : string) (action : option RequiredAction) : ThreadRun :=
  {| run_id := "run_1"; status := st; required_action := action |}.

Definition asking (calls : list RequiredToolCall) : ThreadRun :=
  run_with "requires_action"
    (Some {| action_type := "submit_tool_outputs"; tool_calls := Some calls |}).

Definition text_message (id who text : string) : ThreadMessage :=
  {| message_id := id; role := who; content := [MessageTextContent text] |}.

(** The two threads, the decoder and the tool calls of the worked inputs. *)

Definition decoder : string -> result kwargs := json_loads known_payloads.

Definition two_threads : gmap string (list ThreadMessage) :=
  {[ "thread_A" := [text_message "msg_1" "user" "What is the price of MSFT?";
                    text_message "msg_2" "assistant" "Rate limit is exceeded."];
     "thread_B" := [text_message "msg_3" "user" "Show a pie chart"] ]}.

Definition msft_call : RequiredToolCall :=
  function_call "call_1" "fetch_stock_price" (json_object "ticker_symbol" "MSFT").

Definition amzn_call : RequiredToolCall :=
  function_call "call_2" "fetch_stock_price" (json_object "ticker_symbol" "AMZN").

(** Arguments that are no JSON text: the bare word MSFT. *)
Definition undecodable_call : RequiredToolCall :=
  function_call "call_1" "fetch_stock_price" "MSFT".

Definition sell_call : RequiredToolCall :=
  function_call "call_2" "sell_stock" (json_object "ticker_symbol" "MSFT").

Definition queued_run : ThreadRun := run_with "queued" None.

Definition scripted (sc : list ThreadRun) : Session Service := session (service two_threads sc).

End Scripted.

(** ** Further readings of a run and of the log *)

Definition sleep_seconds (e : event) : nat :=
  match e with Sleep seconds => seconds | _ => 0 end.

(** The seconds the session has spent in [time.sleep]. *)
Definition slept {Remote : Type} (s : Session Remote) : nat :=
  sum_list_with sleep_seconds (log s).

(** A run on which a turn of [process_message] takes no branch: its status is
    neither [completed] nor [failed], and it does not ask for tool outputs. *)
Definition is_transient (run : ThreadRun) : bool :=
  negb (bool_decide (status run = "completed"))
  && negb (bool_decide (status run = "failed"))
  && (negb (bool_decide (status run = "requires_action"))
      || match required_action run with
         | Some action => negb (bool_decide (action_type action = "submit_tool_outputs"))
         | None => false
         end).

Definition is_function_call (call : RequiredToolCall) : bool :=
  bool_decide (call_type call = "function").

(** The exception of [process_message] for a call that is not of type
    function: the message of the [ValueError] reads [call.function.name], which
    such a call may not have. *)
Definition other_type_error (call : RequiredToolCall) : exn :=
  match call_function call with
  | Some function => unavailable_function_error function
  | None => AttributeError "'RequiredToolCall' object has no attribute 'function'"
  end.

Section BatchFailures.

(** [json.loads] followed by keyword unpacking, and the registry. *)
Variable json_loads : string -> result kwargs.
Variable available_functions : gmap string Callable.

(** The exception of a call to a registered function that does not go
    through: its arguments do not decode, or the invocation raises. *)
Definition failure (call : RequiredToolCall) : option exn :=
  '(_, func, args) ← requested available_functions call;
  match json_loads args with
  | Ok keywords =>
      match func keywords with
      | Ok _ => None
      | Raise e => Some e
      end
  | Raise e => Some e
  end.

End BatchFailures.

(** ** The set-up and clean-up cells

    The cell that uploads the portfolio file, the cell that deletes it again
    and the cell that deletes the agent.  They use other methods of
    [agents_client] than the driver and keep their own record of what was
    done. *)

(** An entry of [list_files().data]. *)
Record OpenAIFile := {
  file_id : string;
  filename : string;
  purpose : string
}.

Inductive cell_event :=
| Printed (text : string)
| ListFiles
| DeleteFile (id : string)
| OpenFile (path : string)
| UploadFile (path : string) (data : list string) (purpose : string)
| ListAgents
| DeleteAgent (id : string).

#[global] Instance cell_event_eq_dec : EqDecision cell_event.
Proof. solve_decision. Defined.

Definition is_cell_request (e : cell_event) : bool :=
  match e with
  | Printed _ | OpenFile _ => false
  | _ => true
  end.

Definition is_upload (e : cell_event) : bool :=
  match e with UploadFile _ _ _ => true | _ => false end.

Class FilesClient (Remote : Type) := {
  list_files : Remote -> result (list OpenAIFile) * Remote;
  delete_file : string -> Remote -> result unit * Remote;
  upload_file : string -> list string -> string -> Remote -> result OpenAIFile * Remote;
  (* the ids of [list_agents().data] *)
  list_agents : Remote -> result (list string) * Remote;
  (* the answer of [delete_agent], as printed *)
  delete_agent : string -> Remote -> result string * Remote
}.

(** The notebook while a set-up or clean-up cell runs: the service, the local
    folders and files, and what the cell did so far. *)
Record Notebook (Remote : Type) := {
  service_state : Remote;
  folders : list string;
  disk : gmap string (list string);
  trace : list cell_event
}.
Arguments service_state {Remote} _.
Arguments folders {Remote} _.
Arguments disk {Remote} _.
Arguments trace {Remote} _.

Definition Cell (Remote A : Type) : Type := Notebook Remote -> result A * Notebook Remote.

#[global] Instance Cell_ret {Remote} : MRet (Cell Remote) := fun A a s => (Ok a, s).
#[global] Instance Cell_bind {Remote} : MBind (Cell Remote) :=
  fun A B f m s =>
    match m s with
    | (Ok a, s') => f a s'
    | (Raise e, s') => (Raise e, s')
    end.

(** The module-level names of the upload cell. *)
Definition directory : string := "data".
Definition portfolio_file : string := "investment_portfolio.csv".
(** [Path(directory) / portfolio_file] *)
Definition file_path : string := directory +:+ "/" +:+ portfolio_file.

Definition missing_directory : string := "Directory '" +:+ directory +:+ "' does not exist.".

Section Cells.

Context {Remote : Type} `{files_client : FilesClient Remote}.

(** The notebook after the cell did [evs], in that order. *)
Definition traced (evs : list cell_event) (s : Notebook Remote) : Notebook Remote :=
  {| service_state := service_state s; folders := folders s; disk := disk s;
     trace := trace s ++ evs |}.

(** The notebook after the service moved to [remote']. *)
Definition served (remote' : Remote) (s : Notebook Remote) : Notebook Remote :=
  {| service_state := remote'; folders := folders s; disk := disk s; trace := trace s |}.

Definition cell_print (text : string) : Cell Remote unit :=
  fun s => (Ok tt, traced [Printed text] s).

Definition cell_raise {A} (e : exn) : Cell Remote A := fun s => (Raise e, s).

(** A method of [agents_client]: recorded, then answered by the service. *)
Definition cell_request {A} (e : cell_event) (f : Remote -> result A * Remote)
  : Cell Remote A :=
  fun s =>
    let '(r, remote') := f (service_state s) in
    (r, traced [e] (served remote' s)).

Definition cell_try {A} (body : Cell Remote A) (handler : exn -> Cell Remote A)
  : Cell Remote A :=
  fun s =>
    match body s with
    | (Ok a, s') => (Ok a, s')
    | (Raise e, s') => handler e s'
    end.

(** [Path(path).is_dir()] *)
Definition is_dir (path : string) : Cell Remote bool :=
  fun s => (Ok (bool_decide (path ∈ folders s)), s).

(** [Path(path).is_file()] *)
Definition is_file (path : string) : Cell Remote bool :=
  fun s => (Ok (bool_decide (is_Some (disk s !! path))), s).

(** [path.open("rb")] *)
Definition open_rb (path : string) : Cell Remote (list string) :=
  fun s =>
    match disk s !! path with
    | Some data => (Ok data, traced [OpenFile path] s)
    | None =>
        (Raise (FileNotFoundError ("[Errno 2] No such file or directory: '" +:+ path +:+ "'")),
         s)
    end.

(** The test of the loop over the listed files. *)
Definition is_portfolio (f : OpenAIFile) : bool :=
  bool_decide (filename f = portfolio_file) && bool_decide (purpose f = "assistants").

Fixpoint delete_matching (existing_files : list OpenAIFile) : Cell Remote unit :=
  match existing_files with
  | [] => mret tt
  | f :: rest =>
      (if is_portfolio f then
         cell_request (DeleteFile (file_id f)) (delete_file (file_id f)) ;;
         cell_print ("Deleted existing file: " +:+ portfolio_file)
       else mret tt) ;;
      delete_matching rest
  end.

(** The part that the upload cell and the clean-up cell share: list the files
    of the service and delete those with the name and purpose of the
    portfolio. *)
Definition delete_existing : Cell Remote unit :=
  existing_files ← cell_request ListFiles list_files;
  delete_matching existing_files.

Definition file_error (e : exn) : string :=
  "Error processing file '" +:+ portfolio_file +:+ "': " +:+ exn_msg e.

(** The upload cell; its value is [portfolio_file_id] as the cell leaves it. *)
Definition upload_cell : Cell Remote (option string) :=
  found ← is_dir directory;
  if negb found then
    cell_print missing_directory ;;
    cell_raise (FileNotFoundError missing_directory)
  else
    present ← is_file file_path;
    (if negb present then cell_print ("Skipping non-file item: " +:+ portfolio_file)
     else mret tt) ;;
    cell_try
      (delete_existing ;;
       file_data ← open_rb file_path;
       file ← cell_request (UploadFile file_path file_data "assistants")
                           (upload_file file_path file_data "assistants");
       cell_print ("Uploaded file: " +:+ portfolio_file) ;;
       mret (Some (file_id file)))
      (fun e => cell_print (file_error e) ;; mret None).

(** The clean-up cell that deletes the uploaded file. *)
Definition delete_file_cell : Cell Remote unit :=
  cell_try delete_existing (fun e => cell_print (file_error e)).

(** The clean-up cell that deletes the agent [agent.id]. *)
Definition delete_agent_cell (agent_id : string) : Cell Remote unit :=
  agents ← cell_request ListAgents list_agents;
  if bool_decide (agent_id ∈ agents) then
    response ← cell_request (DeleteAgent agent_id) (delete_agent agent_id);
    cell_print ("Deleted Agent Client" +:+ PyStr.nl +:+ " " +:+ response)
  else
    cell_print "Agent does not exist to delete.".

End Cells.

(** What deleting the listed portfolio files leaves in the trace: for each
    listed file with the name and purpose of the portfolio, in the order of the
    listing, the request and the line printed after it. *)
Definition deletions (existing_files : list OpenAIFile) : list cell_event :=
  flat_map
    (fun f => [DeleteFile (file_id f);
               Printed ("Deleted existing file: " +:+ portfolio_file)])
    (List.filter is_portfolio existing_files).

(** What the loop over the listed files may leave in the trace: printed
    lines, and requests to delete a listed file that has the name and the
    purpose of the portfolio. *)
Definition deletes_listed (existing_files : list OpenAIFile) (e : cell_event) : Prop :=
  match e with
  | DeleteFile id =>
      exists f, In f existing_files /\ file_id f = id
                /\ filename f = portfolio_file /\ purpose f = "assistants"
  | Printed _ => True
  | _ => False
  end.

(** ** A scripted file store

    A stand-in for the files and agents of the service: deleting removes the
    entries with the id, uploading appends an entry for the portfolio file
    under a fresh id, and either method can be made to fail. *)

Module ScriptedFiles.

Record Store := {
  stored : list OpenAIFile;
  agents : list string;
  next_id : string;
  reject_delete : option exn;
  reject_upload : option exn
}.

Definition store_list_files (r : Store) : result (list OpenAIFile) * Store :=
  (Ok (stored r), r).

Definition store_delete_file (id : string) (r : Store) : result unit * Store :=
  match reject_delete r with
  | Some e => (Raise e, r)
  | None =>
      (Ok tt,
       {| stored := List.filter (fun f => negb (bool_decide (file_id f = id))) (stored r);
          agents := agents r; next_id := next_id r;
          reject_delete := reject_delete r; reject_upload := reject_upload r |})
  end.

Definition store_upload_file (path : string) (data : list string) (purpose : string)
    (r : Store) : result OpenAIFile * Store :=
  match reject_upload r with
  | Some e => (Raise e, r)
  | None =>
      let file := {| file_id := next_id r; filename := portfolio_file; purpose := purpose |} in
      (Ok file,
       {| stored := stored r ++ [file]; agents := agents r; next_id := next_id r +:+ "'";
          reject_delete := reject_delete r; reject_upload := reject_upload r |})
  end.

Definition store_list_agents (r : Store) : result (list string) * Store :=
  (Ok (agents r), r).

Definition store_delete_agent (id : string) (r : Store) : result string * Store :=
  (Ok "{'id': 'deleted'}",
   {| stored := stored r;
      agents := List.filter (fun a => negb (bool_decide (a = id))) (agents r);
      next_id := next_id r;
      reject_delete := reject_delete r; reject_upload := reject_upload r |}).

#[global] Instance files_client : FilesClient Store := {|
  list_files := store_list_files;
  delete_file := store_delete_file;
  upload_file := store_upload_file;
  list_agents := store_list_agents;
  delete_agent := store_delete_agent
|}.

Definition old_portfolio : OpenAIFile :=
  {| file_id := "file_1"; filename := portfolio_file; purpose := "assistants" |}.

Definition other_purpose : OpenAIFile :=
  {| file_id := "file_2"; filename := portfolio_file; purpose := "fine-tune" |}.

Definition other_name : OpenAIFile :=
  {| file_id := "file_3"; filename := "notes.txt"; purpose := "assistants" |}.

Definition store : Store :=
  {| stored := [old_portfolio; other_purpose; other_name]; agents := ["agent_1"; "agent_2"];
     next_id := "file_9"; reject_delete := None; reject_upload := None |}.

Definition csv : list string := ["Symbol,Average_Cost,QTY"; "MSFT,200,10"].

(** The notebook with the data folder and the portfolio file in place. *)
Definition ready (r : Store) : Notebook Store :=
  {| service_state := r; folders := [directory]; disk := {[ file_path := csv ]}; trace := [] |}.

(** The notebook with the data folder but without the portfolio file. *)
Definition without_file (r : Store) : Notebook Store :=
  {| service_state := r; folders := [directory]; disk := ∅; trace := [] |}.


End ScriptedFiles.

(** ** Further worked inputs *)

Module Worked.

Import Scripted.

(** A tool call of the code interpreter, which carries no [function]. *)
Definition interpreter_call : RequiredToolCall :=
  {| call_id := "call_0"; call_type := "code_interpreter"; call_function := None |}.

(** A call to the registered function with arguments that are no JSON text. *)
Definition undecodable_amzn_call : RequiredToolCall :=
  function_call "call_2" "fetch_stock_price" "AMZN".

(** A service that holds one image, and a session with an older chart on
    disk. *)
Definition chart_service : Service :=
  {| threads := two_threads; script := []; reject_message := None; reject_run := None;
     uploads := {[ "file_chart" := {| yielded := ["PNG"; "DATA"]; interrupted := None |} ]};
     submitted := [] |}.

Definition with_old_chart : Session Service :=
  {| remote := chart_service; directories := [chart_folder];
     files := {[ chart_path := ["OLD"] ]}; log := [] |}.

(** A session started outside the sample's folder: the data folder is not
    there. *)
Definition outside_sample_folder : Session Service :=
  {| remote := chart_service; directories := []; files := ∅; log := [] |}.



(** A failed run on thread_B while the notebook's thread_A has no message. *)
Definition failed_beside_empty_thread : Session Service :=
  session (service {[ "thread_A" := [];
                      "thread_B" := [text_message "msg_3" "user" "Show a pie chart"] ]}
                   [run_with "failed" None]).

(** [zoneinfo.ZoneInfoNotFoundError], which inherits from [KeyError], and a
    provider that raises it. *)
Definition ZoneInfoNotFoundError (key : string) : exn :=
  mk_exn "ZoneInfoNotFoundError"
    ["zoneinfo.ZoneInfoNotFoundError"; "builtins.KeyError"; "builtins.LookupError";
     "builtins.Exception"]
    ("'No time zone found with key " +:+ key +:+ "'").

Definition history_without_zone (ticker_symbol : string) : result (@DataFrame N) :=
  Raise (ZoneInfoNotFoundError "America/New_York").

(** A failed run on a thread that has no message yet. *)
Definition failed_on_empty_thread : Session Service :=
  session (service {[ "thread_A" := [] ]} [run_with "failed" None]).

(** A provider whose rows have no column named Close. *)
Definition history_without_close (ticker_symbol : string) : result (@DataFrame N) :=
  Ok {| df_index := ["2024-12-02"]; df_columns := [("Open", [414000%N])] |}.

(** The stores of [ScriptedFiles] that refuse nothing. *)
Definition accepts_all (r : ScriptedFiles.Store) : Prop :=
  ScriptedFiles.reject_delete r = None /\ ScriptedFiles.reject_upload r = None.

End Worked.

(** * Properties *)

(** ** Substrings *)

Module PyStrFacts.
Import PyStr.

Lemma contains_unfold (sub s : string) :
  contains sub s =
    String.prefix sub s
    || match s with
       | EmptyString => false
       | String _ s' => contains sub s'
       end.
Proof. destruct s; reflexivity. Qed.

Lemma prefix_app (s t : string) : String.prefix s (s +:+ t) = true.
Proof.
  induction s as [|c s IH]; [destruct t; reflexivity|].
  change (String.prefix (String c s) (String c (s +:+ t)) = true). simpl.
  destruct (ascii_dec c c); [exact IH | congruence].
Qed.

Lemma contains_here (sub t : string) : contains sub (sub +:+ t) = true.
Proof. rewrite contains_unfold, prefix_app. reflexivity. Qed.

Lemma contains_later (sub a s : string) :
  contains sub s = true -> contains sub (a +:+ s) = true.
Proof.
  intros Hs. induction a as [|c a IH]; [exact Hs|].
  change (contains sub (String c (a +:+ s)) = true).
  rewrite contains_unfold, IH. apply orb_true_r.
Qed.

(** A piece of a concatenation is contained in it. *)
Lemma contains_middle (sub a b : string) : contains sub (a +:+ sub +:+ b) = true.
Proof. apply contains_later, contains_here. Qed.

Lemma app_empty (s : string) : s +:+ "" = s.
Proof.
  induction s as [|c s IH]; [reflexivity|].
  change (String c (s +:+ "") = String c s). rewrite IH. reflexivity.
Qed.

Lemma contains_end (sub a : string) : contains sub (a +:+ sub) = true.
Proof.
  apply contains_later. rewrite <- (app_empty sub) at 2. apply contains_here.
Qed.

End PyStrFacts.

(** ** The price lookup adapter *)

Section PriceLookupFacts.

Context {float : Type}.
Variable round : float -> nat -> float.
Variable str : float -> string.
Variable history : string -> result (@DataFrame float).

Local Abbreviation fetch := (fetch_stock_price round str history).

Lemma fetch_with_data ticker_symbol df close price :
  history ticker_symbol = Ok df ->
  empty df = false ->
  getitem df "Close" = Ok close ->
  iloc_last close = Ok price ->
  fetch ticker_symbol = str (round price 3).
Proof.
  intros Hh He Hc Hl. unfold fetch_stock_price, fetch_stock_price_try.
  rewrite Hh. simpl. rewrite He, Hc. simpl. rewrite Hl. reflexivity.
Qed.

Lemma fetch_without_data ticker_symbol df :
  history ticker_symbol = Ok df ->
  empty df = true ->
  fetch ticker_symbol = "Error: No data found for ticker symbol: " +:+ ticker_symbol.
Proof.
  intros Hh He. unfold fetch_stock_price, fetch_stock_price_try.
  rewrite Hh. simpl. rewrite He. reflexivity.
Qed.

Lemma fetch_provider_raises ticker_symbol e :
  history ticker_symbol = Raise e ->
  fetch ticker_symbol =
    if is_KeyError e then
      "Error: Data missing for key: " +:+ exn_msg e +:+ ". Verify the ticker symbol."
    else
      "Error: Unexpected issue occurred - " +:+ exn_type e +:+ ": " +:+ exn_msg e.
Proof.
  intros Hh. unfold fetch_stock_price, fetch_stock_price_try.
  rewrite Hh. reflexivity.
Qed.

(** C3, as amended.  [fetch_stock_price] is total and the registry entry
    built from it returns instead of raising.  With data it gives the text of
    the last closing price rounded to three places; with an empty data set a
    text holding the words No data found and the ticker; when the provider
    raises an exception that is no [KeyError] and inherits from none, the
    text about an unexpected issue, which holds the type name and the message
    of the exception; when it raises a [KeyError] or an exception of a
    subclass, the text about a missing key, which holds the message. *)
Theorem fetch_stock_price_returns_text (ticker_symbol : string) :
  call_fetch_stock_price round str history [("ticker_symbol", ticker_symbol)]
    = Ok (fetch ticker_symbol)
  /\ (forall df close price,
        history ticker_symbol = Ok df ->
        empty df = false ->
        getitem df "Close" = Ok close ->
        iloc_last close = Ok price ->
        fetch ticker_symbol = str (round price 3))
  /\ (forall df,
        history ticker_symbol = Ok df ->
        empty df = true ->
        PyStr.contains "No data found" (fetch ticker_symbol) = true
        /\ PyStr.contains ticker_symbol (fetch ticker_symbol) = true)
  /\ (forall e,
        history ticker_symbol = Raise e ->
        is_KeyError e = false ->
        fetch ticker_symbol
          = "Error: Unexpected issue occurred - " +:+ exn_type e +:+ ": " +:+ exn_msg e
        /\ PyStr.contains (exn_type e) (fetch ticker_symbol) = true
        /\ PyStr.contains (exn_msg e) (fetch ticker_symbol) = true)
  /\ (forall e,
        history ticker_symbol = Raise e ->
        is_KeyError e = true ->
        fetch ticker_symbol
          = "Error: Data missing for key: " +:+ exn_msg e +:+ ". Verify the ticker symbol."
        /\ PyStr.contains (exn_msg e) (fetch ticker_symbol) = true).
Proof.
  split; [reflexivity|].
  split; [intros; eapply fetch_with_data; eassumption|].
  split.
  { intros df Hh He. rewrite (fetch_without_data _ _ Hh He). split.
    - change ("Error: No data found for ticker symbol: " +:+ ticker_symbol)
        with ("Error: " +:+ "No data found" +:+ (" for ticker symbol: " +:+ ticker_symbol)).
      apply PyStrFacts.contains_middle.
    - apply PyStrFacts.contains_end. }
  split.
  { intros e Hh Hk. rewrite (fetch_provider_raises _ _ Hh), Hk.
    split; [reflexivity|]. split.
    - apply PyStrFacts.contains_middle.
    - apply (PyStrFacts.contains_later _ "Error: Unexpected issue occurred - "),
        PyStrFacts.contains_later, PyStrFacts.contains_end. }
  intros e Hh Hk. rewrite (fetch_provider_raises _ _ Hh), Hk. split; [reflexivity|].
  apply PyStrFacts.contains_middle.
Qed.

End PriceLookupFacts.

(** ** The driver *)

Section DriverFacts.

Context {Remote : Type} `{client : AgentsClient Remote}.
Variable show_image : list string -> result unit.
Variable json_loads : string -> result kwargs.
Variable available_functions : gmap string Callable.
Variable agent_id : string.
Variable thread_id_global : string.

Local Abbreviation poll :=
  (poll_iteration show_image json_loads available_functions thread_id_global).
Local Abbreviation react :=
  (on_status show_image json_loads available_functions thread_id_global).
Local Abbreviation show_part := (handle_content show_image).
Local Abbreviation show_parts := (handle_contents show_image).
Local Abbreviation show_message := (print_thread_message show_image).

Lemma bind_run {A B} (m : M Remote A) (f : A -> M Remote B) (s : Session Remote) :
  (m ≫= f) s =
    match m s with
    | (Ok a, s') => f a s'
    | (Raise e, s') => (Raise e, s')
    end.
Proof. reflexivity. Qed.

Lemma request_run {A} (c : api_call) (f : Remote -> result A * Remote) s r remote' :
  f (remote s) = (r, remote') ->
  request c f s = (r, logged [Request c] (answered remote' s)).
Proof. intros Hf. unfold request. rewrite Hf. reflexivity. Qed.

Lemma logged_logged (a b : list event) (s : Session Remote) :
  logged b (logged a s) = logged (a ++ b) s.
Proof. unfold logged. simpl. rewrite <- app_assoc. reflexivity. Qed.

Lemma logged_nil (s : Session Remote) : logged [] s = s.
Proof. destruct s. unfold logged. simpl. rewrite app_nil_r. reflexivity. Qed.

Ltac run :=
  repeat first
    [ rewrite bind_run
    | progress cbv beta iota
    | progress unfold print, sleep, emit, mret, M_ret ].

Ltac same_session :=
  unfold logged, answered; cbn [remote directories files log]; rewrite <- ?app_assoc;
  reflexivity.

(** The content loop *)

Lemma chart_events_are_chart_events file_id existed chunks :
  Forall (fun e => is_chart_event e = true) (chart_events file_id existed chunks).
Proof. destruct existed; repeat constructor. Qed.

Lemma parts_shown_are_chart_events parts evs :
  parts_shown parts evs -> Forall (fun e => is_chart_event e = true) evs.
Proof.
  induction 1; auto. apply Forall_app. split; [apply chart_events_are_chart_events | auto].
Qed.

Lemma parts_shown_without_image parts evs :
  parts_shown parts evs -> existsb is_image parts = false -> evs = [].
Proof. induction 1; simpl; auto; discriminate. Qed.

(** An image part whose download call returned: every way it can end. *)
Lemma chart_part_outcome shown image (s : Session Remote) file_content remote' :
  get_file_content image (remote s) = (Ok file_content, remote') ->
  exists r s' saving,
    show_part shown (MessageImageFileContent image) s = (r, s')
    /\ remote s' = remote'
    /\ directories s' = directories s
    /\ log s' = log s
                ++ Request (GetFileContent image)
                   :: (if bool_decide (is_Some (files s !! chart_path))
                       then [Unlink chart_path; Print ("Deleted existing file: " +:+ chart_path)]
                       else [])
                ++ saving
    /\ (forall path, path <> chart_path -> files s' !! path = files s !! path)
    /\ (chart_folder ∉ directories s ->
        r = Raise (no_such_file "data/sample_chart.png")
        /\ saving = []
        /\ files s' !! chart_path = None)
    /\ (chart_folder ∈ directories s ->
        files s' !! chart_path = Some (yielded file_content)
        /\ match interrupted file_content, show_image (yielded file_content) with
           | Some e, _ =>
               r = Raise e /\ saving = [WriteFile chart_path (yielded file_content)]
           | None, Raise e =>
               r = Raise e
               /\ saving = [WriteFile chart_path (yielded file_content);
                            Print "Image File downloaded to './data' successfully."]
           | None, Ok _ =>
               r = Ok shown
               /\ saving = [WriteFile chart_path (yielded file_content);
                            Print "Image File downloaded to './data' successfully.";
                            Render chart_path]
           end).
Proof.
  intros Hget. unfold handle_content.
  rewrite bind_run, (request_run _ _ s (Ok file_content) remote') by exact Hget.
  assert (Hsome : forall old : list string, is_Some (Some old))
    by (intros old; exact (mk_is_Some _ _ eq_refl)).
  assert (Hnone : ~ is_Some (@None (list string))) by (intros [? ?]; discriminate).
  destruct (files s !! chart_path) as [old|] eqn:Hold;
    destruct (decide (chart_folder ∈ directories s)) as [Hdir|Hdir];
    destruct (interrupted file_content) as [e|] eqn:Hbreak;
    destruct (show_image (yielded file_content)) as [[]|e'] eqn:Hshow;
    repeat first
      [ rewrite bind_run
      | progress cbv beta iota zeta
      | progress unfold path_exists, unlink, write_file, render, print, emit, mret, M_ret
      | progress cbn [remote directories files log logged answered]
      | rewrite Hold
      | rewrite (bool_decide_eq_true_2 _ (Hsome old))
      | rewrite (bool_decide_eq_false_2 _ Hnone)
      | rewrite (bool_decide_eq_true_2 _ Hdir)
      | rewrite (bool_decide_eq_false_2 _ Hdir)
      | rewrite Hbreak
      | rewrite lookup_insert_eq
      | rewrite Hshow ];
    eexists _, _, _;
    (split; [reflexivity|]); cbn [remote directories files log logged answered];
    (split; [reflexivity|]); (split; [reflexivity|]);
    (split; [rewrite <- ?app_assoc; reflexivity|]);
    (split; [intros path Hp;
             rewrite ?lookup_insert_ne, ?lookup_delete_ne by congruence; reflexivity|]);
    (split; [intros Hno; try contradiction | intros Hin; try contradiction]);
    rewrite ?lookup_insert_eq, ?lookup_delete_eq; auto.
Qed.

(** The content loop *)

Lemma handle_content_quiet shown part s :
  exists r s' evs,
    show_part shown part s = (r, s')
    /\ log s' = log s ++ evs
    /\ Forall (fun e => is_quiet e = true) evs
    /\ (forall shown', r = Ok shown' ->
        shown' = shown_part shown part /\ parts_shown [part] evs)
    /\ (is_image part = false -> r = Ok (shown_part shown part) /\ s' = s)
    /\ (forall e, r = Raise e -> Forall (fun e => is_chart_event e = true) evs).
Proof.
  destruct part as [value|image|repr].
  - exists (Ok (Some value)), s, []. simpl. rewrite app_nil_r.
    repeat split; auto; try congruence. intros; repeat constructor.
  - destruct (get_file_content image (remote s)) as [[file_content|e] remote'] eqn:Hget.
    + destruct (chart_part_outcome shown image s file_content remote' Hget)
        as (r & s' & saving & Hrun & _ & _ & Hlog & _ & Hout & Hin).
      exists r, s'. eexists. split; [exact Hrun|]. split; [exact Hlog|].
      destruct (decide (chart_folder ∈ directories s)) as [Hdir|Hdir].
      * destruct (Hin Hdir) as [_ Hcase].
        destruct (interrupted file_content) as [e|];
          [|destruct (show_image (yielded file_content)) as [[]|e]];
          destruct Hcase as [-> ->];
          (split; [destruct (bool_decide (is_Some (files s !! chart_path)));
                   repeat constructor|]);
          (split; [intros shown' [= <-] || (intros shown'; discriminate)|]);
          try (split; [discriminate|]);
          try (intros e' _;
               destruct (bool_decide (is_Some (files s !! chart_path))); repeat constructor).
        split; [reflexivity|].
        pose proof (image_part image (bool_decide (is_Some (files s !! chart_path)))
                      (yielded file_content) [] [] no_part) as Hshown.
        rewrite app_nil_r in Hshown. exact Hshown.
      * destruct (Hout Hdir) as (-> & -> & _).
        split; [destruct (bool_decide (is_Some (files s !! chart_path)));
                repeat constructor|].
        split; [intros shown'; discriminate|]. split; [discriminate|].
        intros e' _.
        destruct (bool_decide (is_Some (files s !! chart_path))); repeat constructor.
    + unfold handle_content.
      rewrite bind_run, (request_run _ _ s (Raise e) remote') by exact Hget.
      eexists _, _, _. split; [reflexivity|]. cbn [log logged answered].
      split; [reflexivity|]. split; [repeat constructor|].
      split; [intros shown'; discriminate|]. split; [discriminate|].
      intros e' _. repeat constructor.
  - exists (Ok (Some repr)), s, []. simpl. rewrite app_nil_r.
    repeat split; auto; try congruence. intros; repeat constructor.
Qed.

Lemma handle_contents_quiet parts : forall shown s,
  exists r s' evs,
    show_parts parts shown s = (r, s')
    /\ log s' = log s ++ evs
    /\ Forall (fun e => is_quiet e = true) evs
    /\ (forall shown', r = Ok shown' ->
        shown' = shown_text parts shown /\ parts_shown parts evs)
    /\ (existsb is_image parts = false -> r = Ok (shown_text parts shown) /\ s' = s)
    /\ (forall e, r = Raise e ->
        existsb is_image parts = true /\ Forall (fun e => is_chart_event e = true) evs).
Proof.
  induction parts as [|part parts IH]; intros shown s.
  - exists (Ok shown), s, []. simpl. rewrite app_nil_r.
    repeat split; auto; try congruence. constructor.
  - destruct (handle_content_quiet shown part s)
      as (r1 & s1 & evs1 & Hrun1 & Hlog1 & Hq1 & Hok1 & Htext1 & Hre1).
    simpl handle_contents. rewrite bind_run, Hrun1.
    destruct r1 as [shown1|e1].
    + destruct (IH shown1 s1)
        as (r2 & s2 & evs2 & Hrun2 & Hlog2 & Hq2 & Hok2 & Htext2 & Hre2).
      exists r2, s2, (evs1 ++ evs2). rewrite Hrun2.
      split; [reflexivity|].
      split; [rewrite Hlog2, Hlog1, app_assoc; reflexivity|].
      split; [apply Forall_app; auto|].
      destruct (Hok1 shown1 eq_refl) as [Hshown1 Hparts1]. rewrite Hshown1 in *.
      split; [|split].
      * intros shown' Hr. destruct (Hok2 shown' Hr) as [-> Hparts2].
        split; [reflexivity|].
        inversion Hparts1 as [|? ? ? Hnil|? ? ? Hnil|? ? ? ? ? Hnil]; subst.
        -- inversion Hnil; subst. apply text_part, Hparts2.
        -- inversion Hnil; subst. apply other_part, Hparts2.
        -- inversion Hnil; subst. rewrite app_nil_r. apply image_part, Hparts2.
      * simpl existsb. intros Hno. apply orb_false_iff in Hno as [Hp Hps].
        destruct (Htext1 Hp) as [_ ->]. apply Htext2, Hps.
      * intros e He. destruct (Hre2 e He) as [Him Hch]. simpl existsb. rewrite Him.
        split; [apply orb_true_r|].
        apply Forall_app. split; [|exact Hch].
        apply (parts_shown_are_chart_events _ _ Hparts1).
    + exists (Raise e1), s1, evs1.
      split; [reflexivity|]. split; [exact Hlog1|]. split; [exact Hq1|].
      split; [intros shown'; discriminate|]. simpl existsb. split.
      * intros Hno. apply orb_false_iff in Hno as [Hp _].
        destruct (Htext1 Hp) as [? _]. congruence.
      * intros e _. split; [|apply (Hre1 e1 eq_refl)].
        destruct (is_image part) eqn:Hp; [reflexivity|].
        destruct (Htext1 eq_refl) as [? _]. congruence.
Qed.

Lemma print_thread_message_quiet message s :
  exists r s' evs,
    show_message message s = (r, s')
    /\ log s' = log s ++ evs
    /\ Forall (fun e => is_quiet e = true) evs
    /\ (has_image message = false -> r = Ok tt /\ s' = logged (printed_line message) s)
    /\ (r = Ok tt ->
        exists charts,
          parts_shown (content message) charts /\ evs = charts ++ printed_line message)
    /\ (forall e, r = Raise e ->
        has_image message = true /\ Forall (fun e => is_chart_event e = true) evs).
Proof.
  unfold print_thread_message, has_image, printed_line.
  destruct (content message) as [|part parts] eqn:Hc.
  - exists (Ok tt), s, []. simpl. rewrite app_nil_r, logged_nil.
    repeat split; auto; try congruence. intros _. exists []. split; [constructor|reflexivity].
  - destruct (handle_contents_quiet (part :: parts) None s)
      as (r & s1 & evs & Hrun & Hlog & Hq & Hok & Htext & Hre).
    rewrite bind_run, Hrun. destruct r as [shown|e].
    + eexists _, _, _. split; [reflexivity|]. simpl.
      split; [rewrite Hlog, <- app_assoc; reflexivity|].
      split; [apply Forall_app; split; [exact Hq | repeat constructor]|].
      destruct (Hok shown eq_refl) as [-> Hparts].
      split; [|split; [|intros e; discriminate]].
      * intros Hno. destruct (Htext Hno) as [_ ->]. split; reflexivity.
      * intros _. exists evs. split; [exact Hparts | reflexivity].
    + exists (Raise e), s1, evs.
      split; [reflexivity|]. split; [exact Hlog|]. split; [exact Hq|]. split; [|split].
      * intros Hno. destruct (Htext Hno). congruence.
      * discriminate.
      * intros e' _. apply (Hre e eq_refl).
Qed.

Lemma for_each_messages_quiet messages : forall s,
  exists r s' evs,
    for_each messages show_message s = (r, s')
    /\ log s' = log s ++ evs
    /\ Forall (fun e => is_quiet e = true) evs
    /\ (existsb has_image messages = false ->
        r = Ok tt /\ s' = logged (flat_map printed_line messages) s)
    /\ (r = Ok tt -> messages_printed messages evs)
    /\ (forall e, r = Raise e ->
        existsb has_image messages = true
        /\ exists done failing rest printed charts,
             messages = done ++ failing :: rest
             /\ has_image failing = true
             /\ messages_printed done printed
             /\ Forall (fun e => is_chart_event e = true) charts
             /\ evs = printed ++ charts).
Proof.
  induction messages as [|message messages IH]; intros s.
  - exists (Ok tt), s, []. simpl. rewrite app_nil_r, logged_nil.
    repeat split; auto; try congruence. constructor.
  - destruct (print_thread_message_quiet message s)
      as (r1 & s1 & evs1 & Hrun1 & Hlog1 & Hq1 & Htext1 & Hok1 & Hre1).
    simpl for_each. rewrite bind_run, Hrun1. destruct r1 as [[]|e1].
    + destruct (IH s1) as (r2 & s2 & evs2 & Hrun2 & Hlog2 & Hq2 & Htext2 & Hok2 & Hre2).
      exists r2, s2, (evs1 ++ evs2). rewrite Hrun2.
      split; [reflexivity|].
      split; [rewrite Hlog2, Hlog1, app_assoc; reflexivity|].
      split; [apply Forall_app; auto|].
      destruct (Hok1 eq_refl) as (charts1 & Hparts1 & ->).
      simpl existsb. split; [|split].
      * intros Hno. apply orb_false_iff in Hno as [Hm Hms].
        destruct (Htext1 Hm) as [_ Hs1]. destruct (Htext2 Hms) as [-> ->].
        split; [reflexivity|]. rewrite Hs1, logged_logged. reflexivity.
      * intros Hr. rewrite <- app_assoc. constructor; auto.
      * intros e He. destruct (Hre2 e He)
          as (Him & done & failing & rest & printed & charts & -> & Hf & Hdone & Hch & ->).
        rewrite Him. split; [apply orb_true_r|].
        exists (message :: done), failing, rest,
               (charts1 ++ printed_line message ++ printed), charts.
        split; [reflexivity|]. split; [exact Hf|].
        split; [constructor; auto|]. split; [exact Hch|].
        rewrite <- !app_assoc. reflexivity.
    + exists (Raise e1), s1, evs1.
      split; [reflexivity|]. split; [exact Hlog1|]. split; [exact Hq1|].
      destruct (Hre1 e1 eq_refl) as [Him Hch].
      simpl existsb. split; [|split].
      * intros Hno. apply orb_false_iff in Hno as [Hm _].
        destruct (Htext1 Hm). congruence.
      * discriminate.
      * intros e _. rewrite Him. split; [reflexivity|].
        exists [], message, messages, [], evs1.
        split; [reflexivity|]. split; [exact Him|]. split; [constructor|].
        split; [exact Hch | reflexivity].
Qed.

(** One turn of the loop *)

Lemma poll_fetches thread_id prompt_message run s run' remote' :
  get_run thread_id (run_id run) (remote s) = (Ok run', remote') ->
  poll thread_id prompt_message (Some run) s =
    react thread_id prompt_message run'
      (logged [Sleep 5; Request (GetRun thread_id (run_id run))] (answered remote' s)).
Proof.
  intros Hget. unfold poll_iteration.
  rewrite bind_run. unfold sleep at 1. unfold emit at 1.
  rewrite bind_run. unfold local at 1. unfold mret at 1, M_ret at 1.
  rewrite bind_run.
  rewrite (request_run _ _ (logged [Sleep 5] s) (Ok run') remote') by exact Hget.
  change (answered remote' (logged [Sleep 5] s)) with (logged [Sleep 5] (answered remote' s)).
  rewrite logged_logged. reflexivity.
Qed.

Lemma poll_unassigned thread_id prompt_message s :
  poll thread_id prompt_message None s = (Raise (UnboundLocalError "run"), logged [Sleep 5] s).
Proof. reflexivity. Qed.

Lemma poll_fetch_raises thread_id prompt_message run s e remote' :
  get_run thread_id (run_id run) (remote s) = (Raise e, remote') ->
  poll thread_id prompt_message (Some run) s =
    (Raise e, logged [Sleep 5; Request (GetRun thread_id (run_id run))] (answered remote' s)).
Proof.
  intros Hget. unfold poll_iteration.
  rewrite bind_run. unfold sleep at 1. unfold emit at 1.
  rewrite bind_run. unfold local at 1. unfold mret at 1, M_ret at 1.
  rewrite bind_run.
  rewrite (request_run _ _ (logged [Sleep 5] s) (Raise e) remote') by exact Hget.
  change (answered remote' (logged [Sleep 5] s)) with (logged [Sleep 5] (answered remote' s)).
  rewrite logged_logged. reflexivity.
Qed.

Lemma pending_is_no_branch (run : ThreadRun) :
  status run = "queued" \/ status run = "in_progress" ->
  bool_decide (status run = "completed") = false
  /\ bool_decide (status run = "failed") = false
  /\ bool_decide (status run = "requires_action") = false.
Proof.
  intros Hst. repeat split; apply bool_decide_eq_false;
    destruct Hst as [-> | ->]; discriminate.
Qed.

Lemma react_pending thread_id prompt_message run s :
  status run = "queued" \/ status run = "in_progress" ->
  react thread_id prompt_message run s =
    (Ok (Continue run),
     logged [Print (status_line (status run)); Sleep 5] s).
Proof.
  intros Hst. destruct (pending_is_no_branch run Hst) as (Hc & Hf & Hr).
  unfold on_status. rewrite bind_run. unfold print at 1, emit at 1.
  rewrite Hc, Hf, Hr. rewrite bind_run. unfold mret at 1, M_ret at 1.
  rewrite bind_run. unfold sleep, emit. rewrite logged_logged. reflexivity.
Qed.

Lemma react_failed prompt_message thread_id run s latest rest value parts remote' :
  status run = "failed" ->
  list_messages thread_id_global None (remote s) = (Ok (latest :: rest), remote') ->
  content latest = MessageTextContent value :: parts ->
  react thread_id prompt_message run s =
    (Ok Break,
     logged [Print (status_line (status run));
             Request (ListMessages thread_id_global None);
             Print (failure_report prompt_message value)]
       (answered remote' s)).
Proof.
  intros Hst Hlist Hcontent.
  unfold on_status, on_failed. rewrite Hst. simpl bool_decide.
  run.
  rewrite (request_run _ _ _ (Ok (latest :: rest)) remote') by exact Hlist.
  unfold first_text. rewrite Hcontent.
  run.
  change (answered remote' (logged ?a s)) with (logged a (answered remote' s)).
  rewrite !logged_logged. reflexivity.
Qed.

Lemma react_completed prompt_message thread_id run s messages remote' :
  status run = "completed" ->
  list_messages thread_id (Some "asc") (remote s) = (Ok messages, remote') ->
  react thread_id prompt_message run s =
    match for_each messages show_message
            (logged [Print (status_line (status run));
                     Request (ListMessages thread_id (Some "asc"))]
               (answered remote' s)) with
    | (Ok _, s') => (Ok Break, s')
    | (Raise e, s') => (Raise e, s')
    end.
Proof.
  intros Hst Hlist.
  unfold on_status, on_completed. rewrite Hst. simpl bool_decide.
  run.
  rewrite (request_run _ _ _ (Ok messages) remote') by exact Hlist.
  change (answered remote' (logged ?a s)) with (logged a (answered remote' s)).
  rewrite logged_logged. reflexivity.
Qed.

Lemma on_requires_action_goes_on thread_id run s fl s' :
  on_requires_action json_loads available_functions thread_id run s = (Ok fl, s') ->
  exists run', fl = Continue run'.
Proof.
  unfold on_requires_action. run.
  destruct (required_action run) as [action|]; [|discriminate].
  unfold getattr. run.
  destruct (tool_calls action) as [calls|]; [|discriminate]. run.
  destruct (dispatch _ _ calls [] _) as [[tool_responses|e] s1]; [|discriminate].
  unfold request. run.
  destruct (submit_tool_outputs_to_run thread_id (run_id run) tool_responses (remote s1))
    as [[run'|e] remote']; run; [|discriminate].
  intros [= <- _]. eauto.
Qed.

Lemma react_breaks thread_id prompt_message run s s' :
  react thread_id prompt_message run s = (Ok Break, s') ->
  status run = "completed" \/ status run = "failed".
Proof.
  unfold on_status. run.
  destruct (bool_decide (status run = "completed")) eqn:Hc;
    [left; apply bool_decide_eq_true in Hc; exact Hc|].
  destruct (bool_decide (status run = "failed")) eqn:Hf;
    [right; apply bool_decide_eq_true in Hf; exact Hf|].
  run. intros Hrun. exfalso.
  destruct (bool_decide (status run = "requires_action")).
  - revert Hrun. run. destruct (required_action run) as [action|]; [|discriminate].
    unfold getattr. run.
    destruct (bool_decide (action_type action = "submit_tool_outputs")).
    + intros Hrun. apply on_requires_action_goes_on in Hrun as [run' ?]. discriminate.
    + run. discriminate.
  - revert Hrun. run. discriminate.
Qed.

Lemma poll_breaks thread_id prompt_message run s s' :
  poll thread_id prompt_message run s = (Ok Break, s') ->
  exists previous run' remote',
    run = Some previous
    /\ get_run thread_id (run_id previous) (remote s) = (Ok run', remote')
    /\ (status run' = "completed" \/ status run' = "failed").
Proof.
  destruct run as [previous|]; [|rewrite poll_unassigned; discriminate].
  destruct (get_run thread_id (run_id previous) (remote s)) as [[run'|e] remote'] eqn:Hget.
  - rewrite (poll_fetches _ _ _ _ _ _ Hget). intros Hrun.
    apply react_breaks in Hrun. eauto 7.
  - rewrite (poll_fetch_raises _ _ _ _ _ _ Hget). discriminate.
Qed.

Local Abbreviation loop :=
  (polling_loop show_image json_loads available_functions thread_id_global).
Local Abbreviation process :=
  (process_message show_image json_loads available_functions agent_id thread_id_global).

Lemma loop_returns fuel thread_id prompt_message : forall run s v s',
  loop fuel thread_id prompt_message run s = (Returned v, s') ->
  v = PyNone
  /\ exists run0 s0 previous run' remote',
       poll thread_id prompt_message run0 s0 = (Ok Break, s')
       /\ run0 = Some previous
       /\ get_run thread_id (run_id previous) (remote s0) = (Ok run', remote')
       /\ (status run' = "completed" \/ status run' = "failed").
Proof.
  induction fuel as [|fuel IH]; intros run s v s'; simpl; [discriminate|].
  destruct (poll thread_id prompt_message run s) as [[[run1|]|e] s1] eqn:Hpoll.
  - apply IH.
  - intros [= <- <-]. split; [reflexivity|].
    destruct (poll_breaks _ _ _ _ _ Hpoll) as (previous & run' & remote' & -> & Hget & Hst).
    exists (Some previous), s, previous, run', remote'. auto.
  - discriminate.
Qed.

Lemma pending_poll thread_id prompt_message run s run' remote' :
  get_run thread_id (run_id run) (remote s) = (Ok run', remote') ->
  status run' = "queued" \/ status run' = "in_progress" ->
  poll thread_id prompt_message (Some run) s =
    (Ok (Continue run'),
     logged [Sleep 5; Request (GetRun thread_id (run_id run));
             Print (status_line (status run')); Sleep 5]
       (answered remote' s)).
Proof.
  intros Hget Hst. rewrite (poll_fetches _ _ _ _ _ _ Hget), (react_pending _ _ _ _ Hst).
  rewrite logged_logged. reflexivity.
Qed.

Lemma loop_pending (pending : Remote -> string -> Prop) thread_id prompt_message :
  (forall r rid, pending r rid ->
     exists run' r',
       get_run thread_id rid r = (Ok run', r')
       /\ (status run' = "queued" \/ status run' = "in_progress")
       /\ pending r' (run_id run')) ->
  forall fuel run s,
    pending (remote s) (run_id run) ->
    exists s',
      loop fuel thread_id prompt_message (Some run) s = (Polling, s')
      /\ polls s' = polls s + fuel.
Proof.
  intros Hstays. induction fuel as [|fuel IH]; intros run s Hp; simpl.
  - exists s. split; [reflexivity | lia].
  - destruct (Hstays _ _ Hp) as (run' & r' & Hget & Hst & Hp').
    rewrite (pending_poll _ _ _ _ _ _ Hget Hst).
    destruct (IH run' (logged [Sleep 5; Request (GetRun thread_id (run_id run));
                               Print (status_line (status run')); Sleep 5]
                         (answered r' s)) Hp') as (s' & Hloop & Hcount).
    exists s'. split; [exact Hloop|]. rewrite Hcount. unfold polls. simpl.
    rewrite filter_app, length_app. simpl. lia.
Qed.

(** Dispatching a batch *)

Local Abbreviation answer_to := (answer json_loads available_functions).
Local Abbreviation unknown := (unknown_function available_functions).
Local Abbreviation outputs_for := (tool_outputs_for json_loads available_functions).
Local Abbreviation passes := (cell_passes json_loads available_functions).

Lemma answer_inv call tool_response :
  answer_to call = Some tool_response ->
  exists function func keywords,
    call_type call = "function"
    /\ call_function call = Some function
    /\ available_functions !! name function = Some func
    /\ json_loads (arguments function) = Ok keywords
    /\ func keywords = Ok tool_response.
Proof.
  unfold answer, requested.
  destruct (bool_decide (call_type call = "function")) eqn:Ht; [|discriminate].
  apply bool_decide_eq_true in Ht.
  destruct (call_function call) as [function|]; [|discriminate]. simpl.
  destruct (available_functions !! name function) as [func|] eqn:Hf; [|discriminate]. simpl.
  destruct (json_loads (arguments function)) as [keywords|] eqn:Hj; [|discriminate].
  destruct (func keywords) as [out|] eqn:Hc; [|discriminate].
  intros [= <-]. eauto 10.
Qed.

Lemma unknown_inv call :
  unknown call = true ->
  exists function,
    call_type call = "function"
    /\ call_function call = Some function
    /\ available_functions !! name function = None.
Proof.
  unfold unknown_function. intros Hu. apply andb_true_iff in Hu as [Ht Hf].
  apply bool_decide_eq_true in Ht.
  destruct (call_function call) as [function|]; [|discriminate].
  apply bool_decide_eq_true in Hf. eauto.
Qed.

Lemma unknown_not_answered call : unknown call = true -> answer_to call = None.
Proof.
  intros Hu. destruct (unknown_inv _ Hu) as (function & Ht & Hc & Hf).
  unfold answer, requested. rewrite Ht, Hc. simpl. rewrite Hf. reflexivity.
Qed.

Lemma invoke_run fname func args (s : Session Remote) :
  invoke json_loads fname func args s =
    match json_loads args return result string * Session Remote with
    | Ok keywords => (func keywords, logged [Invoke fname keywords] s)
    | Raise e => (Raise e, s)
    end.
Proof.
  unfold invoke, lift. run. destruct (json_loads args); reflexivity.
Qed.

Lemma dispatch_call_answered call tool_responses tool_response (s : Session Remote) :
  answer_to call = Some tool_response ->
  exists evs,
    dispatch_call json_loads available_functions call tool_responses s =
      (Ok (tool_responses
             ++ [{| tool_call_id := call_id call; output := tool_response |}]),
       logged evs s)
    /\ Forall is_local evs.
Proof.
  intros Ha.
  destruct (answer_inv _ _ Ha) as (function & func & keywords & Ht & Hc & Hf & Hj & Ho).
  unfold dispatch_call. rewrite Ht, Hc. simpl bool_decide. unfold getattr. run.
  rewrite Hf. run. rewrite invoke_run, Hj, Ho. run. rewrite logged_logged.
  eexists. split; [reflexivity|]. repeat constructor.
Qed.

Lemma dispatch_call_unknown call tool_responses (s : Session Remote) :
  unknown call = true ->
  exists function,
    call_function call = Some function
    /\ dispatch_call json_loads available_functions call tool_responses s =
         (Raise (unavailable_function_error function), s).
Proof.
  intros Hu. destruct (unknown_inv _ Hu) as (function & Ht & Hc & Hf).
  exists function. split; [exact Hc|].
  unfold dispatch_call. rewrite Ht, Hc. simpl bool_decide. unfold getattr. run.
  rewrite Hf. reflexivity.
Qed.

Lemma dispatch_call_local call tool_responses (s : Session Remote) :
  exists r evs,
    dispatch_call json_loads available_functions call tool_responses s = (r, logged evs s)
    /\ Forall is_local evs.
Proof.
  unfold dispatch_call. run.
  destruct (bool_decide (call_type call = "function")).
  - destruct (call_function call) as [function|]; unfold getattr; run.
    + destruct (available_functions !! name function) as [func|]; run.
      * rewrite invoke_run.
        destruct (json_loads (arguments function)) as [keywords|e]; run.
        -- destruct (func keywords) as [tool_response|e]; run.
           ++ rewrite logged_logged. eexists _, _. split; [reflexivity|]. repeat constructor.
           ++ eexists _, _. split; [reflexivity|]. repeat constructor.
        -- exists (Raise e), []. rewrite logged_nil. split; [reflexivity|]. constructor.
      * eexists _, []. rewrite logged_nil. split; [reflexivity|]. constructor.
    + eexists _, []. rewrite logged_nil. split; [reflexivity|]. constructor.
  - destruct (call_function call) as [function|]; unfold getattr, raise; run.
    + eexists _, []. rewrite logged_nil. split; [reflexivity|]. constructor.
    + eexists _, []. rewrite logged_nil. split; [reflexivity|]. constructor.
Qed.

Lemma outputs_for_cons_answered call calls tool_response :
  answer_to call = Some tool_response ->
  outputs_for (call :: calls) =
    {| tool_call_id := call_id call; output := tool_response |} :: outputs_for calls.
Proof.
  intros Ha. unfold tool_outputs_for. simpl. unfold tool_output_for at 1.
  rewrite Ha. reflexivity.
Qed.

Lemma dispatch_answered calls : forall tool_responses (s : Session Remote),
  Forall (fun call => is_Some (answer_to call)) calls ->
  exists evs,
    dispatch json_loads available_functions calls tool_responses s =
      (Ok (tool_responses ++ outputs_for calls), logged evs s)
    /\ Forall is_local evs.
Proof.
  induction calls as [|call calls IH]; intros tool_responses s Hall.
  - exists []. rewrite logged_nil. simpl. rewrite app_nil_r. split; [reflexivity|constructor].
  - apply Forall_cons in Hall as [[tool_response Ha] Hall].
    destruct (dispatch_call_answered call tool_responses tool_response s Ha) as (evs1 & Hrun1 & Hl1).
    destruct (IH (tool_responses ++ [{| tool_call_id := call_id call; output := tool_response |}])
                (logged evs1 s) Hall) as (evs2 & Hrun2 & Hl2).
    exists (evs1 ++ evs2). simpl dispatch. rewrite bind_run, Hrun1, Hrun2.
    rewrite logged_logged, (outputs_for_cons_answered _ _ _ Ha), <- app_assoc.
    split; [reflexivity|]. apply Forall_app; auto.
Qed.

Lemma dispatch_unknown calls : forall tool_responses (s : Session Remote),
  existsb unknown calls = true ->
  exists e evs,
    dispatch json_loads available_functions calls tool_responses s = (Raise e, logged evs s)
    /\ Forall is_local evs.
Proof.
  induction calls as [|call calls IH]; intros tool_responses s Hex; [discriminate|].
  simpl in Hex. simpl dispatch. rewrite bind_run.
  destruct (dispatch_call_local call tool_responses s) as (r & evs1 & Hrun1 & Hl1).
  rewrite Hrun1. destruct r as [tool_responses'|e].
  - destruct (unknown call) eqn:Hu.
    + destruct (dispatch_call_unknown call tool_responses s Hu) as (function & _ & Hraise).
      congruence.
    + destruct (IH tool_responses' (logged evs1 s) Hex) as (e & evs2 & Hrun2 & Hl2).
      exists e, (evs1 ++ evs2). rewrite Hrun2, logged_logged.
      split; [reflexivity|]. apply Forall_app; auto.
  - exists e, evs1. auto.
Qed.

Lemma dispatch_first_unknown served : forall call rest function tool_responses (s : Session Remote),
  Forall (fun call => is_Some (answer_to call)) served ->
  unknown call = true ->
  call_function call = Some function ->
  exists evs,
    dispatch json_loads available_functions (served ++ call :: rest) tool_responses s =
      (Raise (unavailable_function_error function), logged evs s)
    /\ Forall is_local evs.
Proof.
  induction served as [|first served IH]; intros call rest function tool_responses s Hall Hu Hc.
  - destruct (dispatch_call_unknown call tool_responses s Hu) as (function' & Hc' & Hraise).
    assert (function' = function) as -> by congruence.
    exists []. rewrite logged_nil. simpl. rewrite bind_run, Hraise.
    split; [reflexivity|constructor].
  - apply Forall_cons in Hall as [[tool_response Ha] Hall].
    destruct (dispatch_call_answered first tool_responses tool_response s Ha)
      as (evs1 & Hrun1 & Hl1).
    destruct (IH call rest function
                (tool_responses ++ [{| tool_call_id := call_id first; output := tool_response |}])
                (logged evs1 s) Hall Hu Hc) as (evs2 & Hrun2 & Hl2).
    exists (evs1 ++ evs2). simpl. rewrite bind_run, Hrun1. simpl in Hrun2. rewrite Hrun2.
    rewrite logged_logged. split; [reflexivity|]. apply Forall_app; auto.
Qed.

(** The manual cell *)

Lemma cell_dispatch_call_answered call tool_responses tool_response (s : Session Remote) :
  answer_to call = Some tool_response ->
  exists evs,
    cell_dispatch_call json_loads available_functions call tool_responses s =
      (Ok (tool_responses
             ++ [{| tool_call_id := call_id call; output := tool_response |}]),
       logged evs s)
    /\ Forall is_local evs.
Proof.
  intros Ha.
  destruct (answer_inv _ _ Ha) as (function & func & keywords & Ht & Hc & Hf & Hj & Ho).
  unfold cell_dispatch_call. rewrite Ht, Hc.
  rewrite (bool_decide_eq_true_2 _ (eq_refl "function")). unfold getattr. run.
  rewrite Hf. run. rewrite invoke_run, Hj, Ho. run. rewrite logged_logged.
  eexists. split; [reflexivity|]. repeat constructor.
Qed.

Lemma cell_dispatch_call_skips call tool_responses (s : Session Remote) :
  call_type call <> "function" ->
  cell_dispatch_call json_loads available_functions call tool_responses s
    = (Ok tool_responses, s)
  /\ answer_to call = None.
Proof.
  intros Ht. unfold cell_dispatch_call, answer, requested.
  rewrite (bool_decide_eq_false_2 _ Ht). split; reflexivity.
Qed.

Lemma cell_dispatch_call_unknown call tool_responses (s : Session Remote) :
  unknown call = true ->
  cell_dispatch_call json_loads available_functions call tool_responses s =
    (Raise unknown_function_error, s).
Proof.
  intros Hu. destruct (unknown_inv _ Hu) as (function & Ht & Hc & Hf).
  unfold cell_dispatch_call. rewrite Ht, Hc.
  rewrite (bool_decide_eq_true_2 _ (eq_refl "function")). unfold getattr. run.
  rewrite Hf. reflexivity.
Qed.

Lemma cell_dispatch_call_local call tool_responses (s : Session Remote) :
  exists r evs,
    cell_dispatch_call json_loads available_functions call tool_responses s
      = (r, logged evs s)
    /\ Forall is_local evs.
Proof.
  unfold cell_dispatch_call.
  destruct (bool_decide (call_type call = "function")).
  - destruct (call_function call) as [function|]; unfold getattr; run.
    + destruct (available_functions !! name function) as [func|]; run.
      * rewrite invoke_run.
        destruct (json_loads (arguments function)) as [keywords|e]; run.
        -- destruct (func keywords) as [tool_response|e]; run.
           ++ rewrite logged_logged. eexists _, _. split; [reflexivity|]. repeat constructor.
           ++ eexists _, _. split; [reflexivity|]. repeat constructor.
        -- exists (Raise e), []. rewrite logged_nil. split; [reflexivity|]. constructor.
      * eexists _, []. rewrite logged_nil. split; [reflexivity|]. constructor.
    + eexists _, []. rewrite logged_nil. split; [reflexivity|]. constructor.
  - eexists _, []. rewrite logged_nil. split; [reflexivity|]. constructor.
Qed.

Lemma passes_inv call :
  passes call = true ->
  call_type call <> "function" \/ exists tool_response, answer_to call = Some tool_response.
Proof.
  unfold cell_passes. intros Hp. apply orb_true_iff in Hp as [Hp|Hp];
    apply bool_decide_eq_true in Hp; [left; exact Hp | right; exact Hp].
Qed.

Lemma cell_dispatch_call_passes call tool_responses (s : Session Remote) :
  passes call = true ->
  exists evs,
    cell_dispatch_call json_loads available_functions call tool_responses s =
      (Ok (tool_responses ++ outputs_for [call]), logged evs s)
    /\ Forall is_local evs.
Proof.
  intros Hp. destruct (passes_inv _ Hp) as [Ht|[tool_response Ha]].
  - destruct (cell_dispatch_call_skips call tool_responses s Ht) as [Hrun Hnone].
    exists []. rewrite logged_nil, Hrun. unfold tool_outputs_for. simpl.
    unfold tool_output_for. rewrite Hnone. simpl. rewrite app_nil_r.
    split; [reflexivity|constructor].
  - destruct (cell_dispatch_call_answered call tool_responses tool_response s Ha)
      as (evs & Hrun & Hl).
    exists evs. rewrite Hrun, (outputs_for_cons_answered _ _ _ Ha). auto.
Qed.

Lemma outputs_for_cons call calls :
  outputs_for (call :: calls) = outputs_for [call] ++ outputs_for calls.
Proof.
  unfold tool_outputs_for. simpl.
  destruct (tool_output_for json_loads available_functions call); reflexivity.
Qed.

Lemma cell_dispatch_cons call calls tool_responses :
  cell_dispatch (Remote := Remote) json_loads available_functions (call :: calls) tool_responses =
    cell_dispatch_call json_loads available_functions call tool_responses
      ≫= cell_dispatch json_loads available_functions calls.
Proof. reflexivity. Qed.

Lemma cell_dispatch_passing calls : forall tool_responses (s : Session Remote),
  Forall (fun call => passes call = true) calls ->
  exists evs,
    cell_dispatch json_loads available_functions calls tool_responses s =
      (Ok (tool_responses ++ outputs_for calls), logged evs s)
    /\ Forall is_local evs.
Proof.
  induction calls as [|call calls IH]; intros tool_responses s Hall.
  - exists []. rewrite logged_nil. simpl. rewrite app_nil_r. split; [reflexivity|constructor].
  - apply Forall_cons in Hall as [Hp Hall].
    destruct (cell_dispatch_call_passes call tool_responses s Hp) as (evs1 & Hrun1 & Hl1).
    destruct (IH (tool_responses ++ outputs_for [call]) (logged evs1 s) Hall)
      as (evs2 & Hrun2 & Hl2).
    exists (evs1 ++ evs2). simpl cell_dispatch. rewrite bind_run, Hrun1, Hrun2.
    rewrite logged_logged, (outputs_for_cons call calls), app_assoc.
    split; [reflexivity|]. apply Forall_app; auto.
Qed.

Lemma cell_dispatch_unknown calls : forall tool_responses (s : Session Remote),
  existsb unknown calls = true ->
  exists e evs,
    cell_dispatch json_loads available_functions calls tool_responses s
      = (Raise e, logged evs s)
    /\ Forall is_local evs.
Proof.
  induction calls as [|call calls IH]; intros tool_responses s Hex; [discriminate|].
  simpl in Hex. simpl cell_dispatch. rewrite bind_run.
  destruct (cell_dispatch_call_local call tool_responses s) as (r & evs1 & Hrun1 & Hl1).
  rewrite Hrun1. destruct r as [tool_responses'|e].
  - destruct (unknown call) eqn:Hu.
    + rewrite (cell_dispatch_call_unknown call tool_responses s Hu) in Hrun1. congruence.
    + destruct (IH tool_responses' (logged evs1 s) Hex) as (e & evs2 & Hrun2 & Hl2).
      exists e, (evs1 ++ evs2). rewrite Hrun2, logged_logged.
      split; [reflexivity|]. apply Forall_app; auto.
  - exists e, evs1. auto.
Qed.

Lemma cell_dispatch_first_unknown served :
  forall call rest tool_responses (s : Session Remote),
  Forall (fun call => passes call = true) served ->
  unknown call = true ->
  exists evs,
    cell_dispatch json_loads available_functions (served ++ call :: rest) tool_responses s
      = (Raise unknown_function_error, logged evs s)
    /\ Forall is_local evs.
Proof.
  induction served as [|first served IH]; intros call rest tool_responses s Hall Hu.
  - exists []. rewrite logged_nil. simpl.
    rewrite bind_run, (cell_dispatch_call_unknown call tool_responses s Hu).
    split; [reflexivity|constructor].
  - apply Forall_cons in Hall as [Hp Hall].
    destruct (cell_dispatch_call_passes first tool_responses s Hp) as (evs1 & Hrun1 & Hl1).
    destruct (IH call rest (tool_responses ++ outputs_for [first]) (logged evs1 s) Hall Hu)
      as (evs2 & Hrun2 & Hl2).
    exists (evs1 ++ evs2).
    change ((first :: served) ++ call :: rest) with (first :: served ++ call :: rest).
    rewrite cell_dispatch_cons, bind_run, Hrun1, Hrun2.
    rewrite logged_logged. split; [reflexivity|]. apply Forall_app; auto.
Qed.

(** A waiting run, in both paths *)

Lemma react_asks thread_id prompt_message run calls s :
  asks_for run calls ->
  react thread_id prompt_message run s =
    match dispatch json_loads available_functions calls []
            (logged [Print (status_line (status run));
                     Print "Function calling initiated..."] s) with
    | (Ok tool_responses, s1) =>
        match submit_tool_outputs_to_run thread_id (run_id run) tool_responses (remote s1) with
        | (Ok run', remote') =>
            (Ok (Continue run'),
             logged [Request (SubmitToolOutputs thread_id (run_id run) tool_responses);
                     Print "Function call(s) completed successfully."]
               (answered remote' s1))
        | (Raise e, remote') =>
            (Raise e,
             logged [Request (SubmitToolOutputs thread_id (run_id run) tool_responses)]
               (answered remote' s1))
        end
    | (Raise e, s1) => (Raise e, s1)
    end.
Proof.
  intros [Hst Hact]. unfold on_status. run. rewrite Hst.
  rewrite (bool_decide_eq_false_2 ("requires_action" = "completed")) by discriminate.
  rewrite (bool_decide_eq_false_2 ("requires_action" = "failed")) by discriminate.
  rewrite (bool_decide_eq_true_2 _ (eq_refl "requires_action")).
  rewrite Hact. unfold getattr. run. cbn [action_type].
  rewrite (bool_decide_eq_true_2 _ (eq_refl "submit_tool_outputs")).
  unfold on_requires_action. run. rewrite Hact. unfold getattr. run.
  cbn [tool_calls]. run. rewrite logged_logged. simpl app.
  destruct (dispatch _ _ calls [] _) as [[tool_responses|e] s1]; [|reflexivity].
  unfold request. run.
  destruct (submit_tool_outputs_to_run thread_id (run_id run) tool_responses (remote s1))
    as [[run'|e] remote']; run; [|reflexivity].
  rewrite logged_logged. reflexivity.
Qed.

Lemma cell_asks run calls s :
  asks_for run calls ->
  requires_action_cell json_loads available_functions thread_id_global run s =
    match cell_dispatch json_loads available_functions calls []
            (logged [Print "Function Calling ..."] s) with
    | (Ok tool_responses, s1) =>
        match submit_tool_outputs_to_run thread_id_global (run_id run) tool_responses
                (remote s1) with
        | (Ok run', remote') =>
            (Ok run',
             logged [Request (SubmitToolOutputs thread_id_global (run_id run) tool_responses);
                     Print submitted_line]
               (answered remote' s1))
        | (Raise e, remote') =>
            (Raise e,
             logged [Request (SubmitToolOutputs thread_id_global (run_id run) tool_responses)]
               (answered remote' s1))
        end
    | (Raise e, s1) => (Raise e, s1)
    end.
Proof.
  intros [Hst Hact]. unfold requires_action_cell. rewrite Hst.
  rewrite (bool_decide_eq_true_2 _ (eq_refl "requires_action")). run.
  rewrite Hact. unfold getattr. run. cbn [action_type].
  rewrite (bool_decide_eq_true_2 _ (eq_refl "submit_tool_outputs")). cbn [tool_calls]. run.
  destruct (cell_dispatch _ _ calls [] _) as [[tool_responses|e] s1]; [|reflexivity].
  unfold request. run.
  destruct (submit_tool_outputs_to_run thread_id_global (run_id run) tool_responses (remote s1))
    as [[run'|e] remote']; run; [|reflexivity].
  rewrite logged_logged. reflexivity.
Qed.

(** Starting a run *)

Lemma start_run_message_rejected thread_id prompt_message attachments_list s e remote' :
  create_message thread_id "user" prompt_message attachments_list (remote s)
    = (Raise e, remote') ->
  start_run agent_id thread_id prompt_message attachments_list s =
    (Ok None,
     logged [Request (CreateMessage thread_id "user" prompt_message attachments_list);
             Print ("Error starting run: " +:+ exn_msg e)]
       (answered remote' s)).
Proof.
  intros Hm. unfold start_run, try_except. run.
  rewrite (request_run _ _ _ _ _ Hm). run. rewrite logged_logged. reflexivity.
Qed.

Lemma start_run_run_rejected thread_id prompt_message attachments_list s message r1 e remote' :
  create_message thread_id "user" prompt_message attachments_list (remote s)
    = (Ok message, r1) ->
  create_run thread_id agent_id prompt_message r1 = (Raise e, remote') ->
  start_run agent_id thread_id prompt_message attachments_list s =
    (Ok None,
     logged [Request (CreateMessage thread_id "user" prompt_message attachments_list);
             Print "User message added...";
             Request (CreateRun thread_id agent_id prompt_message);
             Print ("Error starting run: " +:+ exn_msg e)]
       (answered remote' s)).
Proof.
  intros Hm Hr. unfold start_run, try_except. run.
  rewrite (request_run _ _ _ _ _ Hm). run.
  rewrite (request_run _ _ _ (Raise e) remote') by exact Hr. run.
  f_equal. same_session.
Qed.

Lemma loop_unassigned fuel thread_id prompt_message s :
  loop (S fuel) thread_id prompt_message None s
    = (Raised (UnboundLocalError "run"), logged [Sleep 5] s).
Proof. reflexivity. Qed.

(** C6.  When the service rejects [create_message] or [create_run], the
    handler prints the error and falls through: [process_message] goes into
    the loop, sleeps once and ends with [UnboundLocalError] on the local [run]
    that was never assigned, without ever fetching a run. *)
Theorem rejected_start_still_enters_loop
    fuel thread_id prompt_message attachments_list s e remote' :
  create_message thread_id "user" prompt_message attachments_list (remote s)
    = (Raise e, remote')
  \/ (exists message r1,
        create_message thread_id "user" prompt_message attachments_list (remote s)
          = (Ok message, r1)
        /\ create_run thread_id agent_id prompt_message r1 = (Raise e, remote')) ->
  exists s' evs,
    process (S fuel) thread_id prompt_message attachments_list s
      = (Raised (UnboundLocalError "run"), s')
    /\ remote s' = remote'
    /\ log s' = log s ++ evs ++ [Print ("Error starting run: " +:+ exn_msg e); Sleep 5]
    /\ Forall (fun ev => is_poll ev = false) evs.
Proof.
  intros [Hm | (message & r1 & Hm & Hr)]; unfold process_message.
  - rewrite (start_run_message_rejected _ _ _ _ _ _ Hm), loop_unassigned.
    eexists _, [_]. split; [reflexivity|]. split; [reflexivity|].
    split; [simpl; rewrite <- !app_assoc; reflexivity | repeat constructor].
  - rewrite (start_run_run_rejected _ _ _ _ _ _ _ _ Hm Hr), loop_unassigned.
    eexists _, [_; _; _]. split; [reflexivity|]. split; [reflexivity|].
    split; [simpl; rewrite <- !app_assoc; reflexivity | repeat constructor].
Qed.

(** C7.  A message with two text parts is printed as one line that holds the
    second text only: the loop over the parts overwrites [content], and the
    line is printed once, after the loop. *)
Theorem later_text_part_overwrites_earlier id who first second (s : Session Remote) :
  let message := {| message_id := id; role := who;
                    content := [MessageTextContent first; MessageTextContent second] |} in
  text_values message = [first; second]
  /\ print_thread_message show_image message s
     = (Ok tt, logged [Print (PyStr.capitalize who +:+ ": " +:+ second)] s).
Proof. split; reflexivity. Qed.

(** C8.  A turn that observes [queued] or [in_progress] sleeps, fetches the
    run, prints its status and sleeps again, and the loop goes on with the run
    just fetched.  Nothing else happens: no message, run or tool output is
    sent, no registry function is called, no file is touched, and the service
    is in the state in which [get_run] left it. *)
Theorem pending_poll_only_observes thread_id prompt_message run s run' remote' :
  get_run thread_id (run_id run) (remote s) = (Ok run', remote') ->
  status run' = "queued" \/ status run' = "in_progress" ->
  exists s' evs,
    poll thread_id prompt_message (Some run) s = (Ok (Continue run'), s')
    /\ remote s' = remote'
    /\ files s' = files s
    /\ log s' = log s ++ evs
    /\ evs = [Sleep 5; Request (GetRun thread_id (run_id run));
              Print (status_line (status run')); Sleep 5]
    /\ Forall (fun e => is_mutation e = false /\ is_invoke e = false) evs.
Proof.
  intros Hget Hst. rewrite (pending_poll _ _ _ _ _ _ Hget Hst).
  eexists _, _. split; [reflexivity|]. split; [reflexivity|]. split; [reflexivity|].
  split; [reflexivity|]. split; [reflexivity|]. repeat constructor.
Qed.

Lemma loop_failed fuel thread_id prompt_message previous s run r1 latest rest value parts r2 :
  get_run thread_id (run_id previous) (remote s) = (Ok run, r1) ->
  status run = "failed" ->
  list_messages thread_id_global None r1 = (Ok (latest :: rest), r2) ->
  content latest = MessageTextContent value :: parts ->
  loop (S fuel) thread_id prompt_message (Some previous) s =
    (Returned PyNone,
     logged [Sleep 5; Request (GetRun thread_id (run_id previous));
             Print (status_line (status run));
             Request (ListMessages thread_id_global None);
             Print (failure_report prompt_message value)]
       (answered r2 s)).
Proof.
  intros Hget Hst Hlist Hcontent. simpl polling_loop.
  rewrite (poll_fetches _ _ _ _ _ _ Hget).
  rewrite (react_failed prompt_message thread_id run _ latest rest value parts r2 Hst)
    by assumption.
  change (answered r2 (logged ?a (answered r1 s))) with (logged a (answered r2 s)).
  rewrite logged_logged. reflexivity.
Qed.

Lemma react_failed_listing prompt_message thread_id run s listing remote' :
  status run = "failed" ->
  list_messages thread_id_global None (remote s) = (listing, remote') ->
  react thread_id prompt_message run s =
    let s' := logged [Print (status_line (status run));
                      Request (ListMessages thread_id_global None)]
                (answered remote' s) in
    match listing with
    | Ok data =>
        match first_text data s' with
        | (Ok value, _) => (Ok Break, logged [Print (failure_report prompt_message value)] s')
        | (Raise e, _) => (Raise e, s')
        end
    | Raise e => (Raise e, s')
    end.
Proof.
  intros Hst Hlist.
  unfold on_status, on_failed. rewrite Hst. simpl bool_decide.
  run.
  rewrite (request_run _ _ _ listing remote') by exact Hlist.
  change (answered remote' (logged ?a s)) with (logged a (answered remote' s)).
  rewrite logged_logged. cbv zeta.
  destruct listing as [data|e]; [|reflexivity].
  destruct data as [|latest rest]; [reflexivity|].
  unfold first_text.
  destruct (content latest) as [|[value|image|repr] parts]; reflexivity.
Qed.

Lemma first_text_reads_latest_text data (s : Session Remote) :
  match latest_text data with
  | Some value => first_text data s = (Ok value, s)
  | None => exists e, first_text data s = (Raise e, s)
  end.
Proof.
  unfold latest_text, first_text.
  destruct data as [|latest rest]; [eauto|].
  destruct (content latest) as [|[value|image|repr] parts]; eauto.
Qed.

(** C10, as amended.  On a failed run [process_message] asks for the messages
    of the module-level thread [thread.id], whatever [thread_id] it was
    called with, and never for those of another [thread_id].  When the
    listing starts with a message whose first part is a text, the report
    printed carries that text, which comes from a thread the call was not
    about, and the call returns [None]; when the listing is empty, starts
    otherwise or is refused, the call raises and no report is printed. *)
Theorem failed_run_reads_global_thread
    fuel thread_id prompt_message previous s run r1 listing r2 :
  get_run thread_id (run_id previous) (remote s) = (Ok run, r1) ->
  status run = "failed" ->
  list_messages thread_id_global None r1 = (listing, r2) ->
  exists c s' evs report,
    loop (S fuel) thread_id prompt_message (Some previous) s = (c, s')
    /\ remote s' = r2
    /\ log s' = log s ++ evs
    /\ evs = [Sleep 5; Request (GetRun thread_id (run_id previous));
              Print (status_line (status run));
              Request (ListMessages thread_id_global None)] ++ report
    /\ (thread_id <> thread_id_global ->
        forall order, ~ In (Request (ListMessages thread_id order)) evs)
    /\ match listing with
       | Ok data =>
           match latest_text data with
           | Some value =>
               c = Returned PyNone
               /\ report = [Print (failure_report prompt_message value)]
               /\ PyStr.contains value (failure_report prompt_message value) = true
           | None => (exists e, c = Raised e) /\ report = []
           end
       | Raise e => c = Raised e /\ report = []
       end.
Proof.
  intros Hget Hst Hlist. simpl polling_loop.
  rewrite (poll_fetches _ _ _ _ _ _ Hget).
  rewrite (react_failed_listing prompt_message thread_id run _ listing r2 Hst)
    by exact Hlist.
  cbv zeta.
  assert (Hother : forall report,
            (report = [] \/ exists text, report = [Print text]) ->
            thread_id <> thread_id_global ->
            forall order,
              ~ In (Request (ListMessages thread_id order))
                   ([Sleep 5; Request (GetRun thread_id (run_id previous));
                     Print (status_line (status run));
                     Request (ListMessages thread_id_global None)] ++ report)).
  { intros report Hreport Hne order Hin. apply in_app_or in Hin as [Hin|Hin].
    - simpl in Hin. destruct Hin as [Hin|[Hin|[Hin|[Hin|[]]]]]; try discriminate.
      injection Hin as Heq _. congruence.
    - destruct Hreport as [->|[text ->]]; [destruct Hin|].
      destruct Hin as [Hin|[]]. discriminate. }
  destruct listing as [data|e].
  - match goal with
    | |- context [first_text data ?s0] =>
        pose proof (first_text_reads_latest_text data s0) as Hread
    end.
    destruct (latest_text data) as [value|].
    + rewrite Hread.
      eexists _, _, _, [_]. split; [reflexivity|]. split; [reflexivity|].
      split; [cbn [log logged answered]; rewrite <- !app_assoc; reflexivity|].
      split; [reflexivity|]. split; [apply Hother; eauto|].
      split; [reflexivity|]. split; [reflexivity|].
      unfold failure_report.
      do 6 apply PyStrFacts.contains_later. apply PyStrFacts.contains_here.
    + destruct Hread as [e Hread]. rewrite Hread.
      eexists _, _, _, []. split; [reflexivity|]. split; [reflexivity|].
      split; [cbn [log logged answered]; rewrite <- !app_assoc; reflexivity|].
      split; [reflexivity|]. split; [apply Hother; auto|]. eauto.
  - eexists _, _, _, []. split; [reflexivity|]. split; [reflexivity|].
    split; [cbn [log logged answered]; rewrite <- !app_assoc; reflexivity|].
    split; [reflexivity|]. split; [apply Hother; auto|]. auto.
Qed.

(** C5, as amended.  Called on the notebook's own thread, a turn that
    observes [failed] lists the messages of that thread without an order,
    prints a report that carries the text of the first content part of the
    first message returned, and ends the loop after that one poll;
    [process_message] then returns [None]. *)
Theorem failed_run_prints_latest_text
    fuel prompt_message previous s run r1 latest rest value parts r2 :
  get_run thread_id_global (run_id previous) (remote s) = (Ok run, r1) ->
  status run = "failed" ->
  list_messages thread_id_global None r1 = (Ok (latest :: rest), r2) ->
  content latest = MessageTextContent value :: parts ->
  exists s',
    loop (S fuel) thread_id_global prompt_message (Some previous) s = (Returned PyNone, s')
    /\ remote s' = r2
    /\ log s' = log s ++ [Sleep 5; Request (GetRun thread_id_global (run_id previous));
                          Print (status_line "failed");
                          Request (ListMessages thread_id_global None);
                          Print (failure_report prompt_message value)]
    /\ PyStr.contains value (failure_report prompt_message value) = true
    /\ polls s' = polls s + 1.
Proof.
  intros Hget Hst Hlist Hcontent.
  rewrite (loop_failed fuel _ _ _ _ _ _ _ _ _ _ _ Hget Hst Hlist Hcontent).
  eexists. split; [reflexivity|]. split; [reflexivity|].
  split; [rewrite Hst; reflexivity|]. split.
  - unfold failure_report.
    do 6 apply PyStrFacts.contains_later. apply PyStrFacts.contains_here.
  - unfold polls. simpl. rewrite filter_app, length_app. reflexivity.
Qed.



(** C9, as amended.  The loop returns only from a turn whose poll observed
    [completed] or [failed], and then it returns [None]; every other way out
    is an exception.  No turn counts attempts or time: while each poll
    answers [queued] or [in_progress] the loop is still going round after any
    number of turns, having polled once per turn. *)
Theorem polling_has_no_bound thread_id prompt_message :
  (forall fuel run s v s',
     loop fuel thread_id prompt_message run s = (Returned v, s') ->
     v = PyNone
     /\ exists run0 s0 previous run' remote',
          poll thread_id prompt_message run0 s0 = (Ok Break, s')
          /\ run0 = Some previous
          /\ get_run thread_id (run_id previous) (remote s0) = (Ok run', remote')
          /\ (status run' = "completed" \/ status run' = "failed"))
  /\ (forall pending : Remote -> string -> Prop,
        (forall r rid, pending r rid ->
           exists run' r',
             get_run thread_id rid r = (Ok run', r')
             /\ (status run' = "queued" \/ status run' = "in_progress")
             /\ pending r' (run_id run')) ->
        forall fuel run s,
          pending (remote s) (run_id run) ->
          exists s',
            loop fuel thread_id prompt_message (Some run) s = (Polling, s')
            /\ polls s' = polls s + fuel).
Proof.
  split.
  - intros fuel run s v s'. apply loop_returns.
  - intros pending Hstays. apply (loop_pending pending _ _ Hstays).
Qed.

Lemma outputs_for_answered calls :
  Forall (fun call => is_Some (answer_to call)) calls ->
  Forall2 (fun call o => tool_call_id o = call_id call /\ answer_to call = Some (output o))
          calls (outputs_for calls).
Proof.
  induction 1 as [|call calls [tool_response Ha] _ IH]; [constructor|].
  rewrite (outputs_for_cons_answered _ _ _ Ha). constructor; [|exact IH].
  split; [reflexivity | exact Ha].
Qed.

Lemma answered_passes calls :
  Forall (fun call => is_Some (answer_to call)) calls ->
  Forall (fun call => passes call = true) calls.
Proof.
  intros Hall. eapply Forall_impl; [exact Hall|]. intros call Ha. unfold cell_passes.
  rewrite (bool_decide_eq_true_2 _ Ha). apply orb_true_r.
Qed.

(** C2, as amended.  Take a batch of N calls that each name a registered
    function, carry arguments that decode, and whose invocation returns.  Then
    N outputs are built, one per call, in the order of the calls and under the
    id of each, and both the manual cell and [process_message] hand them to
    [submit_tool_outputs_to_run] in one request, after nothing but local
    invocations and prints; in [process_message] the turn then ends, so the
    next poll comes after the submission. *)
Theorem answered_batch_is_submitted_whole run calls :
  asks_for run calls ->
  Forall (fun call => is_Some (answer_to call)) calls ->
  length (outputs_for calls) = length calls
  /\ Forall2 (fun call o => tool_call_id o = call_id call /\ answer_to call = Some (output o))
             calls (outputs_for calls)
  /\ (forall s r remote',
        submit_tool_outputs_to_run thread_id_global (run_id run) (outputs_for calls)
          (remote s) = (r, remote') ->
        exists s' evs,
          requires_action_cell json_loads available_functions thread_id_global run s
            = (r, s')
          /\ remote s' = remote'
          /\ log s' = log s ++ [Print "Function Calling ..."] ++ evs
               ++ Request (SubmitToolOutputs thread_id_global (run_id run)
                             (outputs_for calls))
               :: match r with Ok _ => [Print submitted_line] | Raise _ => [] end
          /\ Forall is_local evs)
  /\ (forall thread_id prompt_message previous s r1 r remote',
        get_run thread_id (run_id previous) (remote s) = (Ok run, r1) ->
        submit_tool_outputs_to_run thread_id (run_id run) (outputs_for calls) r1
          = (r, remote') ->
        exists s' evs,
          poll thread_id prompt_message (Some previous) s
            = (match r with Ok run' => Ok (Continue run') | Raise e => Raise e end, s')
          /\ remote s' = remote'
          /\ log s' = log s ++ [Sleep 5; Request (GetRun thread_id (run_id previous));
                                Print (status_line "requires_action");
                                Print "Function calling initiated..."] ++ evs
               ++ Request (SubmitToolOutputs thread_id (run_id run) (outputs_for calls))
               :: match r with
                  | Ok _ => [Print "Function call(s) completed successfully."]
                  | Raise _ => []
                  end
          /\ Forall is_local evs).
Proof.
  intros Hasks Hall. pose proof (outputs_for_answered calls Hall) as Hout.
  split; [symmetry; apply (Forall2_length _ _ _ Hout)|]. split; [exact Hout|]. split.
  - intros s r remote' Hsubmit. rewrite (cell_asks run calls s Hasks).
    destruct (cell_dispatch_passing calls [] (logged [Print "Function Calling ..."] s)
                (answered_passes calls Hall)) as (evs & Hrun & Hl).
    rewrite Hrun. cbn [app remote logged]. rewrite Hsubmit.
    destruct r as [run'|e]; eexists _, evs;
      (split; [reflexivity|]; split; [reflexivity|]; split; [|exact Hl]);
      cbn [log logged answered]; rewrite <- !app_assoc; reflexivity.
  - intros thread_id prompt_message previous s r1 r remote' Hget Hsubmit.
    rewrite (poll_fetches _ _ _ _ _ _ Hget), (react_asks _ _ run calls _ Hasks).
    match goal with
    | |- context [dispatch _ _ calls [] ?s0] =>
        destruct (dispatch_answered calls [] s0 Hall) as (evs & Hrun & Hl); rewrite Hrun
    end.
    cbn [app remote logged answered]. rewrite Hsubmit. destruct Hasks as [Hst _].
    destruct r as [run'|e]; eexists _, evs;
      (split; [reflexivity|]; split; [reflexivity|]; split; [|exact Hl]);
      cbn [log logged answered]; rewrite Hst, <- !app_assoc; reflexivity.
Qed.

(** C1, as amended.  When a call of a batch names a function that the
    registry does not have, both the manual cell and [process_message] end
    with an exception and never reach [submit_tool_outputs_to_run]: the
    service is untouched and the log grows by local events only.  The
    exception is the one for an unknown function when the calls before the
    first such call went through. *)
Theorem unknown_function_stops_the_batch run calls :
  asks_for run calls ->
  existsb unknown calls = true ->
  (forall s,
     exists e s' evs,
       requires_action_cell json_loads available_functions thread_id_global run s
         = (Raise e, s')
       /\ remote s' = remote s
       /\ log s' = log s ++ evs
       /\ Forall is_local evs)
  /\ (forall thread_id prompt_message previous s r1,
        get_run thread_id (run_id previous) (remote s) = (Ok run, r1) ->
        exists e s' evs,
          poll thread_id prompt_message (Some previous) s = (Raise e, s')
          /\ remote s' = r1
          /\ log s' = log s ++ [Sleep 5; Request (GetRun thread_id (run_id previous))] ++ evs
          /\ Forall is_local evs)
  /\ (forall served call rest s,
        calls = served ++ call :: rest ->
        Forall (fun call => passes call = true) served ->
        unknown call = true ->
        (requires_action_cell json_loads available_functions thread_id_global run s).1
          = Raise unknown_function_error)
  /\ (forall served call rest function thread_id prompt_message previous s r1,
        calls = served ++ call :: rest ->
        Forall (fun call => is_Some (answer_to call)) served ->
        unknown call = true ->
        call_function call = Some function ->
        get_run thread_id (run_id previous) (remote s) = (Ok run, r1) ->
        (poll thread_id prompt_message (Some previous) s).1
          = Raise (unavailable_function_error function)).
Proof.
  intros Hasks Hex. split; [|split; [|split]].
  - intros s. rewrite (cell_asks run calls s Hasks).
    destruct (cell_dispatch_unknown calls [] (logged [Print "Function Calling ..."] s) Hex)
      as (e & evs & Hrun & Hl).
    rewrite Hrun. exists e. eexists _, (_ :: evs).
    split; [reflexivity|]. split; [reflexivity|].
    split; [cbn [log logged]; rewrite <- app_assoc; reflexivity|].
    constructor; [reflexivity | exact Hl].
  - intros thread_id prompt_message previous s r1 Hget.
    rewrite (poll_fetches _ _ _ _ _ _ Hget), (react_asks _ _ run calls _ Hasks).
    match goal with
    | |- context [dispatch _ _ calls [] ?s0] =>
        destruct (dispatch_unknown calls [] s0 Hex) as (e & evs & Hrun & Hl); rewrite Hrun
    end.
    exists e. eexists _, (_ :: _ :: evs).
    split; [reflexivity|]. split; [reflexivity|].
    split; [cbn [log logged answered]; rewrite <- !app_assoc; reflexivity|].
    constructor; [reflexivity|]. constructor; [reflexivity | exact Hl].
  - intros served call rest s -> Hserved Hu. rewrite (cell_asks run _ s Hasks).
    destruct (cell_dispatch_first_unknown served call rest []
                (logged [Print "Function Calling ..."] s) Hserved Hu) as (evs & Hrun & _).
    rewrite Hrun. reflexivity.
  - intros served call rest function thread_id prompt_message previous s r1 -> Hserved Hu
      Hc Hget.
    rewrite (poll_fetches _ _ _ _ _ _ Hget), (react_asks _ _ run _ _ Hasks).
    match goal with
    | |- context [dispatch _ _ _ [] ?s0] =>
        destruct (dispatch_first_unknown served call rest function [] s0 Hserved Hu Hc)
          as (evs & Hrun & _); rewrite Hrun
    end.
    reflexivity.
Qed.

End DriverFacts.

(** ** Worked inputs *)

Section Examples.

Import Scripted.

(** Witness of C1: a registered call answered, then an unknown one. *)
Lemma unknown_function_stops_the_batch_witness :
  existsb (unknown_function registry) [msft_call; sell_call] = true
  /\ (requires_action_cell decoder registry "thread_A" (asking [msft_call; sell_call])
        (scripted [])).1
     = Raise unknown_function_error
  /\ (poll_iteration viewer decoder registry "thread_A" "thread_A" "Price of MSFT?" (Some queued_run)
        (scripted [asking [msft_call; sell_call]])).1
     = Raise (ValueError "Requested function 'sell_stock' is not available.").
Proof.
  assert (Hasks : asks_for (asking [msft_call; sell_call]) [msft_call; sell_call])
    by (split; reflexivity).
  assert (Hex : existsb (unknown_function registry) [msft_call; sell_call] = true)
    by (vm_compute; reflexivity).
  destruct (unknown_function_stops_the_batch viewer decoder registry "thread_A" _ _ Hasks Hex)
    as (_ & _ & Hcell & Hloop).
  split; [exact Hex|]. split.
  - apply (Hcell [msft_call] sell_call []); [reflexivity| |vm_compute; reflexivity].
    repeat constructor.
  - apply (Hloop [msft_call] sell_call [] {| name := "sell_stock";
                                              arguments := json_object "ticker_symbol" "MSFT" |}
             "thread_A" "Price of MSFT?" queued_run
             (scripted [asking [msft_call; sell_call]])
             (service two_threads [asking [msft_call; sell_call]]));
      [reflexivity| |vm_compute; reflexivity|reflexivity|reflexivity].
    repeat constructor. vm_compute. eauto.
Defined.

(** Counterexample to C1: the unknown call comes second, and the first call
    carries arguments that [json.loads] rejects.  Both paths end with the
    decoding error, not with the error for an unknown function. *)
Lemma unknown_function_error_can_be_preempted :
  existsb (unknown_function registry) [undecodable_call; sell_call] = true
  /\ (requires_action_cell decoder registry "thread_A" (asking [undecodable_call; sell_call])
        (scripted [])).1
     = Raise (JSONDecodeError "Expecting value: line 1 column 1 (char 0)")
  /\ (poll_iteration viewer decoder registry "thread_A" "thread_A" "Price of MSFT?" (Some queued_run)
        (scripted [asking [undecodable_call; sell_call]])).1
     = Raise (JSONDecodeError "Expecting value: line 1 column 1 (char 0)")
  /\ JSONDecodeError "Expecting value: line 1 column 1 (char 0)" <> unknown_function_error
  /\ JSONDecodeError "Expecting value: line 1 column 1 (char 0)"
     <> ValueError "Requested function 'sell_stock' is not available.".
Proof.
  split; [vm_compute; reflexivity|]. split; [vm_compute; reflexivity|].
  split; [vm_compute; reflexivity|]. split; discriminate.
Qed.

(** Witness of C2: two registered calls whose arguments decode. *)
Lemma answered_batch_is_submitted_whole_witness :
  length (tool_outputs_for decoder registry [msft_call; amzn_call]) = 2
  /\ (exists s',
        requires_action_cell decoder registry "thread_A" (asking [msft_call; amzn_call])
          (scripted [])
          = (Ok {| run_id := "run_1"; status := "queued"; required_action := None |}, s')
        /\ submitted (remote s')
           = [[{| tool_call_id := "call_1"; output := "415.32" |};
               {| tool_call_id := "call_2"; output := "186.4" |}]])
  /\ (exists s',
        poll_iteration viewer decoder registry "thread_A" "thread_A" "Prices?" (Some queued_run)
          (scripted [asking [msft_call; amzn_call]; run_with "completed" None])
          = (Ok (Continue {| run_id := "run_1"; status := "queued"; required_action := None |}),
             s')
        /\ submitted (remote s')
           = [[{| tool_call_id := "call_1"; output := "415.32" |};
               {| tool_call_id := "call_2"; output := "186.4" |}]]).
Proof.
  assert (Hasks : asks_for (asking [msft_call; amzn_call]) [msft_call; amzn_call])
    by (split; reflexivity).
  assert (Hall : Forall (fun call => is_Some (answer decoder registry call))
                        [msft_call; amzn_call])
    by (repeat constructor; vm_compute; eauto).
  destruct (answered_batch_is_submitted_whole viewer decoder registry "thread_A" _ _ Hasks Hall)
    as (Hlen & _ & Hcell & Hloop).
  split; [exact Hlen|]. split.
  - edestruct (Hcell (scripted [])) as (s' & evs & Hrun & Hremote & _); [reflexivity|].
    exists s'. split; [exact Hrun|]. rewrite Hremote. reflexivity.
  - edestruct (Hloop "thread_A" "Prices?" queued_run
                 (scripted [asking [msft_call; amzn_call]; run_with "completed" None]))
      as (s' & evs & Hrun & Hremote & _); [reflexivity | reflexivity |].
    exists s'. split; [exact Hrun|]. rewrite Hremote. reflexivity.
Defined.

(** Counterexample to C2: one call, of type function, for the registered
    [fetch_stock_price], whose arguments are no JSON text.  Both paths raise,
    no output is built and nothing is submitted. *)
Lemma registered_batch_can_raise :
  Forall (fun call =>
            call_type call = "function"
            /\ exists function,
                 call_function call = Some function
                 /\ is_Some (registry !! name function))
         [undecodable_call]
  /\ (exists s',
        requires_action_cell decoder registry "thread_A" (asking [undecodable_call])
          (scripted [])
          = (Raise (JSONDecodeError "Expecting value: line 1 column 1 (char 0)"), s')
        /\ submitted (remote s') = []
        /\ Forall (fun e => is_submit e = false) (log s'))
  /\ (exists s',
        poll_iteration viewer decoder registry "thread_A" "thread_A" "Price of MSFT?"
          (Some queued_run) (scripted [asking [undecodable_call]])
          = (Raise (JSONDecodeError "Expecting value: line 1 column 1 (char 0)"), s')
        /\ submitted (remote s') = []
        /\ Forall (fun e => is_submit e = false) (log s')).
Proof.
  split.
  { repeat constructor. eexists. split; [reflexivity|]. vm_compute. eauto. }
  split; eexists; (split; [vm_compute; reflexivity|]);
    (split; [reflexivity | repeat constructor]).
Qed.

(** Witness of C3, on the quote for MSFT, on a provider that is offline and
    on one that raises a subclass of [KeyError]. *)
Lemma fetch_stock_price_returns_text_witness :
  fetch_stock_price round str history "MSFT" = "415.32"
  /\ fetch_stock_price round str history "OFFLINE"
     = "Error: Unexpected issue occurred - ConnectionError: Max retries exceeded"
  /\ PyStr.contains "No data found" (fetch_stock_price round str history "ZZZZ") = true
  /\ fetch_stock_price round str Worked.history_without_zone "MSFT"
     = "Error: Data missing for key: 'No time zone found with key America/New_York'. "
         +:+ "Verify the ticker symbol.".
Proof.
  split; [|split; [|split]].
  - destruct (fetch_stock_price_returns_text round str history "MSFT") as (_ & Hdata & _).
    apply (Hdata {| df_index := ["2024-12-02"];
                    df_columns := [("Open", [414000%N]); ("Close", [415320%N])] |}
             [415320%N] 415320%N); reflexivity.
  - destruct (fetch_stock_price_returns_text round str history "OFFLINE")
      as (_ & _ & _ & Hraise & _).
    apply (Hraise (ConnectionError "Max retries exceeded")); reflexivity.
  - destruct (fetch_stock_price_returns_text round str history "ZZZZ") as (_ & _ & Hempty & _).
    apply (Hempty {| df_index := []; df_columns := [] |}); reflexivity.
  - destruct (fetch_stock_price_returns_text round str Worked.history_without_zone "MSFT")
      as (_ & _ & _ & _ & Hkey).
    apply (Hkey (Worked.ZoneInfoNotFoundError "America/New_York")); reflexivity.
Defined.

(** Counterexample to C3: the provider raises [KeyError]; the text returned
    holds the message of the exception but not its type name. *)
Lemma key_error_text_lacks_type_name :
  history "NOCLOSE" = Raise (KeyError "Close")
  /\ exn_type (KeyError "Close") = "KeyError"
  /\ exn_msg (KeyError "Close") = "'Close'"
  /\ fetch_stock_price round str history "NOCLOSE"
     = "Error: Data missing for key: 'Close'. Verify the ticker symbol."
  /\ PyStr.contains "KeyError" (fetch_stock_price round str history "NOCLOSE") = false.
Proof. repeat split; vm_compute; reflexivity. Qed.



(** Witness of C5: a failed run on the notebook's own thread. *)
Lemma failed_run_prints_latest_text_witness :
  exists s',
    polling_loop viewer decoder registry "thread_A" 3 "thread_A" "Price of MSFT?" (Some queued_run)
      (scripted [run_with "failed" None])
      = (Returned PyNone, s')
    /\ last (log s') = Some (Print (failure_report "Price of MSFT?" "Rate limit is exceeded."))
    /\ polls s' = 1.
Proof.
  edestruct (failed_run_prints_latest_text viewer decoder registry "thread_A" 2 "Price of MSFT?"
               queued_run (scripted [run_with "failed" None]) (run_with "failed" None))
    as (s' & Hrun & _ & Hlog & _ & Hpolls);
    [reflexivity | reflexivity | reflexivity | reflexivity |].
  exists s'. split; [exact Hrun|]. split; [rewrite Hlog; reflexivity | exact Hpolls].
Defined.

(** Counterexample to C5: the call ends with [None], which carries no text. *)
Lemma failed_run_returns_none :
  (process_message viewer decoder registry "agent_1" "thread_A" 3 "thread_A" "Price of MSFT?" None
     (scripted [run_with "failed" None])).1
  = Returned PyNone
  /\ forall text, Returned PyNone <> Returned (PyStr text).
Proof. split; [vm_compute; reflexivity | discriminate]. Qed.

(** Witness of C6: the service rejects [create_message]. *)
Lemma rejected_start_still_enters_loop_witness :
  exists s',
    process_message viewer decoder registry "agent_1" "thread_A" 3 "thread_A" "Price of MSFT?" None
      (session {| threads := two_threads; script := []; uploads := ∅; submitted := [];
                  reject_message := Some (HttpResponseError "Invalid thread");
                  reject_run := None |})
      = (Raised (UnboundLocalError "run"), s')
    /\ log s' = [Request (CreateMessage "thread_A" "user" "Price of MSFT?" None);
                 Print "Error starting run: Invalid thread"; Sleep 5].
Proof.
  edestruct (rejected_start_still_enters_loop viewer decoder registry "agent_1" "thread_A" 2
               "thread_A" "Price of MSFT?" None
               (session {| threads := two_threads; script := []; uploads := ∅;
                           submitted := [];
                           reject_message := Some (HttpResponseError "Invalid thread");
                           reject_run := None |})
               (HttpResponseError "Invalid thread"))
    as (s' & evs & Hrun & _ & Hlog & _);
    [left; reflexivity |].
  exists s'. split; [exact Hrun|].
  revert Hrun. vm_compute. intros [= <-]. reflexivity.
Defined.

(** The failing input of C7, evaluated. *)
Lemma two_text_parts_print_one_line :
  (print_thread_message viewer
     {| message_id := "msg_9"; role := "assistant";
        content := [MessageTextContent "MSFT closed at 415.32.";
                    MessageTextContent "Your position is worth 4153.2."] |}
     (scripted [])).2.(log)
  = [Print "Assistant: Your position is worth 4153.2."].
Proof. vm_compute. reflexivity. Qed.

(** Witness of C8. *)
Lemma pending_poll_only_observes_witness :
  exists s',
    poll_iteration viewer decoder registry "thread_A" "thread_A" "Price of MSFT?" (Some queued_run)
      (scripted [run_with "in_progress" None])
      = (Ok (Continue (run_with "in_progress" None)), s')
    /\ submitted (remote s') = []
    /\ threads (remote s') = two_threads
    /\ log s' = [Sleep 5; Request (GetRun "thread_A" "run_1");
                 Print (status_line "in_progress"); Sleep 5].
Proof.
  edestruct (pending_poll_only_observes viewer decoder registry "thread_A" "thread_A"
               "Price of MSFT?" queued_run (scripted [run_with "in_progress" None])
               (run_with "in_progress" None))
    as (s' & evs & Hrun & Hremote & _ & Hlog & -> & _);
    [reflexivity | right; reflexivity |].
  exists s'. split; [exact Hrun|]. rewrite Hremote. repeat split. exact Hlog.
Defined.

(** Witness of C9: a run that stays in progress is still polled after seven
    turns. *)
Lemma polling_has_no_bound_witness :
  exists s',
    polling_loop viewer decoder registry "thread_A" 7 "thread_A" "Price of MSFT?" (Some queued_run)
      (scripted [run_with "in_progress" None])
      = (Polling, s')
    /\ polls s' = 7.
Proof.
  destruct (polling_has_no_bound viewer decoder registry "thread_A" "thread_A" "Price of MSFT?")
    as [_ Hpending].
  apply (Hpending (fun r _ => script r = [run_with "in_progress" None])).
  - intros r rid Hscript. exists (run_with "in_progress" None), r.
    simpl. unfold scripted_get_run. rewrite Hscript. auto.
  - reflexivity.
Defined.

(** Counterexample to C9: the service answers the first poll with an error.
    The loop is left with no status observed and no call dispatched. *)
Lemma loop_ends_on_poll_error :
  exists s',
    polling_loop viewer decoder registry "thread_A" 3 "thread_A" "Price of MSFT?" (Some queued_run)
      (scripted [])
      = (Raised (HttpResponseError "No run found"), s')
    /\ log s' = [Sleep 5; Request (GetRun "thread_A" "run_1")].
Proof. eexists. split; vm_compute; reflexivity. Qed.

(** Witness of C10: the call is about thread_B, the report is the last message
    of thread_A. *)
Lemma failed_run_reads_global_thread_witness :
  exists s',
    polling_loop viewer decoder registry "thread_A" 3 "thread_B" "Show a pie chart"
      (Some queued_run) (scripted [run_with "failed" None])
      = (Returned PyNone, s')
    /\ log s' = [Sleep 5; Request (GetRun "thread_B" "run_1");
                 Print (status_line "failed");
                 Request (ListMessages "thread_A" None);
                 Print (failure_report "Show a pie chart" "Rate limit is exceeded.")]
    /\ PyStr.contains "Rate limit is exceeded."
         (failure_report "Show a pie chart" "Rate limit is exceeded.") = true
    /\ scripted_list_messages "thread_B" None (service two_threads [])
       = (Ok [text_message "msg_3" "user" "Show a pie chart"], service two_threads []).
Proof.
  edestruct (failed_run_reads_global_thread viewer decoder registry "thread_A" 2 "thread_B"
               "Show a pie chart" queued_run (scripted [run_with "failed" None])
               (run_with "failed" None))
    as (c & s' & evs & report & Hrun & _ & Hlog & -> & _ & Hreport);
    [reflexivity | reflexivity | reflexivity |].
  destruct Hreport as (-> & -> & Hcarries).
  exists s'. split; [exact Hrun|]. split; [exact Hlog|]. split; [exact Hcarries|].
  reflexivity.
Defined.

(** Counterexample to C10: the call is about thread_B, the run has failed and
    the notebook's thread_A has no message.  The call raises out of the
    failed branch and no failure text is reported, although thread_B has a
    message. *)
Lemma failed_run_on_other_thread_reports_nothing :
  "thread_B" <> "thread_A"
  /\ exists s',
       polling_loop viewer decoder registry "thread_A" 3 "thread_B" "Show a pie chart"
         (Some queued_run) Worked.failed_beside_empty_thread
       = (Raised (IndexError "list index out of range"), s')
       /\ log s' = [Sleep 5; Request (GetRun "thread_B" "run_1");
                    Print (status_line "failed");
                    Request (ListMessages "thread_A" None)]
       /\ threads (remote s') !! "thread_B"
          = Some [text_message "msg_3" "user" "Show a pie chart"].
Proof.
  split; [discriminate|]. eexists. split; [vm_compute; reflexivity|].
  split; vm_compute; reflexivity.
Qed.

End Examples.

(** * Further properties *)

(** ** The price lookup adapter, continued *)

Section PriceLookupMore.

Context {float : Type}.
Variable round : float -> nat -> float.
Variable str : float -> string.
Variable history : string -> result (@DataFrame float).

Local Abbreviation fetch_price := (fetch_stock_price round str history).

Lemma error_text_is_tagged (rest : string) :
  String.prefix "Error: " ("Error: " +:+ rest) = true.
Proof. apply PyStrFacts.prefix_app. Qed.

(** X1.  When the provider returns rows but no column named Close, the lookup
    of the column raises [KeyError] inside the [try] block and the adapter
    returns the text about the missing key, naming Close. *)
Theorem fetch_without_close_column ticker_symbol df :
  history ticker_symbol = Ok df ->
  empty df = false ->
  column "Close" (df_columns df) = None ->
  fetch_price ticker_symbol
    = "Error: Data missing for key: 'Close'. Verify the ticker symbol.".
Proof.
  intros Hh He Hc. unfold fetch_stock_price, fetch_stock_price_try.
  rewrite Hh. simpl. rewrite He. unfold getitem. rewrite Hc. reflexivity.
Qed.

(** X2.  Whatever the provider does, the adapter returns either the text of
    the last closing price rounded to three places, read from a data set that
    is not empty, or a text that starts with the tag Error and a colon. *)
Theorem fetch_gives_price_or_tagged_error ticker_symbol :
  (exists df close price,
     history ticker_symbol = Ok df
     /\ empty df = false
     /\ getitem df "Close" = Ok close
     /\ iloc_last close = Ok price
     /\ fetch_price ticker_symbol = str (round price 3))
  \/ String.prefix "Error: " (fetch_price ticker_symbol) = true.
Proof.
  unfold fetch_stock_price, fetch_stock_price_try.
  destruct (history ticker_symbol) as [df|e] eqn:Hh; simpl.
  - destruct (empty df) eqn:He.
    + right. apply (error_text_is_tagged ("No data found for ticker symbol: " +:+ ticker_symbol)).
    + destruct (getitem df "Close") as [close|e] eqn:Hc; simpl.
      * destruct (iloc_last close) as [price|e] eqn:Hl; simpl.
        -- left. exists df, close, price. auto.
        -- right. destruct (is_KeyError e).
           ++ apply (error_text_is_tagged
                       ("Data missing for key: " +:+ exn_msg e +:+ ". Verify the ticker symbol.")).
           ++ apply (error_text_is_tagged
                       ("Unexpected issue occurred - " +:+ exn_type e +:+ ": " +:+ exn_msg e)).
      * right. destruct (is_KeyError e).
        -- apply (error_text_is_tagged
                    ("Data missing for key: " +:+ exn_msg e +:+ ". Verify the ticker symbol.")).
        -- apply (error_text_is_tagged
                    ("Unexpected issue occurred - " +:+ exn_type e +:+ ": " +:+ exn_msg e)).
  - right. destruct (is_KeyError e).
    + apply (error_text_is_tagged
               ("Data missing for key: " +:+ exn_msg e +:+ ". Verify the ticker symbol.")).
    + apply (error_text_is_tagged
               ("Unexpected issue occurred - " +:+ exn_type e +:+ ": " +:+ exn_msg e)).
Qed.

End PriceLookupMore.

(** ** The driver, continued *)

Ltac unfold_run :=
  repeat first
    [ rewrite bind_run
    | progress cbv beta iota
    | progress unfold print, sleep, emit, mret, M_ret ].

Section DriverMore.

Context {Remote : Type} `{client : AgentsClient Remote}.
Variable show_image : list string -> result unit.
Variable json_loads : string -> result kwargs.
Variable available_functions : gmap string Callable.
Variable agent_id : string.
Variable thread_id_global : string.

Local Abbreviation turn :=
  (poll_iteration show_image json_loads available_functions thread_id_global).
Local Abbreviation branch :=
  (on_status show_image json_loads available_functions thread_id_global).
Local Abbreviation polling :=
  (polling_loop show_image json_loads available_functions thread_id_global).
Local Abbreviation processing :=
  (process_message show_image json_loads available_functions agent_id thread_id_global).
Local Abbreviation reply := (answer json_loads available_functions).
Local Abbreviation replies := (tool_outputs_for json_loads available_functions).

Lemma transient_branch thread_id prompt_message run (s : Session Remote) :
  is_transient run = true ->
  branch thread_id prompt_message run s =
    (Ok (Continue run), logged [Print (status_line (status run)); Sleep 5] s).
Proof.
  unfold is_transient. intros Ht.
  apply andb_true_iff in Ht as [Ht Hact]. apply andb_true_iff in Ht as [Hc Hf].
  apply negb_true_iff in Hc, Hf.
  unfold on_status. unfold_run. rewrite Hc, Hf. unfold_run.
  apply orb_true_iff in Hact as [Hr | Hact].
  - apply negb_true_iff in Hr. rewrite Hr. unfold_run. rewrite logged_logged. reflexivity.
  - destruct (bool_decide (status run = "requires_action")).
    + destruct (required_action run) as [action|]; [|discriminate].
      apply negb_true_iff in Hact. unfold getattr. unfold_run. rewrite Hact. unfold_run.
      rewrite logged_logged. reflexivity.
    + unfold_run. rewrite logged_logged. reflexivity.
Qed.

Lemma transient_turn thread_id prompt_message previous s run remote' :
  get_run thread_id (run_id previous) (remote s) = (Ok run, remote') ->
  is_transient run = true ->
  turn thread_id prompt_message (Some previous) s =
    (Ok (Continue run),
     logged [Sleep 5; Request (GetRun thread_id (run_id previous));
             Print (status_line (status run)); Sleep 5]
       (answered remote' s)).
Proof.
  intros Hget Ht.
  rewrite (poll_fetches _ _ _ _ _ _ _ _ _ _ Hget), (transient_branch _ _ _ _ Ht), logged_logged.
  reflexivity.
Qed.

(** X3.  A turn goes on without doing anything for every run that is neither
    completed nor failed and does not ask for tool outputs: a cancelled or
    expired run, and a run that requires an action of another type, are
    treated like a queued one.  The turn sleeps, fetches, prints the status
    and sleeps again. *)
Theorem other_status_is_waited_on thread_id prompt_message previous s run remote' :
  get_run thread_id (run_id previous) (remote s) = (Ok run, remote') ->
  is_transient run = true ->
  exists s',
    turn thread_id prompt_message (Some previous) s = (Ok (Continue run), s')
    /\ remote s' = remote'
    /\ files s' = files s
    /\ log s' = log s ++ [Sleep 5; Request (GetRun thread_id (run_id previous));
                          Print (status_line (status run)); Sleep 5].
Proof.
  intros Hget Ht. rewrite (transient_turn _ _ _ _ _ _ Hget Ht).
  eexists. repeat split; reflexivity.
Qed.

Lemma slept_logged evs (s : Session Remote) :
  slept (logged evs s) = slept s + sum_list_with sleep_seconds evs.
Proof. unfold slept. simpl. apply sum_list_with_app. Qed.

Lemma polls_logged evs (s : Session Remote) :
  polls (logged evs s) = polls s + length (filter (fun e => is_poll e = true) evs).
Proof. unfold polls. simpl. rewrite filter_app, length_app. reflexivity. Qed.

(** X4.  While every poll answers a run on which no branch is taken, the loop
    is still going round after any number of turns: it has polled once and
    slept ten seconds per turn.  A run that ends cancelled or expired is
    therefore polled for ever. *)
Theorem unhandled_status_is_polled_for_ever
    (waiting : Remote -> string -> Prop) thread_id prompt_message :
  (forall r rid, waiting r rid ->
     exists run r',
       get_run thread_id rid r = (Ok run, r')
       /\ is_transient run = true
       /\ waiting r' (run_id run)) ->
  forall fuel previous s,
    waiting (remote s) (run_id previous) ->
    exists s',
      polling fuel thread_id prompt_message (Some previous) s = (Polling, s')
      /\ polls s' = polls s + fuel
      /\ slept s' = slept s + 10 * fuel.
Proof.
  intros Hstays. induction fuel as [|fuel IH]; intros previous s Hw; simpl polling_loop.
  - exists s. repeat split; lia.
  - destruct (Hstays _ _ Hw) as (run & r' & Hget & Ht & Hw').
    rewrite (transient_turn _ _ _ _ _ _ Hget Ht).
    match goal with
    | |- context [polling_loop _ _ _ _ fuel _ _ _ ?s0] =>
        destruct (IH run s0 Hw') as (s' & Hloop & Hpolls & Hslept)
    end.
    exists s'. split; [exact Hloop|].
    rewrite Hpolls, Hslept, polls_logged, slept_logged. simpl.
    unfold polls, slept. simpl. lia.
Qed.

(** X5.  When [get_run] raises, the call of [process_message] ends with that
    exception after the one request: the poll is not tried again and nothing
    else is sent. *)
Theorem poll_error_is_not_retried fuel thread_id prompt_message previous s e remote' :
  get_run thread_id (run_id previous) (remote s) = (Raise e, remote') ->
  exists s',
    polling (S fuel) thread_id prompt_message (Some previous) s = (Raised e, s')
    /\ remote s' = remote'
    /\ log s' = log s ++ [Sleep 5; Request (GetRun thread_id (run_id previous))]
    /\ polls s' = polls s + 1.
Proof.
  intros Hget. simpl polling_loop. rewrite (poll_fetch_raises _ _ _ _ _ _ _ _ _ _ Hget).
  eexists. split; [reflexivity|]. split; [reflexivity|]. split; [reflexivity|].
  rewrite polls_logged. reflexivity.
Qed.

(** X6.  When both start-up calls succeed, [process_message] has posted the
    prompt as a user message with the attachments, then started a run of the
    module-level agent with the prompt again as the run's instructions, and
    goes on as the loop does from the run that [create_run] returned. *)
Theorem started_run_is_the_one_polled
    fuel thread_id prompt_message attachments_list s message r1 run r2 :
  create_message thread_id "user" prompt_message attachments_list (remote s)
    = (Ok message, r1) ->
  create_run thread_id agent_id prompt_message r1 = (Ok run, r2) ->
  processing fuel thread_id prompt_message attachments_list s
    = polling fuel thread_id prompt_message (Some run)
        (logged [Request (CreateMessage thread_id "user" prompt_message attachments_list);
                 Print "User message added...";
                 Request (CreateRun thread_id agent_id prompt_message);
                 Print "Run started..."]
           (answered r2 s)).
Proof.
  intros Hm Hr. unfold process_message, start_run, try_except. unfold_run.
  rewrite (request_run _ _ _ _ _ Hm). unfold_run.
  rewrite (request_run _ _ _ (Ok run) r2) by exact Hr. unfold_run.
  f_equal. unfold logged, answered; cbn [remote files log]. rewrite <- !app_assoc. reflexivity.
Qed.

(** X7.  One round of tool calls, end to end.  The first poll finds the run
    asking for a batch that goes through, the outputs are accepted, and the
    next poll finds the run completed with messages that hold no image.  Then
    the outputs are submitted once, the second poll follows one sleep of five
    seconds and fetches the run that the submission returned, the messages
    are printed and [None] is returned. *)
Theorem tool_round_then_completed
    fuel thread_id prompt_message previous s run1 r1 calls run2 r2 run3 r3 messages r4 :
  get_run thread_id (run_id previous) (remote s) = (Ok run1, r1) ->
  asks_for run1 calls ->
  Forall (fun call => is_Some (reply call)) calls ->
  submit_tool_outputs_to_run thread_id (run_id run1) (replies calls) r1 = (Ok run2, r2) ->
  get_run thread_id (run_id run2) r2 = (Ok run3, r3) ->
  status run3 = "completed" ->
  list_messages thread_id (Some "asc") r3 = (Ok messages, r4) ->
  existsb has_image messages = false ->
  exists s' evs,
    polling (S (S fuel)) thread_id prompt_message (Some previous) s = (Returned PyNone, s')
    /\ remote s' = r4
    /\ Forall is_local evs
    /\ log s' = log s
         ++ [Sleep 5; Request (GetRun thread_id (run_id previous));
             Print (status_line "requires_action"); Print "Function calling initiated..."]
         ++ evs
         ++ [Request (SubmitToolOutputs thread_id (run_id run1) (replies calls));
             Print "Function call(s) completed successfully.";
             Sleep 5; Request (GetRun thread_id (run_id run2));
             Print (status_line "completed");
             Request (ListMessages thread_id (Some "asc"))]
         ++ flat_map printed_line messages.
Proof.
  intros Hget1 Hasks Hall Hsubmit Hget2 Hst Hlist Hno.
  change (polling (S (S fuel)) thread_id prompt_message (Some previous) s)
    with (match turn thread_id prompt_message (Some previous) s with
          | (Ok (Continue run'), s') => polling (S fuel) thread_id prompt_message (Some run') s'
          | (Ok Break, s') => (Returned PyNone, s')
          | (Raise e, s') => (Raised e, s')
          end).
  rewrite (poll_fetches _ _ _ _ _ _ _ _ _ _ Hget1), (react_asks _ _ _ _ _ _ run1 calls _ Hasks).
  match goal with
  | |- context [dispatch _ _ calls [] ?s0] =>
      destruct (dispatch_answered json_loads available_functions calls [] s0 Hall)
        as (evs & Hrun & Hl); rewrite Hrun
  end.
  cbn [app remote logged answered]. rewrite Hsubmit.
  simpl polling_loop.
  match goal with
  | |- context [poll_iteration _ _ _ _ _ _ (Some run2) ?s1] =>
      rewrite (poll_fetches show_image json_loads available_functions thread_id_global
                 thread_id prompt_message run2 s1 run3 r3 Hget2)
  end.
  rewrite (react_completed show_image json_loads available_functions thread_id_global
             prompt_message thread_id run3 _ messages r4 Hst) by exact Hlist.
  match goal with
  | |- context [for_each messages (print_thread_message show_image) ?s2] =>
      destruct (for_each_messages_quiet show_image messages s2)
        as (r & s' & evs' & Hprint & _ & _ & Htext & _)
  end.
  destruct (Htext Hno) as [-> ->]. rewrite Hprint.
  destruct Hasks as [Hst1 _].
  eexists _, evs. split; [reflexivity|]. split; [reflexivity|]. split; [exact Hl|].
  cbn [log logged answered]. rewrite Hst, Hst1, <- !app_assoc. reflexivity.
Qed.

(** Batches that stop half way *)

Local Abbreviation failing := (failure json_loads available_functions).
Local Abbreviation passing := (cell_passes json_loads available_functions).

Lemma failure_inv call e :
  failing call = Some e ->
  exists function func,
    call_type call = "function"
    /\ call_function call = Some function
    /\ available_functions !! name function = Some func
    /\ (json_loads (arguments function) = Raise e
        \/ exists keywords,
             json_loads (arguments function) = Ok keywords /\ func keywords = Raise e).
Proof.
  unfold failure, requested.
  destruct (bool_decide (call_type call = "function")) eqn:Ht; [|discriminate].
  apply bool_decide_eq_true in Ht.
  destruct (call_function call) as [function|]; [|discriminate]. simpl.
  destruct (available_functions !! name function) as [func|] eqn:Hf; [|discriminate]. simpl.
  destruct (json_loads (arguments function)) as [keywords|e'] eqn:Hj.
  - destruct (func keywords) as [out|e'] eqn:Hc; [discriminate|].
    intros [= <-]. exists function, func. eauto 10.
  - intros [= <-]. exists function, func. eauto 10.
Qed.

Lemma dispatch_call_fails call e tool_responses (s : Session Remote) :
  failing call = Some e ->
  exists evs,
    dispatch_call json_loads available_functions call tool_responses s
      = (Raise e, logged evs s)
    /\ Forall is_local evs.
Proof.
  intros Hfail.
  destruct (failure_inv _ _ Hfail) as (function & func & Ht & Hc & Hf & Hwhy).
  unfold dispatch_call. rewrite Ht, Hc.
  rewrite (bool_decide_eq_true_2 _ (eq_refl "function")). unfold getattr. unfold_run.
  rewrite Hf. unfold_run. rewrite invoke_run.
  destruct Hwhy as [Hj | (keywords & Hj & Ho)]; rewrite Hj.
  - exists []. rewrite logged_nil. split; [reflexivity | constructor].
  - rewrite Ho. eexists. split; [reflexivity | repeat constructor].
Qed.

Lemma cell_dispatch_call_fails call e tool_responses (s : Session Remote) :
  failing call = Some e ->
  exists evs,
    cell_dispatch_call json_loads available_functions call tool_responses s
      = (Raise e, logged evs s)
    /\ Forall is_local evs.
Proof.
  intros Hfail.
  destruct (failure_inv _ _ Hfail) as (function & func & Ht & Hc & Hf & Hwhy).
  unfold cell_dispatch_call. rewrite Ht, Hc.
  rewrite (bool_decide_eq_true_2 _ (eq_refl "function")). unfold getattr. unfold_run.
  rewrite Hf. unfold_run. rewrite invoke_run.
  destruct Hwhy as [Hj | (keywords & Hj & Ho)]; rewrite Hj.
  - exists []. rewrite logged_nil. split; [reflexivity | constructor].
  - rewrite Ho. eexists. split; [reflexivity | repeat constructor].
Qed.

Lemma dispatch_cons call calls tool_responses :
  dispatch (Remote := Remote) json_loads available_functions (call :: calls) tool_responses =
    dispatch_call json_loads available_functions call tool_responses
      ≫= dispatch json_loads available_functions calls.
Proof. reflexivity. Qed.

(** The loop of [process_message] stops at the first call that raises. *)
Lemma dispatch_stops served : forall call rest e tool_responses (s : Session Remote),
  Forall (fun call => is_Some (reply call)) served ->
  (forall responses (s0 : Session Remote),
     exists evs,
       dispatch_call json_loads available_functions call responses s0
         = (Raise e, logged evs s0)
       /\ Forall is_local evs) ->
  exists evs,
    dispatch json_loads available_functions (served ++ call :: rest) tool_responses s
      = (Raise e, logged evs s)
    /\ dispatch json_loads available_functions (served ++ [call]) tool_responses s
       = (Raise e, logged evs s)
    /\ Forall is_local evs.
Proof.
  induction served as [|first served IH]; intros call rest e tool_responses s Hall Hraise.
  - destruct (Hraise tool_responses s) as (evs & Hrun & Hl).
    exists evs. simpl app. rewrite !dispatch_cons, !bind_run, Hrun. auto.
  - apply Forall_cons in Hall as [[tool_response Ha] Hall].
    destruct (dispatch_call_answered json_loads available_functions first tool_responses
                tool_response s Ha) as (evs1 & Hrun1 & Hl1).
    destruct (IH call rest e
                (tool_responses ++ [{| tool_call_id := call_id first; output := tool_response |}])
                (logged evs1 s) Hall Hraise) as (evs2 & Hrun2 & Hrun2' & Hl2).
    exists (evs1 ++ evs2).
    change ((first :: served) ++ call :: rest) with (first :: served ++ call :: rest).
    change ((first :: served) ++ [call]) with (first :: served ++ [call]).
    rewrite !dispatch_cons, !bind_run, Hrun1, Hrun2, Hrun2', logged_logged.
    split; [reflexivity|]. split; [reflexivity|]. apply Forall_app; auto.
Qed.

(** So does the loop of the manual cell. *)
Lemma cell_dispatch_stops served : forall call rest e tool_responses (s : Session Remote),
  Forall (fun call => passing call = true) served ->
  (forall responses (s0 : Session Remote),
     exists evs,
       cell_dispatch_call json_loads available_functions call responses s0
         = (Raise e, logged evs s0)
       /\ Forall is_local evs) ->
  exists evs,
    cell_dispatch json_loads available_functions (served ++ call :: rest) tool_responses s
      = (Raise e, logged evs s)
    /\ cell_dispatch json_loads available_functions (served ++ [call]) tool_responses s
       = (Raise e, logged evs s)
    /\ Forall is_local evs.
Proof.
  induction served as [|first served IH]; intros call rest e tool_responses s Hall Hraise.
  - destruct (Hraise tool_responses s) as (evs & Hrun & Hl).
    exists evs. simpl app. rewrite !cell_dispatch_cons, !bind_run, Hrun. auto.
  - apply Forall_cons in Hall as [Hp Hall].
    destruct (cell_dispatch_call_passes json_loads available_functions first tool_responses
                s Hp) as (evs1 & Hrun1 & Hl1).
    destruct (IH call rest e (tool_responses ++ replies [first]) (logged evs1 s) Hall Hraise)
      as (evs2 & Hrun2 & Hrun2' & Hl2).
    exists (evs1 ++ evs2).
    change ((first :: served) ++ call :: rest) with (first :: served ++ call :: rest).
    change ((first :: served) ++ [call]) with (first :: served ++ [call]).
    rewrite !cell_dispatch_cons, !bind_run, Hrun1, Hrun2, Hrun2', logged_logged.
    split; [reflexivity|]. split; [reflexivity|]. apply Forall_app; auto.
Qed.

(** X8.  In [process_message] a batch stops at the first call to a registered
    function whose arguments do not decode or whose invocation raises: the
    turn ends with that exception, the calls after it are never looked at (the
    loop does the same whatever follows), the outputs already collected are
    dropped and nothing is submitted. *)
Theorem failing_call_ends_the_turn
    thread_id prompt_message previous s run r1 served call rest e :
  get_run thread_id (run_id previous) (remote s) = (Ok run, r1) ->
  asks_for run (served ++ call :: rest) ->
  Forall (fun call => is_Some (reply call)) served ->
  failing call = Some e ->
  exists s' evs,
    turn thread_id prompt_message (Some previous) s = (Raise e, s')
    /\ remote s' = r1
    /\ log s' = log s ++ [Sleep 5; Request (GetRun thread_id (run_id previous))] ++ evs
    /\ Forall is_local evs
    /\ forall responses (s0 : Session Remote),
         dispatch json_loads available_functions (served ++ call :: rest) responses s0
         = dispatch json_loads available_functions (served ++ [call]) responses s0.
Proof.
  intros Hget Hasks Hserved Hfail.
  assert (Hraise : forall responses (s0 : Session Remote),
             exists evs,
               dispatch_call json_loads available_functions call responses s0
                 = (Raise e, logged evs s0)
               /\ Forall is_local evs)
    by (intros; apply dispatch_call_fails, Hfail).
  rewrite (poll_fetches _ _ _ _ _ _ _ _ _ _ Hget), (react_asks _ _ _ _ _ _ run _ _ Hasks).
  match goal with
  | |- context [dispatch _ _ _ [] ?s0] =>
      destruct (dispatch_stops served call rest e [] s0 Hserved Hraise)
        as (evs & Hrun & _ & Hl); rewrite Hrun
  end.
  eexists _, (_ :: _ :: evs). split; [reflexivity|]. split; [reflexivity|].
  split; [cbn [log logged answered]; rewrite <- !app_assoc; reflexivity|].
  split; [constructor; [reflexivity|]; constructor; [reflexivity | exact Hl]|].
  intros responses s0.
  destruct (dispatch_stops served call rest e responses s0 Hserved Hraise)
    as (evs' & -> & -> & _). reflexivity.
Qed.

(** X9.  The manual cell stops in the same way: at the first function call
    that raises the cell ends with that exception, after stepping over calls
    of other types and answering the function calls before it, and
    [submit_tool_outputs_to_run] is not reached. *)
Theorem failing_call_ends_the_cell run served call rest e (s : Session Remote) :
  asks_for run (served ++ call :: rest) ->
  Forall (fun call => passing call = true) served ->
  failing call = Some e ->
  exists s' evs,
    requires_action_cell json_loads available_functions thread_id_global run s
      = (Raise e, s')
    /\ remote s' = remote s
    /\ log s' = log s ++ evs
    /\ Forall is_local evs
    /\ forall responses (s0 : Session Remote),
         cell_dispatch json_loads available_functions (served ++ call :: rest) responses s0
         = cell_dispatch json_loads available_functions (served ++ [call]) responses s0.
Proof.
  intros Hasks Hserved Hfail.
  assert (Hraise : forall responses (s0 : Session Remote),
             exists evs,
               cell_dispatch_call json_loads available_functions call responses s0
                 = (Raise e, logged evs s0)
               /\ Forall is_local evs)
    by (intros; apply cell_dispatch_call_fails, Hfail).
  rewrite (cell_asks _ _ _ run _ s Hasks).
  match goal with
  | |- context [cell_dispatch _ _ _ [] ?s0] =>
      destruct (cell_dispatch_stops served call rest e [] s0 Hserved Hraise)
        as (evs & Hrun & _ & Hl); rewrite Hrun
  end.
  eexists _, (_ :: evs). split; [reflexivity|]. split; [reflexivity|].
  split; [cbn [log logged]; rewrite <- !app_assoc; reflexivity|].
  split; [constructor; [reflexivity | exact Hl]|].
  intros responses s0.
  destruct (cell_dispatch_stops served call rest e responses s0 Hserved Hraise)
    as (evs' & -> & -> & _). reflexivity.
Qed.

(** Calls of another type *)

Lemma replies_count calls :
  Forall (fun call => passing call = true) calls ->
  length (replies calls) = length (filter (fun call => is_function_call call = true) calls).
Proof.
  induction 1 as [|call calls Hp _ IH]; [reflexivity|].
  rewrite (outputs_for_cons json_loads available_functions call calls), length_app, IH.
  rewrite filter_cons.
  destruct (passes_inv _ _ _ Hp) as [Ht | [tool_response Ha]].
  - assert (Hf : is_function_call call = false) by apply (bool_decide_eq_false_2 _ Ht).
    rewrite decide_False by (rewrite Hf; discriminate).
    unfold tool_outputs_for. simpl. unfold tool_output_for.
    replace (reply call) with (@None string); [reflexivity|].
    unfold answer, requested. rewrite (bool_decide_eq_false_2 _ Ht). reflexivity.
  - destruct (answer_inv _ _ _ _ Ha) as (function & func & keywords & Ht & _).
    assert (Hf : is_function_call call = true) by apply (bool_decide_eq_true_2 _ Ht).
    rewrite decide_True by exact Hf.
    rewrite (outputs_for_cons_answered _ _ _ [] _ Ha). reflexivity.
Qed.

(** X10.  The manual cell steps over the calls that are not of type function:
    when the function calls of a batch all go through, the cell submits one
    output per function call and none for the others, so a batch that holds a
    call of another type is submitted with fewer outputs than calls. *)
Theorem cell_answers_function_calls_only run calls (s : Session Remote) r remote' :
  asks_for run calls ->
  Forall (fun call => passing call = true) calls ->
  submit_tool_outputs_to_run thread_id_global (run_id run) (replies calls) (remote s)
    = (r, remote') ->
  length (replies calls) = length (filter (fun call => is_function_call call = true) calls)
  /\ exists s' evs,
       requires_action_cell json_loads available_functions thread_id_global run s = (r, s')
       /\ remote s' = remote'
       /\ Forall is_local evs
       /\ log s' = log s ++ [Print "Function Calling ..."] ++ evs
            ++ Request (SubmitToolOutputs thread_id_global (run_id run) (replies calls))
            :: match r with Ok _ => [Print submitted_line] | Raise _ => [] end.
Proof.
  intros Hasks Hall Hsubmit. split; [apply replies_count, Hall|].
  rewrite (cell_asks _ _ _ run calls s Hasks).
  destruct (cell_dispatch_passing json_loads available_functions calls []
              (logged [Print "Function Calling ..."] s) Hall) as (evs & Hrun & Hl).
  rewrite Hrun. cbn [app remote logged]. rewrite Hsubmit.
  destruct r as [run'|e]; eexists _, evs;
    (split; [reflexivity|]; split; [reflexivity|]; split; [exact Hl|]);
    cbn [log logged answered]; rewrite <- !app_assoc; reflexivity.
Qed.

Lemma dispatch_call_other_type call tool_responses (s : Session Remote) :
  call_type call <> "function" ->
  dispatch_call json_loads available_functions call tool_responses s
    = (Raise (other_type_error call), s).
Proof.
  intros Ht. unfold dispatch_call, other_type_error.
  rewrite (bool_decide_eq_false_2 _ Ht). unfold_run.
  destruct (call_function call) as [function|]; reflexivity.
Qed.

(** X11.  [process_message] does not step over a call of another type: after
    the calls before it went through, a call that is not of type function ends
    the turn with the error for an unavailable function, or with
    [AttributeError] when the call has no [function] attribute to name, and
    nothing is submitted. *)
Theorem other_call_type_ends_the_turn
    thread_id prompt_message previous s run r1 served call rest :
  get_run thread_id (run_id previous) (remote s) = (Ok run, r1) ->
  asks_for run (served ++ call :: rest) ->
  Forall (fun call => is_Some (reply call)) served ->
  call_type call <> "function" ->
  exists s' evs,
    turn thread_id prompt_message (Some previous) s = (Raise (other_type_error call), s')
    /\ remote s' = r1
    /\ log s' = log s ++ [Sleep 5; Request (GetRun thread_id (run_id previous))] ++ evs
    /\ Forall is_local evs.
Proof.
  intros Hget Hasks Hserved Ht.
  assert (Hraise : forall responses (s0 : Session Remote),
             exists evs,
               dispatch_call json_loads available_functions call responses s0
                 = (Raise (other_type_error call), logged evs s0)
               /\ Forall is_local evs).
  { intros responses s0. exists []. rewrite logged_nil.
    split; [apply dispatch_call_other_type, Ht | constructor]. }
  rewrite (poll_fetches _ _ _ _ _ _ _ _ _ _ Hget), (react_asks _ _ _ _ _ _ run _ _ Hasks).
  match goal with
  | |- context [dispatch _ _ _ [] ?s0] =>
      destruct (dispatch_stops served call rest _ [] s0 Hserved Hraise)
        as (evs & Hrun & _ & Hl); rewrite Hrun
  end.
  eexists _, (_ :: _ :: evs). split; [reflexivity|]. split; [reflexivity|].
  split; [cbn [log logged answered]; rewrite <- !app_assoc; reflexivity|].
  constructor; [reflexivity|]. constructor; [reflexivity | exact Hl].
Qed.

(** X12.  The manual cell submits even when there is nothing to dispatch: for
    a required action of another type, or without tool calls, it calls no
    function and sends an empty list of outputs. *)
Theorem cell_submits_nothing_without_batch run action (s : Session Remote) r remote' :
  status run = "requires_action" ->
  required_action run = Some action ->
  action_type action <> "submit_tool_outputs" \/ tool_calls action = None ->
  submit_tool_outputs_to_run thread_id_global (run_id run) [] (remote s) = (r, remote') ->
  exists s',
    requires_action_cell json_loads available_functions thread_id_global run s = (r, s')
    /\ remote s' = remote'
    /\ log s' = log s
         ++ [Print "Function Calling ...";
             Request (SubmitToolOutputs thread_id_global (run_id run) [])]
         ++ match r with Ok _ => [Print submitted_line] | Raise _ => [] end.
Proof.
  intros Hst Hact Hnone Hsubmit. unfold requires_action_cell. rewrite Hst.
  rewrite (bool_decide_eq_true_2 _ (eq_refl "requires_action")). unfold_run.
  rewrite Hact. unfold getattr. unfold_run.
  assert (Hresponses : forall s0 : Session Remote,
            (if bool_decide (action_type action = "submit_tool_outputs")
             then match tool_calls action with
                  | Some calls => cell_dispatch json_loads available_functions calls []
                  | None => fun s1 : Session Remote => (Ok [], s1)
                  end
             else fun s1 : Session Remote => (Ok [], s1)) s0
            = (Ok [], s0)).
  { intros s0. destruct Hnone as [Hty | Hcalls].
    - rewrite (bool_decide_eq_false_2 _ Hty). reflexivity.
    - rewrite Hcalls. destruct (bool_decide _); reflexivity. }
  rewrite Hresponses. unfold request. unfold_run.
  cbn [remote logged]. rewrite Hsubmit.
  destruct r as [run'|e]; unfold_run; eexists;
    (split; [reflexivity|]; split; [reflexivity|]);
    cbn [log logged answered]; rewrite <- !app_assoc; reflexivity.
Qed.

(** X13.  The failed branch reads the first content part of the first message
    without checking that there is one.  When the listing is empty, or the
    first message has no content, the call ends with [IndexError]; when the
    first part is not a text part, with [AttributeError].  In each case the
    failure report is not printed. *)
Theorem failed_report_needs_a_text_part
    fuel thread_id prompt_message previous s run r1 data r2 :
  get_run thread_id (run_id previous) (remote s) = (Ok run, r1) ->
  status run = "failed" ->
  list_messages thread_id_global None r1 = (Ok data, r2) ->
  match data with
  | [] => True
  | latest :: _ =>
      match content latest with
      | MessageTextContent _ :: _ => False
      | _ => True
      end
  end ->
  exists e s',
    polling (S fuel) thread_id prompt_message (Some previous) s = (Raised e, s')
    /\ e = match data with
           | [] => IndexError "list index out of range"
           | latest :: _ =>
               match content latest with
               | [] => IndexError "list index out of range"
               | _ => AttributeError "object has no attribute 'text'"
               end
           end
    /\ log s' = log s ++ [Sleep 5; Request (GetRun thread_id (run_id previous));
                          Print (status_line "failed");
                          Request (ListMessages thread_id_global None)].
Proof.
  intros Hget Hst Hlist Hdata. simpl polling_loop.
  rewrite (poll_fetches _ _ _ _ _ _ _ _ _ _ Hget).
  unfold on_status, on_failed. unfold_run. rewrite Hst.
  rewrite (bool_decide_eq_false_2 ("failed" = "completed")) by discriminate.
  rewrite (bool_decide_eq_true_2 _ (eq_refl "failed")). unfold_run.
  rewrite (request_run _ _ _ (Ok data) r2) by exact Hlist. unfold_run.
  unfold first_text.
  destruct data as [|latest rest].
  - eexists _, _. split; [reflexivity|]. split; [reflexivity|].
    cbn [log logged answered]. rewrite <- !app_assoc. reflexivity.
  - destruct (content latest) as [|[value|file|repr] parts]; try contradiction;
      (eexists _, _; split; [reflexivity|]; split; [reflexivity|];
       cbn [log logged answered]; rewrite <- !app_assoc; reflexivity).
Qed.

(** Image parts *)

(** X14.  An image part whose download call returned is saved under the one
    fixed path.  A file that was there is deleted first, and the line about it
    is printed exactly then.  Without the folder of the path, opening the file
    raises and nothing is written.  Otherwise the file holds the chunks that
    the service sent, whatever was there before: when the download breaks off
    its exception leaves the block with the file cut short, when the bytes are
    no image the call that shows them raises after the line about the
    download, and when all goes well the image is shown and the variable
    [content] keeps its value.  Every other file is as it was. *)
Theorem image_part_overwrites_the_chart
    shown image (s : Session Remote) file_content remote' :
  get_file_content image (remote s) = (Ok file_content, remote') ->
  exists r s' saving,
    handle_content show_image shown (MessageImageFileContent image) s = (r, s')
    /\ remote s' = remote'
    /\ directories s' = directories s
    /\ log s' = log s
                ++ Request (GetFileContent image)
                   :: (if bool_decide (is_Some (files s !! chart_path))
                       then [Unlink chart_path; Print ("Deleted existing file: " +:+ chart_path)]
                       else [])
                ++ saving
    /\ (forall path, path <> chart_path -> files s' !! path = files s !! path)
    /\ (chart_folder ∉ directories s ->
        r = Raise (no_such_file "data/sample_chart.png")
        /\ saving = []
        /\ files s' !! chart_path = None)
    /\ (chart_folder ∈ directories s ->
        files s' !! chart_path = Some (yielded file_content)
        /\ match interrupted file_content, show_image (yielded file_content) with
           | Some e, _ =>
               r = Raise e /\ saving = [WriteFile chart_path (yielded file_content)]
           | None, Raise e =>
               r = Raise e
               /\ saving = [WriteFile chart_path (yielded file_content);
                            Print "Image File downloaded to './data' successfully."]
           | None, Ok _ =>
               r = Ok shown
               /\ saving = [WriteFile chart_path (yielded file_content);
                            Print "Image File downloaded to './data' successfully.";
                            Render chart_path]
           end).
Proof. apply chart_part_outcome. Qed.

(** X15.  When the download of an image part raises, the exception leaves the
    content loop at once: no file is deleted or written, so a chart saved
    earlier stays in place. *)
Theorem failed_download_keeps_the_chart shown image (s : Session Remote) e remote' :
  get_file_content image (remote s) = (Raise e, remote') ->
  exists s',
    handle_content show_image shown (MessageImageFileContent image) s = (Raise e, s')
    /\ remote s' = remote'
    /\ files s' = files s
    /\ log s' = log s ++ [Request (GetFileContent image)].
Proof.
  intros Hget. unfold handle_content. unfold_run.
  rewrite (request_run _ _ _ (Raise e) remote') by exact Hget. unfold_run.
  eexists. repeat split; reflexivity.
Qed.

(** X16.  A message whose only content part is an image is printed as the
    role followed by the word None, when the image is saved and shown: the
    variable [content] is never assigned.  When the folder is missing, the
    download breaks off or the bytes are no image, the message loop is left
    with the exception and the line is not printed. *)
Theorem image_only_message_prints_none
    id who image (s : Session Remote) file_content remote' :
  get_file_content image (remote s) = (Ok file_content, remote') ->
  exists r s' evs,
    print_thread_message show_image
      {| message_id := id; role := who; content := [MessageImageFileContent image] |} s
      = (r, s')
    /\ log s' = log s ++ evs
    /\ (chart_folder ∈ directories s ->
        interrupted file_content = None ->
        show_image (yielded file_content) = Ok tt ->
        r = Ok tt
        /\ files s' !! chart_path = Some (yielded file_content)
        /\ evs = chart_events image (bool_decide (is_Some (files s !! chart_path)))
                   (yielded file_content)
                 ++ [Print (PyStr.capitalize who +:+ ": None")])
    /\ (chart_folder ∉ directories s
        \/ is_Some (interrupted file_content)
        \/ (exists e, show_image (yielded file_content) = Raise e) ->
        (exists e, r = Raise e)
        /\ Forall (fun e => is_chart_event e = true) evs).
Proof.
  intros Hget.
  destruct (chart_part_outcome show_image None image s file_content remote' Hget)
    as (r & s1 & saving & Hrun & _ & _ & Hlog & _ & Hout & Hin).
  unfold print_thread_message. cbn [content handle_contents].
  rewrite !bind_run, Hrun.
  destruct (decide (chart_folder ∈ directories s)) as [Hdir|Hdir].
  - destruct (Hin Hdir) as [Hfile Hcase].
    destruct (interrupted file_content) as [e|] eqn:Hbreak;
      [|destruct (show_image (yielded file_content)) as [[]|e] eqn:Hshow];
      destruct Hcase as [-> ->].
    + eexists _, _, _. split; [reflexivity|]. split; [exact Hlog|]. split.
      * intros _ Hnone. discriminate.
      * intros _. split; [eauto|].
        destruct (bool_decide (is_Some (files s !! chart_path))); repeat constructor.
    + unfold_run. eexists _, _, _. split; [reflexivity|]. cbn [log logged files].
      split; [rewrite Hlog, <- !app_assoc; reflexivity|]. split.
      * intros _ _ _. split; [reflexivity|]. split; [exact Hfile|].
        unfold chart_events.
        destruct (bool_decide (is_Some (files s !! chart_path))); reflexivity.
      * intros [Hno|[[e He]|[e He]]]; [contradiction | discriminate | discriminate].
    + eexists _, _, _. split; [reflexivity|]. split; [exact Hlog|]. split.
      * intros _ _ Hok. discriminate.
      * intros _. split; [eauto|].
        destruct (bool_decide (is_Some (files s !! chart_path))); repeat constructor.
  - destruct (Hout Hdir) as (-> & -> & _).
    eexists _, _, _. split; [reflexivity|]. split; [exact Hlog|]. split.
    + intros Hyes. contradiction.
    + intros _. split; [eauto|].
      destruct (bool_decide (is_Some (files s !! chart_path))); repeat constructor.
Qed.

End DriverMore.

(** ** The set-up and clean-up cells *)

Section CellsFacts.

Context {Remote : Type} `{files_client : FilesClient Remote}.

Lemma cell_bind_run {A B} (m : Cell Remote A) (f : A -> Cell Remote B) (s : Notebook Remote) :
  (m ≫= f) s =
    match m s with
    | (Ok a, s') => f a s'
    | (Raise e, s') => (Raise e, s')
    end.
Proof. reflexivity. Qed.

Lemma cell_request_run {A} (e : cell_event) (f : Remote -> result A * Remote) s r remote' :
  f (service_state s) = (r, remote') ->
  cell_request e f s = (r, traced [e] (served remote' s)).
Proof. intros Hf. unfold cell_request. rewrite Hf. reflexivity. Qed.

Lemma traced_traced (a b : list cell_event) (s : Notebook Remote) :
  traced b (traced a s) = traced (a ++ b) s.
Proof. unfold traced. simpl. rewrite <- app_assoc. reflexivity. Qed.

Lemma traced_nil (s : Notebook Remote) : traced [] s = s.
Proof. destruct s. unfold traced. simpl. rewrite app_nil_r. reflexivity. Qed.

Ltac unfold_cell :=
  repeat first
    [ rewrite cell_bind_run
    | progress cbv beta iota
    | progress unfold cell_print, cell_raise, mret, Cell_ret ].

Lemma is_portfolio_inv f :
  is_portfolio f = true -> filename f = portfolio_file /\ purpose f = "assistants".
Proof.
  unfold is_portfolio. intros Hp. apply andb_true_iff in Hp as [Hn Hu].
  apply bool_decide_eq_true in Hn, Hu. auto.
Qed.

Lemma deletes_listed_more fs f e : deletes_listed fs e -> deletes_listed (f :: fs) e.
Proof.
  destruct e; simpl; auto. intros (g & Hin & Hg). exists g. split; [right; exact Hin | exact Hg].
Qed.

(** The loop deletes listed portfolio files only, whatever the service
    answers, and touches neither the folders nor the files. *)
Lemma delete_matching_safe existing_files : forall s : Notebook Remote,
  exists r s' evs,
    delete_matching existing_files s = (r, s')
    /\ trace s' = trace s ++ evs
    /\ folders s' = folders s
    /\ disk s' = disk s
    /\ Forall (deletes_listed existing_files) evs.
Proof.
  induction existing_files as [|f fs IH]; intros s.
  - exists (Ok tt), s, []. simpl. rewrite app_nil_r. repeat split; auto.
  - cbn [delete_matching]. unfold_cell. destruct (is_portfolio f) eqn:Hp.
    + unfold_cell. unfold cell_request.
      destruct (delete_file (file_id f) (service_state s)) as [[[]|e] remote'].
      * unfold_cell.
        match goal with
        | |- context [delete_matching fs ?s0] =>
            destruct (IH s0) as (r & s' & evs & Hrun & Htrace & Hfolders & Hdisk & Hall)
        end.
        rewrite Hrun. eexists r, s', (_ :: _ :: evs).
        split; [reflexivity|]. split; [rewrite Htrace; cbn [trace traced served];
                                       rewrite <- !app_assoc; reflexivity|].
        split; [exact Hfolders|]. split; [exact Hdisk|].
        constructor; [|constructor; [exact I|]].
        -- exists f. destruct (is_portfolio_inv f Hp). repeat split; auto. left; reflexivity.
        -- eapply Forall_impl; [exact Hall|]. intros e. apply deletes_listed_more.
      * eexists _, _, [_]. split; [reflexivity|]. split; [reflexivity|].
        split; [reflexivity|]. split; [reflexivity|].
        constructor; [|constructor].
        exists f. destruct (is_portfolio_inv f Hp). repeat split; auto. left; reflexivity.
    + unfold_cell.
      destruct (IH s) as (r & s' & evs & Hrun & Htrace & Hfolders & Hdisk & Hall).
      rewrite Hrun. exists r, s', evs. repeat (split; [assumption || reflexivity|]).
      eapply Forall_impl; [exact Hall|]. intros e. apply deletes_listed_more.
Qed.

(** X17.  The part that the upload cell and the clean-up cell share deletes
    nothing but the portfolio: whatever the service answers, every file it
    asks to delete was listed with the name of the portfolio file and the
    purpose assistants, nothing is uploaded, and the local files are left
    alone. *)
Theorem only_listed_portfolio_files_are_deleted (s : Notebook Remote) :
  exists r s' evs,
    delete_existing s = (r, s')
    /\ trace s' = trace s ++ ListFiles :: evs
    /\ disk s' = disk s
    /\ Forall (fun e => is_upload e = false) evs
    /\ forall id,
         In (DeleteFile id) evs ->
         exists existing_files remote' f,
           list_files (service_state s) = (Ok existing_files, remote')
           /\ In f existing_files
           /\ file_id f = id
           /\ filename f = portfolio_file
           /\ purpose f = "assistants".
Proof.
  unfold delete_existing. unfold_cell. unfold cell_request.
  destruct (list_files (service_state s)) as [[fs|e] remote'] eqn:Hlist.
  - match goal with
    | |- context [delete_matching fs ?s0] =>
        destruct (delete_matching_safe fs s0)
          as (r & s' & evs & Hrun & Htrace & _ & Hdisk & Hall)
    end.
    unfold_cell. rewrite Hrun. exists r, s', evs.
    split; [reflexivity|].
    split; [rewrite Htrace; cbn [trace traced served]; rewrite <- app_assoc; reflexivity|].
    split; [exact Hdisk|]. split.
    + eapply Forall_impl; [exact Hall|]. intros [] He; try reflexivity; destruct He.
    + intros id Hin. rewrite Forall_forall in Hall.
      destruct (Hall _ (proj2 (list_elem_of_In _ _) Hin)) as (f & Hf).
      exists fs, remote', f. split; [reflexivity | exact Hf].
  - exists (Raise e). eexists _, []. split; [reflexivity|]. split; [reflexivity|].
    split; [reflexivity|]. split; [constructor|]. intros id [].
Qed.

Section Healthy.

(** A state of the service from which deleting a file always succeeds. *)
Variable healthy : Remote -> Prop.
Hypothesis healthy_delete :
  forall r id, healthy r -> exists r', delete_file id r = (Ok tt, r') /\ healthy r'.

Lemma delete_matching_all existing_files : forall s : Notebook Remote,
  healthy (service_state s) ->
  exists s',
    delete_matching existing_files s = (Ok tt, s')
    /\ healthy (service_state s')
    /\ folders s' = folders s
    /\ disk s' = disk s
    /\ trace s' = trace s ++ deletions existing_files.
Proof.
  induction existing_files as [|f fs IH]; intros s Hh.
  - exists s. unfold deletions. simpl. rewrite app_nil_r. repeat split; auto.
  - cbn [delete_matching]. unfold deletions. cbn [List.filter].
    unfold_cell. destruct (is_portfolio f).
    + destruct (healthy_delete _ (file_id f) Hh) as (r' & Hdel & Hh').
      unfold_cell. rewrite (cell_request_run _ _ _ _ _ Hdel). unfold_cell.
      match goal with
      | |- context [delete_matching fs ?s0] =>
          destruct (IH s0 Hh') as (s' & Hrun & Hh'' & Hfolders & Hdisk & Htrace)
      end.
      rewrite Hrun. exists s'. split; [reflexivity|]. split; [exact Hh''|].
      split; [exact Hfolders|]. split; [exact Hdisk|].
      rewrite Htrace. cbn [trace traced served flat_map]. rewrite <- !app_assoc. reflexivity.
    + unfold_cell. destruct (IH s Hh) as (s' & Hrun & Hh'' & Hfolders & Hdisk & Htrace).
      rewrite Hrun. exists s'. repeat (split; [assumption || reflexivity|]). exact Htrace.
Qed.

Lemma delete_existing_all (s : Notebook Remote) existing_files r1 :
  list_files (service_state s) = (Ok existing_files, r1) ->
  healthy r1 ->
  exists s',
    delete_existing s = (Ok tt, s')
    /\ healthy (service_state s')
    /\ folders s' = folders s
    /\ disk s' = disk s
    /\ trace s' = trace s ++ ListFiles :: deletions existing_files.
Proof.
  intros Hlist Hh. unfold delete_existing. unfold_cell.
  rewrite (cell_request_run _ _ _ _ _ Hlist). unfold_cell.
  match goal with
  | |- context [delete_matching existing_files ?s0] =>
      destruct (delete_matching_all existing_files s0 Hh)
        as (s' & Hrun & Hh' & Hfolders & Hdisk & Htrace)
  end.
  rewrite Hrun. exists s'. split; [reflexivity|]. split; [exact Hh'|].
  split; [exact Hfolders|]. split; [exact Hdisk|].
  rewrite Htrace. cbn [trace traced served]. rewrite <- app_assoc. reflexivity.
Qed.

(** X18.  When the listing succeeds and deleting does not fail, the clean-up
    cell deletes every listed file that has the name and the purpose of the
    portfolio, in the order of the listing and each followed by its printed
    line, and nothing else is asked of the service. *)
Theorem clean_up_deletes_every_listed_portfolio_file (s : Notebook Remote) existing_files r1 :
  list_files (service_state s) = (Ok existing_files, r1) ->
  healthy r1 ->
  exists s',
    delete_file_cell s = (Ok tt, s')
    /\ disk s' = disk s
    /\ trace s' = trace s ++ ListFiles :: deletions existing_files.
Proof.
  intros Hlist Hh. unfold delete_file_cell, cell_try.
  destruct (delete_existing_all s existing_files r1 Hlist Hh)
    as (s' & Hrun & _ & _ & Hdisk & Htrace).
  rewrite Hrun. exists s'. auto.
Qed.

(** X19.  A portfolio file that is missing on disk does not stop the upload
    cell in time.  The cell prints that it skips the item, yet it still
    deletes the copies that the service holds, then fails to open the file,
    prints the error and leaves [portfolio_file_id] at [None]: nothing is
    uploaded in place of what was deleted. *)
Theorem missing_file_still_deletes_the_remote_copies (s : Notebook Remote) existing_files r1 :
  directory ∈ folders s ->
  disk s !! file_path = None ->
  list_files (service_state s) = (Ok existing_files, r1) ->
  healthy r1 ->
  exists s',
    upload_cell s = (Ok None, s')
    /\ trace s' = trace s
         ++ [Printed ("Skipping non-file item: " +:+ portfolio_file); ListFiles]
         ++ deletions existing_files
         ++ [Printed (file_error (no_such_file file_path))]
    /\ Forall (fun e => is_upload e = false) (deletions existing_files).
Proof.
  intros Hdir Hnone Hlist Hh. unfold upload_cell. unfold_cell.
  unfold is_dir. unfold_cell. rewrite (bool_decide_eq_true_2 _ Hdir). cbn [negb]. unfold_cell.
  unfold is_file. unfold_cell. rewrite Hnone.
  rewrite (bool_decide_eq_false_2 (is_Some None)) by (intros [? ?]; discriminate).
  cbn [negb]. unfold_cell. unfold cell_try. unfold_cell.
  match goal with
  | |- context [delete_existing ?s0] =>
      destruct (delete_existing_all s0 existing_files r1 Hlist Hh)
        as (s1 & Hrun & _ & _ & Hdisk & Htrace)
  end.
  rewrite Hrun. unfold_cell. unfold open_rb. rewrite Hdisk. cbn [disk traced]. rewrite Hnone.
  unfold_cell. eexists. split; [reflexivity|]. split.
  - cbn [trace traced]. rewrite Htrace. cbn [trace traced]. rewrite <- !app_assoc. reflexivity.
  - unfold deletions. apply Forall_flat_map, Forall_forall. intros f _. repeat constructor.
Qed.

(** X20.  With the folder and the file in place, a listing that succeeds,
    deletions that do not fail and an upload that is accepted, the upload cell
    first deletes the listed copies of the portfolio, then opens the local
    file and uploads what it read with the purpose assistants, and leaves the
    id that the service gave in [portfolio_file_id]. *)
Theorem upload_replaces_the_remote_copies (s : Notebook Remote) data existing_files r1 :
  directory ∈ folders s ->
  disk s !! file_path = Some data ->
  list_files (service_state s) = (Ok existing_files, r1) ->
  healthy r1 ->
  (forall r, healthy r ->
     exists file r', upload_file file_path data "assistants" r = (Ok file, r')) ->
  exists file r r' s',
    upload_cell s = (Ok (Some (file_id file)), s')
    /\ upload_file file_path data "assistants" r = (Ok file, r')
    /\ service_state s' = r'
    /\ trace s' = trace s
         ++ [ListFiles]
         ++ deletions existing_files
         ++ [OpenFile file_path; UploadFile file_path data "assistants";
             Printed ("Uploaded file: " +:+ portfolio_file)].
Proof.
  intros Hdir Hdata Hlist Hh Haccept. unfold upload_cell. unfold_cell.
  unfold is_dir. unfold_cell. rewrite (bool_decide_eq_true_2 _ Hdir). cbn [negb]. unfold_cell.
  unfold is_file. unfold_cell. rewrite Hdata.
  rewrite (bool_decide_eq_true_2 (is_Some (Some data))) by eauto.
  cbn [negb]. unfold_cell. unfold cell_try. unfold_cell.
  destruct (delete_existing_all s existing_files r1 Hlist Hh)
    as (s1 & Hrun & Hh1 & _ & Hdisk & Htrace).
  rewrite Hrun. unfold_cell. unfold open_rb. rewrite Hdisk, Hdata. unfold_cell.
  destruct (Haccept _ Hh1) as (file & r' & Hup).
  rewrite (cell_request_run _ _ (traced [OpenFile file_path] s1) (Ok file) r') by exact Hup.
  unfold_cell. exists file, (service_state s1), r'. eexists.
  split; [reflexivity|]. split; [exact Hup|]. split; [reflexivity|].
  cbn [trace traced served]. rewrite Htrace, <- !app_assoc. reflexivity.
Qed.

End Healthy.

Lemma delete_existing_frame (s : Notebook Remote) :
  exists r s' evs,
    delete_existing s = (r, s')
    /\ trace s' = trace s ++ evs
    /\ folders s' = folders s
    /\ disk s' = disk s.
Proof.
  unfold delete_existing. unfold_cell. unfold cell_request.
  destruct (list_files (service_state s)) as [[fs|e] remote'].
  - match goal with
    | |- context [delete_matching fs ?s0] =>
        destruct (delete_matching_safe fs s0)
          as (r & s' & evs & Hrun & Htrace & Hfolders & Hdisk & _)
    end.
    unfold_cell. rewrite Hrun. exists r, s', (ListFiles :: evs).
    split; [reflexivity|].
    split; [rewrite Htrace; cbn [trace traced served]; rewrite <- app_assoc; reflexivity|].
    auto.
  - eexists _, _, [_]. repeat split; reflexivity.
Qed.


(** X22.  The clean-up cell that deletes the uploaded file never raises and
    never touches the local files, whatever the service answers. *)
Theorem delete_file_cell_never_raises (s : Notebook Remote) :
  exists s', delete_file_cell s = (Ok tt, s') /\ disk s' = disk s /\ folders s' = folders s.
Proof.
  unfold delete_file_cell, cell_try.
  destruct (delete_existing_frame s) as (r & s1 & evs & Hrun & _ & Hfolders & Hdisk).
  rewrite Hrun. destruct r as [[]|e].
  - exists s1. auto.
  - unfold_cell. eexists. split; [reflexivity|]. auto.
Qed.

(** X23.  The cell that deletes the agent lists the agents and, when the
    listing holds the id of the notebook's own agent, asks for the deletion of
    that agent, once, and prints the answer of the service; an error of that
    call leaves the cell.  No other agent is deleted.  When the listing does
    not hold the id, the cell prints that the agent does not exist and sends
    nothing more. *)
Theorem only_the_own_agent_is_deleted agent_id (s : Notebook Remote) listed r1 :
  list_agents (service_state s) = (Ok listed, r1) ->
  exists r s' evs,
    delete_agent_cell agent_id s = (r, s')
    /\ trace s' = trace s ++ ListAgents :: evs
    /\ (forall id, In (DeleteAgent id) evs -> id = agent_id /\ agent_id ∈ listed)
    /\ (agent_id ∉ listed ->
        r = Ok tt /\ service_state s' = r1
        /\ evs = [Printed "Agent does not exist to delete."])
    /\ (agent_id ∈ listed ->
        forall answer r2,
          delete_agent agent_id r1 = (answer, r2) ->
          service_state s' = r2
          /\ match answer with
             | Ok response =>
                 r = Ok tt
                 /\ evs = [DeleteAgent agent_id;
                           Printed ("Deleted Agent Client" +:+ PyStr.nl +:+ " " +:+ response)]
             | Raise e => r = Raise e /\ evs = [DeleteAgent agent_id]
             end).
Proof.
  intros Hlist. unfold delete_agent_cell. unfold_cell.
  rewrite (cell_request_run _ _ _ _ _ Hlist). unfold_cell.
  destruct (bool_decide (agent_id ∈ listed)) eqn:Hin.
  - apply bool_decide_eq_true in Hin. unfold_cell. unfold cell_request.
    cbn [service_state traced served].
    destruct (delete_agent agent_id r1) as [[response|e] remote'] eqn:Hdelete; unfold_cell.
    + eexists _, _, [_; _]. split; [reflexivity|].
      split; [cbn [trace traced served]; rewrite <- !app_assoc; reflexivity|]. split; [|split].
      * intros id [Heq|[Heq|[]]]; [|discriminate]. injection Heq as <-. auto.
      * intros Hout. contradiction.
      * intros _ answer r2 [= <- <-]. repeat split; reflexivity.
    + eexists _, _, [_]. split; [reflexivity|].
      split; [cbn [trace traced served]; rewrite <- !app_assoc; reflexivity|]. split; [|split].
      * intros id [Heq|[]]. injection Heq as <-. auto.
      * intros Hout. contradiction.
      * intros _ answer r2 [= <- <-]. repeat split; reflexivity.
  - apply bool_decide_eq_false in Hin.
    eexists _, _, [_]. split; [reflexivity|].
    split; [cbn [trace traced served]; rewrite <- !app_assoc; reflexivity|]. split; [|split].
    + intros id [Heq|[]]. discriminate.
    + intros _. repeat split; reflexivity.
    + intros Hyes. contradiction.
Qed.

End CellsFacts.

(** ** Further worked inputs, evaluated *)

Section MoreExamples.

Import Scripted ScriptedFiles Worked.

(** Witness of X1. *)
Lemma fetch_without_close_column_witness :
  fetch_stock_price round str history_without_close "MSFT"
  = "Error: Data missing for key: 'Close'. Verify the ticker symbol.".
Proof.
  apply (fetch_without_close_column round str history_without_close "MSFT"
           {| df_index := ["2024-12-02"]; df_columns := [("Open", [414000%N])] |});
    reflexivity.
Defined.

(** Witness of X3: a cancelled run. *)
Lemma other_status_is_waited_on_witness :
  exists s',
    poll_iteration viewer decoder registry "thread_A" "thread_A" "Price of MSFT?" (Some queued_run)
      (scripted [run_with "cancelled" None])
      = (Ok (Continue (run_with "cancelled" None)), s')
    /\ log s' = [Sleep 5; Request (GetRun "thread_A" "run_1");
                 Print (status_line "cancelled"); Sleep 5].
Proof.
  edestruct (other_status_is_waited_on viewer decoder registry "thread_A" "thread_A"
               "Price of MSFT?" queued_run (scripted [run_with "cancelled" None])
               (run_with "cancelled" None))
    as (s' & Hrun & _ & _ & Hlog); [reflexivity | reflexivity |].
  exists s'. split; [exact Hrun | exact Hlog].
Defined.

(** Witness of X4: an expired run, after six turns. *)
Lemma unhandled_status_is_polled_for_ever_witness :
  exists s',
    polling_loop viewer decoder registry "thread_A" 6 "thread_A" "Price of MSFT?" (Some queued_run)
      (scripted [run_with "expired" None])
      = (Polling, s')
    /\ polls s' = 6
    /\ slept s' = 60.
Proof.
  apply (unhandled_status_is_polled_for_ever viewer decoder registry "thread_A"
           (fun r _ => script r = [run_with "expired" None]) "thread_A" "Price of MSFT?").
  - intros r rid Hscript. exists (run_with "expired" None), r.
    simpl. unfold scripted_get_run. rewrite Hscript. auto.
  - reflexivity.
Defined.

(** Witness of X5. *)
Lemma poll_error_is_not_retried_witness :
  exists s',
    polling_loop viewer decoder registry "thread_A" 4 "thread_A" "Price of MSFT?" (Some queued_run)
      (scripted [])
      = (Raised (HttpResponseError "No run found"), s')
    /\ log s' = [Sleep 5; Request (GetRun "thread_A" "run_1")].
Proof.
  edestruct (poll_error_is_not_retried viewer decoder registry "thread_A" 3 "thread_A"
               "Price of MSFT?" queued_run (scripted []) (HttpResponseError "No run found"))
    as (s' & Hrun & _ & Hlog & _); [reflexivity |].
  exists s'. split; [exact Hrun | exact Hlog].
Defined.

(** Witness of X6. *)
Lemma started_run_is_the_one_polled_witness :
  exists s0,
    process_message viewer decoder registry "agent_1" "thread_A" 2 "thread_B" "Show a pie chart" None
      (scripted [run_with "in_progress" None])
    = polling_loop viewer decoder registry "thread_A" 2 "thread_B" "Show a pie chart"
        (Some (run_with "queued" None)) s0
    /\ log s0 = [Request (CreateMessage "thread_B" "user" "Show a pie chart" None);
                 Print "User message added...";
                 Request (CreateRun "thread_B" "agent_1" "Show a pie chart");
                 Print "Run started..."].
Proof.
  eexists. split.
  - eapply (started_run_is_the_one_polled viewer decoder registry "agent_1" "thread_A" 2 "thread_B"
              "Show a pie chart" None (scripted [run_with "in_progress" None]));
      reflexivity.
  - reflexivity.
Defined.

(** Witness of X7: MSFT and AMZN are asked for, then the run completes. *)
Lemma tool_round_then_completed_witness :
  exists s',
    polling_loop viewer decoder registry "thread_A" 5 "thread_A" "Prices?" (Some queued_run)
      (scripted [asking [msft_call; amzn_call]; run_with "completed" None])
      = (Returned PyNone, s')
    /\ submitted (remote s')
       = [[{| tool_call_id := "call_1"; output := "415.32" |};
           {| tool_call_id := "call_2"; output := "186.4" |}]]
    /\ polls s' = 2
    /\ slept s' = 10.
Proof.
  edestruct (tool_round_then_completed viewer decoder registry "thread_A" 3 "thread_A" "Prices?"
               queued_run
               (scripted [asking [msft_call; amzn_call]; run_with "completed" None])
               (asking [msft_call; amzn_call])
               (service two_threads [run_with "completed" None]) [msft_call; amzn_call])
    as (s' & evs & Hrun & Hremote & _ & Hlog);
    [reflexivity | split; reflexivity | repeat constructor; vm_compute; eauto
    | reflexivity | reflexivity | reflexivity | reflexivity | reflexivity |].
  exists s'. split; [exact Hrun|]. rewrite Hremote.
  revert Hrun. vm_compute. intros [= <-]. repeat split.
Defined.

(** Witness of X8: the second call does not decode, a third one follows. *)
Lemma failing_call_ends_the_turn_witness :
  exists s',
    poll_iteration viewer decoder registry "thread_A" "thread_A" "Prices?" (Some queued_run)
      (scripted [asking [msft_call; undecodable_amzn_call; sell_call]])
      = (Raise (JSONDecodeError "Expecting value: line 1 column 1 (char 0)"), s')
    /\ submitted (remote s') = [].
Proof.
  edestruct (failing_call_ends_the_turn viewer decoder registry "thread_A" "thread_A" "Prices?"
               queued_run
               (scripted [asking [msft_call; undecodable_amzn_call; sell_call]])
               (asking [msft_call; undecodable_amzn_call; sell_call])
               (service two_threads [asking [msft_call; undecodable_amzn_call; sell_call]])
               [msft_call] undecodable_amzn_call [sell_call]
               (JSONDecodeError "Expecting value: line 1 column 1 (char 0)"))
    as (s' & evs & Hrun & Hremote & _);
    [reflexivity | split; reflexivity | repeat constructor; vm_compute; eauto
    | vm_compute; reflexivity |].
  exists s'. split; [exact Hrun|]. rewrite Hremote. reflexivity.
Defined.

(** Witness of X9. *)
Lemma failing_call_ends_the_cell_witness :
  exists s',
    requires_action_cell decoder registry "thread_A"
      (asking [interpreter_call; msft_call; undecodable_amzn_call; sell_call]) (scripted [])
      = (Raise (JSONDecodeError "Expecting value: line 1 column 1 (char 0)"), s')
    /\ submitted (remote s') = [].
Proof.
  edestruct (failing_call_ends_the_cell decoder registry "thread_A"
               (asking [interpreter_call; msft_call; undecodable_amzn_call; sell_call])
               [interpreter_call; msft_call] undecodable_amzn_call [sell_call]
               (JSONDecodeError "Expecting value: line 1 column 1 (char 0)") (scripted []))
    as (s' & evs & Hrun & Hremote & _);
    [split; reflexivity | repeat constructor | vm_compute; reflexivity |].
  exists s'. split; [exact Hrun|]. rewrite Hremote. reflexivity.
Defined.

(** Witness of X10: three calls, two outputs. *)
Lemma cell_answers_function_calls_only_witness :
  length (tool_outputs_for decoder registry [msft_call; interpreter_call; amzn_call]) = 2
  /\ exists s',
       requires_action_cell decoder registry "thread_A"
         (asking [msft_call; interpreter_call; amzn_call]) (scripted [])
         = (Ok {| run_id := "run_1"; status := "queued"; required_action := None |}, s')
       /\ submitted (remote s')
          = [[{| tool_call_id := "call_1"; output := "415.32" |};
              {| tool_call_id := "call_2"; output := "186.4" |}]].
Proof.
  edestruct (cell_answers_function_calls_only decoder registry "thread_A"
               (asking [msft_call; interpreter_call; amzn_call])
               [msft_call; interpreter_call; amzn_call] (scripted []))
    as (Hlen & s' & evs & Hrun & Hremote & _);
    [split; reflexivity | repeat constructor | reflexivity |].
  split; [exact Hlen|]. exists s'. split; [exact Hrun|]. rewrite Hremote. reflexivity.
Defined.

(** Witness of X11: the same batch in [process_message]. *)
Lemma other_call_type_ends_the_turn_witness :
  exists s',
    poll_iteration viewer decoder registry "thread_A" "thread_A" "Prices?" (Some queued_run)
      (scripted [asking [msft_call; interpreter_call; amzn_call]])
      = (Raise (AttributeError "'RequiredToolCall' object has no attribute 'function'"), s')
    /\ submitted (remote s') = [].
Proof.
  edestruct (other_call_type_ends_the_turn viewer decoder registry "thread_A" "thread_A" "Prices?"
               queued_run (scripted [asking [msft_call; interpreter_call; amzn_call]])
               (asking [msft_call; interpreter_call; amzn_call])
               (service two_threads [asking [msft_call; interpreter_call; amzn_call]])
               [msft_call] interpreter_call [amzn_call])
    as (s' & evs & Hrun & Hremote & _);
    [reflexivity | split; reflexivity | repeat constructor; vm_compute; eauto
    | discriminate |].
  exists s'. split; [exact Hrun|]. rewrite Hremote. reflexivity.
Defined.

(** Witness of X12: a required action without tool calls. *)
Lemma cell_submits_nothing_without_batch_witness :
  exists s',
    requires_action_cell decoder registry "thread_A"
      (run_with "requires_action"
         (Some {| action_type := "submit_tool_outputs"; tool_calls := None |}))
      (scripted [])
      = (Ok {| run_id := "run_1"; status := "queued"; required_action := None |}, s')
    /\ submitted (remote s') = [[]].
Proof.
  edestruct (cell_submits_nothing_without_batch decoder registry "thread_A"
               (run_with "requires_action"
                  (Some {| action_type := "submit_tool_outputs"; tool_calls := None |}))
               {| action_type := "submit_tool_outputs"; tool_calls := None |} (scripted []))
    as (s' & Hrun & Hremote & _);
    [reflexivity | reflexivity | right; reflexivity | reflexivity |].
  exists s'. split; [exact Hrun|]. rewrite Hremote. reflexivity.
Defined.

(** Witness of X13: the thread has no message. *)
Lemma failed_report_needs_a_text_part_witness :
  exists s',
    polling_loop viewer decoder registry "thread_A" 3 "thread_A" "Price of MSFT?" (Some queued_run)
      failed_on_empty_thread
      = (Raised (IndexError "list index out of range"), s')
    /\ log s' = [Sleep 5; Request (GetRun "thread_A" "run_1"); Print (status_line "failed");
                 Request (ListMessages "thread_A" None)].
Proof.
  edestruct (failed_report_needs_a_text_part viewer decoder registry "thread_A" 2 "thread_A"
               "Price of MSFT?" queued_run failed_on_empty_thread (run_with "failed" None)
               (remote failed_on_empty_thread) [])
    as (e & s' & Hrun & -> & Hlog);
    [reflexivity | reflexivity | reflexivity | exact I |].
  exists s'. split; [exact Hrun | exact Hlog].
Defined.

(** Witness of X14: an older chart is on disk; and the same part in a session
    without the data folder. *)
Lemma image_part_overwrites_the_chart_witness :
  (exists s',
     handle_content viewer (Some "Here is the chart") (MessageImageFileContent "file_chart")
       with_old_chart
     = (Ok (Some "Here is the chart"), s')
     /\ files s' !! chart_path = Some ["PNG"; "DATA"]
     /\ log s' = [Request (GetFileContent "file_chart"); Unlink chart_path;
                  Print ("Deleted existing file: " +:+ chart_path);
                  WriteFile chart_path ["PNG"; "DATA"];
                  Print "Image File downloaded to './data' successfully.";
                  Render chart_path])
  /\ (exists s',
        handle_content viewer None (MessageImageFileContent "file_chart")
          outside_sample_folder
        = (Raise (no_such_file "data/sample_chart.png"), s')
        /\ files s' !! chart_path = None
        /\ log s' = [Request (GetFileContent "file_chart")]).
Proof.
  assert (Hold : get_file_content "file_chart" (remote with_old_chart)
                 = (Ok {| yielded := ["PNG"; "DATA"]; interrupted := None |}, chart_service))
    by (vm_compute; reflexivity).
  assert (Hnew : get_file_content "file_chart" (remote outside_sample_folder)
                 = (Ok {| yielded := ["PNG"; "DATA"]; interrupted := None |}, chart_service))
    by (vm_compute; reflexivity).
  split.
  - destruct (image_part_overwrites_the_chart viewer (Some "Here is the chart") "file_chart"
                with_old_chart {| yielded := ["PNG"; "DATA"]; interrupted := None |}
                chart_service Hold)
      as (r & s' & saving & Hrun & _ & _ & Hlog & _ & _ & Hin).
    destruct Hin as (Hfile & -> & ->); [constructor|].
    exists s'. split; [exact Hrun|]. split; [exact Hfile | exact Hlog].
  - destruct (image_part_overwrites_the_chart viewer None "file_chart"
                outside_sample_folder {| yielded := ["PNG"; "DATA"]; interrupted := None |}
                chart_service Hnew)
      as (r & s' & saving & Hrun & _ & _ & Hlog & _ & Hout & _).
    destruct Hout as (-> & -> & Hfile); [apply not_elem_of_nil|].
    exists s'. split; [exact Hrun|]. split; [exact Hfile | exact Hlog].
Defined.

(** Witness of X15: the service does not hold the image. *)
Lemma failed_download_keeps_the_chart_witness :
  exists s',
    handle_content viewer None (MessageImageFileContent "file_gone") with_old_chart
      = (Raise (HttpResponseError "No file found"), s')
    /\ files s' !! chart_path = Some ["OLD"].
Proof.
  edestruct (failed_download_keeps_the_chart viewer None "file_gone" with_old_chart)
    as (s' & Hrun & _ & Hfiles & _); [reflexivity |].
  exists s'. split; [exact Hrun|]. rewrite Hfiles. reflexivity.
Defined.

(** Witness of X16: the message holds the chart alone. *)
Lemma image_only_message_prints_none_witness :
  exists s',
    print_thread_message viewer
      {| message_id := "msg_7"; role := "assistant";
         content := [MessageImageFileContent "file_chart"] |}
      with_old_chart
      = (Ok tt, s')
    /\ files s' !! chart_path = Some ["PNG"; "DATA"]
    /\ last (log s') = Some (Print "Assistant: None").
Proof.
  assert (Hget : get_file_content "file_chart" (remote with_old_chart)
                 = (Ok {| yielded := ["PNG"; "DATA"]; interrupted := None |}, chart_service))
    by (vm_compute; reflexivity).
  destruct (image_only_message_prints_none viewer "msg_7" "assistant" "file_chart"
              with_old_chart {| yielded := ["PNG"; "DATA"]; interrupted := None |}
              chart_service Hget)
    as (r & s' & evs & Hrun & Hlog & Hok & _).
  destruct Hok as (-> & Hfile & ->); [constructor | reflexivity | reflexivity |].
  exists s'. split; [exact Hrun|]. split; [exact Hfile|].
  rewrite Hlog. reflexivity.
Defined.

Lemma accepts_all_delete r id :
  accepts_all r -> exists r', delete_file id r = (Ok tt, r') /\ accepts_all r'.
Proof.
  unfold accepts_all. intros [Hd Hu].
  change (delete_file id r) with (store_delete_file id r).
  unfold store_delete_file. rewrite Hd.
  eexists. split; [reflexivity|]. split; simpl; auto.
Qed.

(** Witness of X18. *)
Lemma clean_up_deletes_every_listed_portfolio_file_witness :
  exists s',
    delete_file_cell (ready store) = (Ok tt, s')
    /\ trace s' = [ListFiles; DeleteFile "file_1";
                   Printed "Deleted existing file: investment_portfolio.csv"].
Proof.
  edestruct (clean_up_deletes_every_listed_portfolio_file accepts_all accepts_all_delete
               (ready store))
    as (s' & Hrun & _ & Htrace); [reflexivity | split; reflexivity |].
  exists s'. split; [exact Hrun | exact Htrace].
Defined.

(** Witness of X19. *)
Lemma missing_file_still_deletes_the_remote_copies_witness :
  exists s',
    upload_cell (without_file store) = (Ok None, s')
    /\ stored (service_state s') = [other_purpose; other_name].
Proof.
  edestruct (missing_file_still_deletes_the_remote_copies accepts_all accepts_all_delete
               (without_file store))
    as (s' & Hrun & _);
    [repeat constructor | reflexivity | reflexivity | split; reflexivity |].
  exists s'. split; [exact Hrun|].
  revert Hrun. vm_compute. intros [= <-]. reflexivity.
Defined.

(** Witness of X20. *)
Lemma upload_replaces_the_remote_copies_witness :
  exists s',
    upload_cell (ready store) = (Ok (Some "file_9"), s')
    /\ stored (service_state s')
       = [other_purpose; other_name;
          {| file_id := "file_9"; filename := portfolio_file; purpose := "assistants" |}].
Proof.
  edestruct (upload_replaces_the_remote_copies accepts_all accepts_all_delete (ready store) csv)
    as (file & r & r' & s' & Hrun & _);
    [repeat constructor | reflexivity | reflexivity | split; reflexivity | |].
  - unfold accepts_all. intros r0 [_ Hu].
    change (upload_file file_path csv "assistants" r0)
      with (store_upload_file file_path csv "assistants" r0).
    unfold store_upload_file. rewrite Hu. eauto.
  - exists s'. revert Hrun. vm_compute. intros Hrun. injection Hrun as Hid <-.
    split; reflexivity.
Defined.


(** Witness of X23: the first of the two agents that the service lists. *)
Lemma only_the_own_agent_is_deleted_witness :
  exists s',
    delete_agent_cell "agent_1" (ready store) = (Ok tt, s')
    /\ trace s' = [ListAgents; DeleteAgent "agent_1";
                   Printed ("Deleted Agent Client" +:+ PyStr.nl +:+ " {'id': 'deleted'}")]
    /\ agents (service_state s') = ["agent_2"].
Proof.
  assert (Hlist : list_agents (service_state (ready store))
                  = (Ok ["agent_1"; "agent_2"], store))
    by reflexivity.
  assert (Hdelete : delete_agent "agent_1" store
                    = (Ok "{'id': 'deleted'}", (store_delete_agent "agent_1" store).2))
    by reflexivity.
  destruct (only_the_own_agent_is_deleted "agent_1" (ready store) ["agent_1"; "agent_2"]
              store Hlist)
    as (r & s' & evs & Hrun & Htrace & _ & _ & Hin).
  destruct (Hin ltac:(constructor) (Ok "{'id': 'deleted'}")
              (store_delete_agent "agent_1" store).2 Hdelete)
    as (Hstate & -> & ->).
  exists s'. split; [exact Hrun|]. split; [exact Htrace|]. rewrite Hstate. reflexivity.
Defined.

End MoreExamples.
